(** * CBCT-to-CT volumetric pipeline: datasets, patch sampling, reconstruction

    A shallow embedding of the dataset classes of the repository
    ([projects/nki_cervix_cbct_to_ct/cbcttoct_dataset.py] and
    [data/npy_unaligned_3d_dataset.py]) together with the properties that the
    specification states about them.

    Conventions of the embedding:
    - voxel intensities and tensor entries are exact rationals ([Q], compared
      with [==]); rounding of machine floats and integer/float dtype casts are
      not represented;
    - numpy arrays and torch tensors are a shape together with an indexing
      function ([ndarray]);
    - Python exceptions, logging, printing, file writes and the random
      generator are threaded through the state-and-exception monad [M]. *)

From Stdlib Require Import ZArith QArith Qabs Qminmax Qround List Ascii String DecimalString Bool Lia Lqa Arith.
Import ListNotations.

Set Implicit Arguments.
Close Scope Q_scope.

(* ------------------------------------------------------------------ *)
(** ** Exceptions, world state and the monad of dataset methods        *)
(* ------------------------------------------------------------------ *)

Definition path := list string.

Inductive exn : Type :=
| RuntimeError (msg : string)
| ValueError (msg : string)
| IndexError (msg : string)
| TypeError (msg : string)
| AssertionError (msg : string)
| KeyError (key : string)
| ZeroDivisionError (msg : string)
| OSError (msg : string).

Inductive result (A : Type) : Type :=
| Ok (a : A)
| Raise (e : exn).

Arguments Ok {A} a.
Arguments Raise {A} e.

(* ------------------------------------------------------------------ *)
(** ** Arrays: numpy [ndarray] and [torch.Tensor]                       *)
(* ------------------------------------------------------------------ *)

(** An n-dimensional array: its shape and the entry at each index.
    Only the entries at in-bounds indices are meaningful. *)
Record ndarray : Type := mk_ndarray {
  shape : list nat;
  item : list nat -> Q
}.

Fixpoint in_bounds (idx shp : list nat) : bool :=
  match idx, shp with
  | [], [] => true
  | i :: idx', d :: shp' => (i <? d) && in_bounds idx' shp'
  | _, _ => false
  end.

(** Two arrays are equal when their shapes agree and so do all entries. *)
Definition array_eq (a b : ndarray) : Prop :=
  shape a = shape b /\
  forall idx, in_bounds idx (shape a) = true -> (item a idx == item b idx)%Q.

(** [torch.full(shape, v)] *)
Definition full (shp : list nat) (v : Q) : ndarray :=
  mk_ndarray shp (fun _ => v).

(** Element-wise application, as arithmetic on a tensor does. *)
Definition amap (f : Q -> Q) (a : ndarray) : ndarray :=
  mk_ndarray (shape a) (fun idx => f (item a idx)).

(** [torch.tensor(array)]: the same data as a tensor. *)
Definition torch_tensor (a : ndarray) : ndarray := a.

(** [t.unsqueeze(0)] *)
Definition unsqueeze0 (a : ndarray) : ndarray :=
  mk_ndarray (1 :: shape a) (fun idx => item a (tl idx)).

(** [t.squeeze()] removes every axis of extent 1. [expand_index shp idx]
    rebuilds the index into the unsqueezed tensor. *)
Definition squeeze_shape (shp : list nat) : list nat :=
  filter (fun d => negb (d =? 1)) shp.

Fixpoint expand_index (shp idx : list nat) : list nat :=
  match shp with
  | [] => []
  | d :: shp' =>
      if d =? 1 then 0 :: expand_index shp' idx
      else match idx with
           | i :: idx' => i :: expand_index shp' idx'
           | [] => 0 :: expand_index shp' []
           end
  end.

Definition squeeze (a : ndarray) : ndarray :=
  mk_ndarray (squeeze_shape (shape a))
             (fun idx => item a (expand_index (shape a) idx)).

(** *** Basic slicing [a[s0:e0, s1:e1, ...]] with non-negative bounds

    Python clips both ends of a slice to the axis length, so the extent of
    [s:e] on an axis of length [n] is [min e n - min s n] (0 when negative). *)
Definition slice := (nat * nat)%type.

Definition slice_len (n : nat) (s : slice) : nat :=
  Nat.min (snd s) n - Nat.min (fst s) n.

Fixpoint slice_shape (shp : list nat) (ss : list slice) : option (list nat) :=
  match ss, shp with
  | [], _ => Some shp
  | s :: ss', d :: shp' =>
      match slice_shape shp' ss' with
      | Some r => Some (slice_len d s :: r)
      | None => None
      end
  | _ :: _, [] => None
  end.

Fixpoint shift_index (ss : list slice) (idx : list nat) : list nat :=
  match ss, idx with
  | s :: ss', i :: idx' => (fst s + i) :: shift_index ss' idx'
  | _, _ => idx
  end.

(** Reading a slice; too many indices for the array is an [IndexError]. *)
Definition getitem_slices (a : ndarray) (ss : list slice) : result ndarray :=
  match slice_shape (shape a) ss with
  | Some shp => Ok (mk_ndarray shp (fun idx => item a (shift_index ss idx)))
  | None => Raise (IndexError "too many indices for array")
  end.

(** Is [idx] inside the region selected by the slices? *)
Fixpoint in_slices (ss : list slice) (idx : list nat) : bool :=
  match ss, idx with
  | s :: ss', i :: idx' => (fst s <=? i) && (i <? snd s) && in_slices ss' idx'
  | _, _ => true
  end.

Fixpoint unshift_index (ss : list slice) (idx : list nat) : list nat :=
  match ss, idx with
  | s :: ss', i :: idx' => (i - fst s) :: unshift_index ss' idx'
  | _, _ => idx
  end.

(** *** Slice assignment [dst[s0:e0, ...] = src] with broadcasting

    torch drops the leading unit axes of [src] and then expands it to the shape
    of the indexed region: aligned from the last axis, every axis of [src] must
    have the extent of the region or extent 1. *)
Fixpoint drop_leading_ones (shp : list nat) : list nat :=
  match shp with
  | 1 :: shp' => drop_leading_ones shp'
  | _ => shp
  end.

Fixpoint expandable (src tgt : list nat) : bool :=
  match src, tgt with
  | [], [] => true
  | d :: src', t :: tgt' => ((d =? t) || (d =? 1)) && expandable src' tgt'
  | _, _ => false
  end.

Definition broadcastable (src tgt : list nat) : bool :=
  let s := drop_leading_ones src in
  (List.length s <=? List.length tgt) &&
  expandable s (skipn (List.length tgt - List.length s) tgt).

Fixpoint collapse_index (src idx : list nat) : list nat :=
  match src, idx with
  | d :: src', i :: idx' => (if d =? 1 then 0 else i) :: collapse_index src' idx'
  | _, _ => []
  end.

(** The entry of [src] that lands at region index [ridx]. *)
Definition broadcast_item (src : ndarray) (tgt ridx : list nat) : Q :=
  let s := drop_leading_ones (shape src) in
  let lead := List.length (shape src) - List.length s in
  item src (repeat 0 lead ++
            collapse_index s (skipn (List.length tgt - List.length s) ridx)).

Definition setitem_slices (dst : ndarray) (ss : list slice) (src : ndarray)
  : result ndarray :=
  match slice_shape (shape dst) ss with
  | None => Raise (IndexError "too many indices for tensor")
  | Some region =>
      if broadcastable (shape src) region then
        Ok (mk_ndarray (shape dst)
              (fun idx => if in_slices ss idx
                          then broadcast_item src region (unshift_index ss idx)
                          else item dst idx))
      else Raise (RuntimeError "shape mismatch: value tensor cannot be broadcast to indexing result")
  end.

(** [np.where(mask, a, v)] with a mask of the shape of [a]. *)
Definition np_where (mask : list nat -> bool) (a : ndarray) (v : Q) : ndarray :=
  mk_ndarray (shape a) (fun idx => if mask idx then item a idx else v).

(* ------------------------------------------------------------------ *)
(** ** Normalizer                                                       *)
(* ------------------------------------------------------------------ *)

(** [torch.clamp(x, lo, hi)] on one entry. *)
Definition clamp (x : Q) (lo hi : Z) : Q :=
  Qmin (Qmax x (inject_Z lo)) (inject_Z hi).

(** Modelled from the spec: [min_max_normalize] of
    [midaGAN.data.utils.normalization], which is not among the sources.  It is
    the forward affine map that sends [min_value, max_value] linearly onto
    [-1, 1]; the clipping is done by the caller with [torch.clamp]. *)
Definition min_max_normalize (x : Q) (min_value max_value : Z) : Q :=
  (2 * ((x - inject_Z min_value) / (inject_Z max_value - inject_Z min_value)) - 1)%Q.

(** Modelled from the spec: [min_max_denormalize] of the same module, the
    algebraic inverse of the forward affine map. *)
Definition min_max_denormalize (y : Q) (min_value max_value : Z) : Q :=
  ((y + 1) / 2 * (inject_Z max_value - inject_Z min_value) + inject_Z min_value)%Q.

(** The Normalizer as the datasets invoke it (lines 267 and 269 of
    [cbcttoct_dataset.py]): clamp to the HU range, then [min_max_normalize]. *)
Definition normalize (hu_min hu_max : Z) (x : Q) : Q :=
  min_max_normalize (clamp x hu_min hu_max) hu_min hu_max.



(** Tensor-level versions, applied entry by entry. *)
Definition torch_clamp (t : ndarray) (lo hi : Z) : ndarray :=
  amap (fun x => clamp x lo hi) t.

Definition min_max_normalize_tensor (t : ndarray) (lo hi : Z) : ndarray :=
  amap (fun x => min_max_normalize x lo hi) t.

Definition min_max_denormalize_tensor (t : ndarray) (lo hi : Z) : ndarray :=
  amap (fun y => min_max_denormalize y lo hi) t.

(* ------------------------------------------------------------------ *)
(** ** Volumes (SimpleITK images) and [sitk_utils]                      *)
(* ------------------------------------------------------------------ *)

(** A loaded volume: voxel array (numpy view, axes z, y, x) plus geometry.
    [origin], [spacing] and [direction] are in SimpleITK's x, y, z order. *)
Record image : Type := mk_image {
  pixels : ndarray;
  origin : list Q;
  spacing : list Q;
  direction : list Q;
  pixel_type : string
}.

(** [image.GetSize()]: extents in x, y, z order. *)
Definition GetSize (img : image) : list nat := rev (shape (pixels img)).
Definition GetOrigin (img : image) : list Q := origin img.
Definition GetSpacing (img : image) : list Q := spacing img.
Definition GetDirection (img : image) : list Q := direction img.

(** [image - c] *)
Definition image_sub (img : image) (c : Q) : image :=
  mk_image (amap (fun v => (v - c)%Q) (pixels img))
           (origin img) (spacing img) (direction img) (pixel_type img).

(** Modelled from the spec: the accessors of [midaGAN.utils.sitk_utils], which
    is not among the sources, following the Volume I/O interface
    (array, size, origin, spacing, direction, dtype). *)
Definition get_npy (img : image) : ndarray := pixels img.
Definition get_npy_dtype (img : image) : string := pixel_type img.
Definition get_size_zxy (img : image) : list nat := shape (pixels img).
Definition tensor_to_sitk_image (t : ndarray) (o s d : list Q) (dtype : string)
  : image := mk_image t o s d dtype.

(** Modelled from the spec: [sitk_utils.is_volume_smaller_than], the Size
    Guard's test: some axis of the volume is shorter than the patch. *)
Definition shape_smaller_than (shp patch : list nat) : bool :=
  existsb (fun dp => fst dp <? snd dp) (combine shp patch).

Definition is_volume_smaller_than (img : image) (patch_size : list nat) : bool :=
  shape_smaller_than (shape (pixels img)) patch_size.

(* ------------------------------------------------------------------ *)
(** ** World state and the monad                                        *)
(* ------------------------------------------------------------------ *)

Inductive file_content : Type :=
| SitkFile (img : image)
| PngFile (data : ndarray).

Inductive log_entry : Type :=
| LogError (msg : string) (file : path)
| LogWarning (msg : string)
| LogInfo (msg : string).

Record world : Type := mk_world {
  rand : list Q;                          (* variates the global generator will yield *)
  log : list log_entry;                   (* records emitted through [logger], oldest first *)
  stdout : list path;                     (* what [print] has written *)
  written : list (path * file_content)    (* files written, oldest first *)
}.

Definition M (A : Type) : Type := world -> result A * world.

Definition ret {A} (a : A) : M A := fun w => (Ok a, w).

Definition bind {A B} (c : M A) (k : A -> M B) : M B :=
  fun w => match c w with
           | (Ok a, w') => k a w'
           | (Raise e, w') => (Raise e, w')
           end.

Definition raise {A} (e : exn) : M A := fun w => (Raise e, w).

Definition lift {A} (r : result A) : M A := fun w => (r, w).

(** [try: c  except: h] with a bare [except]: any exception runs [h]. *)
Definition try_except {A} (c : M A) (h : M A) : M A :=
  fun w => match c w with
           | (Ok a, w') => (Ok a, w')
           | (Raise _, w') => h w'
           end.

Declare Scope monad_scope.
Delimit Scope monad_scope with monad.
Notation "x <- c ;; k" := (bind c (fun x => k))
  (at level 61, c at next level, right associativity) : monad_scope.
Notation "' pat <- c ;; k" := (bind c (fun x => match x with pat => k end))
  (at level 61, pat pattern, c at next level, right associativity) : monad_scope.
Notation "c ;; k" := (bind c (fun _ => k))
  (at level 61, right associativity) : monad_scope.
Open Scope monad_scope.

Definition logger_error (msg : string) (file : path) : M unit :=
  fun w => (Ok tt, mk_world (rand w) (log w ++ [LogError msg file]) (stdout w) (written w)).

Definition logger_info (msg : string) : M unit :=
  fun w => (Ok tt, mk_world (rand w) (log w ++ [LogInfo msg]) (stdout w) (written w)).

Definition logger_warning (msg : string) : M unit :=
  fun w => (Ok tt, mk_world (rand w) (log w ++ [LogWarning msg]) (stdout w) (written w)).

Definition print (p : path) : M unit :=
  fun w => (Ok tt, mk_world (rand w) (log w) (stdout w ++ [p]) (written w)).

Definition write_file (p : path) (c : file_content) : M unit :=
  fun w => (Ok tt, mk_world (rand w) (log w) (stdout w) (written w ++ [(p, c)])).

(** [sitk_utils.write(image, path)] *)
Definition sitk_write (img : image) (p : path) : M unit :=
  write_file p (SitkFile img).

(** *** The global random generator

    [random_random] is [random.random()]: the next variate, brought into
    [0, 1).  A generator with nothing left yields 0. *)
Definition frac (u : Q) : Q := (u - inject_Z (Qfloor u))%Q.

Definition random_random : M Q :=
  fun w => match rand w with
           | [] => (Ok 0%Q, w)
           | u :: rest => (Ok (frac u), mk_world rest (log w) (stdout w) (written w))
           end.

(** [random.choice(seq)]: [seq[int(random() * len(seq))]]; an empty sequence
    is an [IndexError]. *)
Definition random_choice {A} (l : list A) : M A :=
  match l with
  | [] => raise (IndexError "Cannot choose from an empty sequence")
  | a :: _ =>
      u <- random_random ;;
      ret (nth (Z.to_nat (Qfloor (u * inject_Z (Z.of_nat (List.length l))))) l a)
  end.

(** [random.randint(a, b)] with [a <= b]; an empty range is a [ValueError]. *)
Definition random_randint (a b : Z) : M Z :=
  if (b <? a)%Z then raise (ValueError "empty range for randrange()")
  else u <- random_random ;;
       ret (a + Qfloor (u * inject_Z (b - a + 1)))%Z.

(** [l[i]] for a non-negative index. *)
Definition list_index {A} (l : list A) (i : nat) : M A :=
  match nth_error l i with
  | Some a => ret a
  | None => raise (IndexError "list index out of range")
  end.

(* ------------------------------------------------------------------ *)
(** ** Paths ([pathlib.Path]) and the file tree                         *)
(* ------------------------------------------------------------------ *)

Definition path_eq_dec : forall p q : path, {p = q} + {p <> q} :=
  list_eq_dec string_dec.

Fixpoint rfind_dot (s : string) (pos : nat) : option nat :=
  match s with
  | EmptyString => None
  | String c s' =>
      match rfind_dot s' (S pos) with
      | Some i => Some i
      | None => if Ascii.eqb c "."%char then Some pos else None
      end
  end.

(** The position that splits a file name into stem and suffix: the last dot,
    unless it is the first or the last character. *)
Definition split_point (name : string) : option nat :=
  match rfind_dot name 0 with
  | Some i => if (0 <? i) && (i <? String.length name - 1) then Some i else None
  | None => None
  end.

Definition name_stem (name : string) : string :=
  match split_point name with
  | Some i => substring 0 i name
  | None => name
  end.

Definition name_suffix (name : string) : string :=
  match split_point name with
  | Some i => substring i (String.length name - i) name
  | None => EmptyString
  end.

(** [p.stem], [p.suffix], [p / name], [p.relative_to(root)] *)
Definition path_stem (p : path) : string := name_stem (last p EmptyString).
Definition path_suffix (p : path) : string := name_suffix (last p EmptyString).
Definition path_join (p : path) (name : string) : path := p ++ [name].

Fixpoint relative_to (p root : path) : result path :=
  match root, p with
  | [], _ => Ok p
  | r :: root', c :: p' =>
      if string_dec r c then relative_to p' root'
      else Raise (ValueError "path is not in the subpath of root")
  | _ :: _, [] => Raise (ValueError "path is not in the subpath of root")
  end.

(** The directory tree that holds the volumes. *)
#[warnings="-register-all"]
Inductive fsnode : Type :=
| FsFile (content : image)
| FsDir (entries : list (string * fsnode)).

Fixpoint find_entry (name : string) (es : list (string * fsnode)) : option fsnode :=
  match es with
  | [] => None
  | (n, c) :: es' => if string_dec n name then Some c else find_entry name es'
  end.

Fixpoint fs_lookup (n : fsnode) (p : path) : option fsnode :=
  match p with
  | [] => Some n
  | c :: p' =>
      match n with
      | FsDir es =>
          match find_entry c es with
          | Some n' => fs_lookup n' p'
          | None => None
          end
      | FsFile _ => None
      end
  end.

(** All regular files below a node, depth first, with their paths. *)
Fixpoint fs_files (prefix : path) (n : fsnode) : list path :=
  match n with
  | FsFile _ => [prefix]
  | FsDir es =>
      (fix walk (l : list (string * fsnode)) : list path :=
         match l with
         | [] => []
         | (name, c) :: l' => fs_files (prefix ++ [name]) c ++ walk l'
         end) es
  end.

Definition has_extension (exts : list string) (p : path) : bool :=
  existsb (String.eqb (path_suffix p)) exts.

(** [dir.iterdir()]: the entries of a directory. *)
Definition fs_iterdir (fs : fsnode) (dir : path) : result (list path) :=
  match fs_lookup fs dir with
  | Some (FsDir es) => Ok (map (fun e => path_join dir (fst e)) es)
  | _ => Raise (OSError "No such directory")
  end.

(** Modelled from the spec: [make_recursive_dataset_of_files] of
    [midaGAN.utils.io], which is not among the sources: every file below
    [root] with one of the extensions.  A [root] that is not a directory is
    raised at once (the spec makes a missing modality directory fatal at
    construction). *)
Definition fs_make_recursive_dataset_of_files (fs : fsnode) (root : path)
    (exts : list string) : result (list path) :=
  match fs_lookup fs root with
  | Some (FsDir es) => Ok (filter (has_extension exts) (fs_files root (FsDir es)))
  | _ => Raise (AssertionError "not a valid directory")
  end.

(** The volume I/O provider reading from the tree. *)
Definition fs_load (fs : fsnode) (p : path) : result image :=
  match fs_lookup fs p with
  | Some (FsFile img) => Ok img
  | _ => Raise (RuntimeError "Unable to open file for reading")
  end.

(* ------------------------------------------------------------------ *)
(** ** Body Mask & Bounder, FOV Truncator, Padder                       *)
(* ------------------------------------------------------------------ *)

(** A bounding box as the code unpacks it,
    [((z_max, z_min), (y_max, y_min), (x_max, x_min))]: per axis the first
    index inside and the first index past the box. *)
Definition bounds := (slice * slice * slice)%type.

Definition bounds_slices (b : bounds) : list slice :=
  match b with (bz, by_, bx) => [bz; by_; bx] end.

Definition mask := list nat -> bool.

Definition range_any (n : nat) (f : nat -> bool) : bool := existsb f (seq 0 n).

(** First and one-past-last index below [n] at which [fg] holds. *)
Definition axis_bound (n : nat) (fg : nat -> bool) : option slice :=
  match find fg (seq 0 n), find fg (rev (seq 0 n)) with
  | Some lo, Some hi => Some (lo, S hi)
  | _, _ => None
  end.

(** The tight box around the [true] entries of a 3-D predicate; the whole
    extent when there are none. *)
Definition tight_box (dz dy dx : nat) (m : mask) : bounds :=
  let fz z := range_any dy (fun y => range_any dx (fun x => m [z; y; x])) in
  let fy y := range_any dz (fun z => range_any dx (fun x => m [z; y; x])) in
  let fx x := range_any dz (fun z => range_any dy (fun y => m [z; y; x])) in
  match axis_bound dz fz, axis_bound dy fy, axis_bound dx fx with
  | Some bz, Some by_, Some bx => (bz, by_, bx)
  | _, _, _ => ((0, dz), (0, dy), (0, dx))
  end.

(** Modelled from the spec: [get_body_mask_and_bound] of
    [midaGAN.data.utils.body_mask], which is not among the sources: the mask
    of the voxels above the threshold and the tight box around them, the full
    extent when the mask is empty.  An array that is not 3-D cannot be
    unpacked into three axes. *)
Definition threshold_body_mask_and_bound (volume : ndarray) (HU_threshold : Z)
  : result (mask * bounds) :=
  match shape volume with
  | [dz; dy; dx] =>
      let m idx := negb (Qle_bool (item volume idx) (inject_Z HU_threshold)) in
      Ok (m, tight_box dz dy dx m)
  | _ => Raise (ValueError "not enough values to unpack (expected 3)")
  end.

(** Modelled from the spec: [apply_body_mask_and_bound] of the same module,
    with its two independent toggles; the steps are those the inference
    dataset performs inline (lines 248 to 257). *)
Definition threshold_apply_body_mask_and_bound (array : ndarray)
    (apply_mask apply_bound : bool) (HU_threshold : Z) : result ndarray :=
  match threshold_body_mask_and_bound array HU_threshold with
  | Raise e => Raise e
  | Ok (body_mask, b) =>
      let array := if apply_mask then np_where body_mask array (-1024)%Q else array in
      if apply_bound then getitem_slices array (bounds_slices b) else Ok array
  end.

(** Modelled from the spec: [truncate_CBCT_based_on_fov] of
    [midaGAN.data.utils.fov_truncate], which is not among the sources: the
    valid content is what lies above the fill value (-1024 after the HU
    shift); the volume is cropped to the box that encloses the valid content
    of all slices, and returned unchanged when there is none.  Cropping moves
    the origin by the cropped voxels (axis-aligned direction). *)
Definition fov_fill_value : Z := (-1024)%Z.

Definition shift_origin (o s : list Q) (offs : list nat) : list Q :=
  map (fun t => (fst (fst t) + inject_Z (Z.of_nat (snd t)) * snd (fst t))%Q)
      (combine (combine o s) offs).

Definition crop_to_valid_fov (img : image) : image :=
  match threshold_body_mask_and_bound (pixels img) fov_fill_value with
  | Ok (_, (bz, by_, bx)) =>
      match getitem_slices (pixels img) [bz; by_; bx] with
      | Ok cropped =>
          mk_image cropped
                   (shift_origin (origin img) (spacing img) [fst bx; fst by_; fst bz])
                   (spacing img) (direction img) (pixel_type img)
      | Raise _ => img
      end
  | Raise _ => img
  end.

(** Modelled from the spec: [pad] of [midaGAN.data.utils], which is not among
    the sources: every axis shorter than the patch is extended to the patch
    extent with a constant background, the original voxels sitting at the
    offset [(patch - extent) / 2]. *)
Definition pad_background : Q := (-1024)%Q.

Definition pad_offset (d p : nat) : nat := (p - d) / 2.

Fixpoint pad_shape (patch shp : list nat) : list nat :=
  match shp, patch with
  | d :: shp', p :: patch' => Nat.max d p :: pad_shape patch' shp'
  | _, _ => shp
  end.

Fixpoint pad_offsets (patch shp : list nat) : list nat :=
  match shp, patch with
  | d :: shp', p :: patch' => pad_offset d p :: pad_offsets patch' shp'
  | _, _ => map (fun _ => 0) shp
  end.

Fixpoint in_padded (offs shp idx : list nat) : bool :=
  match offs, shp, idx with
  | o :: offs', d :: shp', i :: idx' =>
      (o <=? i) && (i <? o + d) && in_padded offs' shp' idx'
  | _, _, _ => true
  end.

Fixpoint sub_index (idx offs : list nat) : list nat :=
  match idx, offs with
  | i :: idx', o :: offs' => (i - o) :: sub_index idx' offs'
  | _, _ => idx
  end.

Definition constant_pad (patch_size : list nat) (volume : ndarray) : ndarray :=
  let offs := pad_offsets patch_size (shape volume) in
  mk_ndarray (pad_shape patch_size (shape volume))
    (fun idx => if in_padded offs (shape volume) idx
                then item volume (sub_index idx offs)
                else pad_background).

(* ------------------------------------------------------------------ *)
(** ** Stochastic Focal Patch Sampler                                   *)
(* ------------------------------------------------------------------ *)

Record StochasticFocalPatchSampler : Type := mk_sampler {
  sampler_patch_size : list nat;
  sampler_focal_region_proportion : Q
}.

(** Modelled from the spec: [StochasticFocalPatchSampler.get_patch_pair] of
    [midaGAN.data.utils.stochastic_focal_patching], which is not among the
    sources.  Per axis of extent [d] and patch extent [k] the valid starting
    offsets are [0 .. d - k]; the focal sub-interval has length
    [p * (d - k)] and is centred on the midpoint [(d - k) / 2]; a position is
    drawn uniformly from it and truncated to a voxel index. *)
Definition focal_interval (p : Q) (d k : nat) : Q * Q :=
  let r := inject_Z (Z.of_nat (d - k)) in
  let mid := (r / 2)%Q in
  let half := (p * r / 2)%Q in
  ((mid - half)%Q, (mid + half)%Q).

Definition draw_offset (p : Q) (d k : nat) : M nat :=
  u <- random_random ;;
  let (lo, hi) := focal_interval p d k in
  ret (Z.to_nat (Qfloor (lo + u * (hi - lo)))).

Fixpoint draw_offsets (p : Q) (shp patch : list nat) : M (list nat) :=
  match shp, patch with
  | d :: shp', k :: patch' =>
      o <- draw_offset p d k ;;
      os <- draw_offsets p shp' patch' ;;
      ret (o :: os)
  | _, _ => ret []
  end.

Definition patch_slices (offs patch : list nat) : list slice :=
  map (fun ok => (fst ok, fst ok + snd ok)) (combine offs patch).

(** The same offsets cut the patch out of both volumes.  A volume shorter than
    the patch on some axis violates the precondition and is fatal. *)
Definition focal_get_patch_pair (s : StochasticFocalPatchSampler)
    (volume_A volume_B : ndarray) : M (ndarray * ndarray) :=
  let patch := sampler_patch_size s in
  if shape_smaller_than (shape volume_A) patch
     || shape_smaller_than (shape volume_B) patch
  then raise (ValueError "volume smaller than the patch size")
  else
    offs <- draw_offsets (sampler_focal_region_proportion s) (shape volume_A) patch ;;
    patch_A <- lift (getitem_slices volume_A (patch_slices offs patch)) ;;
    patch_B <- lift (getitem_slices volume_B (patch_slices offs patch)) ;;
    ret (patch_A, patch_B).

(* ------------------------------------------------------------------ *)
(** ** Size Guard, replace policy                                       *)
(* ------------------------------------------------------------------ *)

(** Modelled from the spec: [size_invalid_check_and_replace] of
    [midaGAN.data.utils], which is not among the sources.  While the volume is
    undersized a different candidate of the same case is drawn and loaded in
    its place; when no candidate is left the result is [None], which the
    caller turns into the fatal error. *)
Fixpoint replace_loop (load : path -> result image) (fuel : nat)
    (volume : image) (patch_size : list nat) (candidates : list path)
  : M (option image) :=
  if is_volume_smaller_than volume patch_size then
    match fuel, candidates with
    | S fuel', _ :: _ =>
        p <- random_choice candidates ;;
        volume' <- lift (load p) ;;
        replace_loop load fuel' volume' patch_size (remove path_eq_dec p candidates)
    | _, _ => ret None
    end
  else ret (Some volume).

Definition guard_size_invalid_check_and_replace (load : path -> result image)
    (volume : image) (patch_size : list nat)
    (replacement_paths : list path) (original_path : path) : M (option image) :=
  let candidates := remove path_eq_dec original_path replacement_paths in
  replace_loop load (List.length candidates) volume patch_size candidates.

(* ------------------------------------------------------------------ *)
(** ** The helpers the datasets import                                  *)
(* ------------------------------------------------------------------ *)

(** The functions of [midaGAN.utils] and [midaGAN.data.utils] that the dataset
    classes call and that are not among the sources.  The dataset methods are
    defined over any implementation; [spec_utils] below is the one that
    follows the specification. *)
Class DataUtils : Type := {
  sitk_load : path -> result image;
  iterdir : path -> result (list path);
  make_recursive_dataset_of_files : path -> list string -> result (list path);
  size_invalid_check_and_replace :
    image -> list nat -> list path -> path -> M (option image);
  truncate_CBCT_based_on_fov : image -> image;
  truncate_CT_to_scope_of_CBCT : image -> image -> image;
  get_body_mask_and_bound : ndarray -> Z -> result (mask * bounds);
  apply_body_mask_and_bound : ndarray -> bool -> bool -> Z -> result ndarray;
  pad : list nat -> ndarray -> ndarray;
  get_patch_pair :
    StochasticFocalPatchSampler -> ndarray -> ndarray -> M (ndarray * ndarray)
}.

(** The implementation modelled from the spec, over a file tree [fs].  The
    Scope Registrar [registrar] stays a parameter: no property below depends
    on how it maps physical extents. *)
Definition spec_utils (fs : fsnode) (registrar : image -> image -> image)
  : DataUtils := {|
  sitk_load := fs_load fs;
  iterdir := fs_iterdir fs;
  make_recursive_dataset_of_files := fs_make_recursive_dataset_of_files fs;
  size_invalid_check_and_replace := guard_size_invalid_check_and_replace (fs_load fs);
  truncate_CBCT_based_on_fov := crop_to_valid_fov;
  truncate_CT_to_scope_of_CBCT := registrar;
  get_body_mask_and_bound := threshold_body_mask_and_bound;
  apply_body_mask_and_bound := threshold_apply_body_mask_and_bound;
  pad := constant_pad;
  get_patch_pair := focal_get_patch_pair
|}.

(** A Python [dict] with string keys: keys keep their insertion order and an
    assignment to an existing key replaces the value in place. *)
Definition dict (V : Type) : Type := list (string * V).

Fixpoint dict_set {V} (d : dict V) (k : string) (v : V) : dict V :=
  match d with
  | [] => [(k, v)]
  | (k', v') :: d' =>
      if string_dec k' k then (k, v) :: d' else (k', v') :: dict_set d' k v
  end.

Fixpoint dict_get {V} (d : dict V) (k : string) : option V :=
  match d with
  | [] => None
  | (k', v) :: d' => if string_dec k' k then Some v else dict_get d' k
  end.

Definition dict_keys {V} (d : dict V) : list string := map fst d.

Definition dict_lookup {V} (d : dict V) (k : string) : M V :=
  match dict_get d k with
  | Some v => ret v
  | None => raise (KeyError k)
  end.

Definition EXTENSIONS : list string := [".nrrd"%string].

(** What a training item is: [{'A': CBCT, 'B': CT}]. *)
Record sample : Type := mk_sample { A : ndarray; B : ndarray }.

(* ------------------------------------------------------------------ *)
(** ** [CBCTtoCTDataset], the training dataset                          *)
(* ------------------------------------------------------------------ *)

Module CBCTtoCTDataset.

Record Config : Type := mk_config {
  conf_root : path;
  conf_patch_size : list nat;
  conf_hounsfield_units_range : Z * Z;
  conf_focal_region_proportion : Q;
  conf_enable_masking : bool;
  conf_enable_bounding : bool;
  conf_ct_mask_threshold : Z;
  conf_cbct_mask_threshold : Z;
  conf_pad : bool
}.

(** The defaults of [CBCTtoCTDatasetConfig]. *)
Definition default_config (root : path) : Config :=
  mk_config root [32; 32; 32] ((-1024)%Z, 2048%Z) (2 # 10)
            true true (-300)%Z (-700)%Z true.

Record t : Type := mk {
  self_paths_CBCT : dict (list path);
  self_paths_CT : dict (list path);
  self_num_datapoints : nat;
  self_hu_min : Z;
  self_hu_max : Z;
  self_patch_size : list nat;
  self_patch_sampler : StochasticFocalPatchSampler;
  self_apply_mask : bool;
  self_apply_bound : bool;
  self_cbct_mask_threshold : Z;
  self_ct_mask_threshold : Z;
  self_pad : bool
}.

Section Methods.
Context {U : DataUtils}.

(** The loop of [__init__] (lines 55 to 58) over the entries of the root. *)
Fixpoint scan_patients (patients : list path)
    (paths_CBCT paths_CT : dict (list path))
  : result (dict (list path) * dict (list path)) :=
  match patients with
  | [] => Ok (paths_CBCT, paths_CT)
  | patient :: rest =>
      match make_recursive_dataset_of_files (path_join patient "CBCT") EXTENSIONS with
      | Raise e => Raise e
      | Ok cbct =>
          match make_recursive_dataset_of_files (path_join patient "CT") EXTENSIONS with
          | Raise e => Raise e
          | Ok CT_nrrds =>
              scan_patients rest
                (dict_set paths_CBCT (path_stem patient) cbct)
                (dict_set paths_CT (path_stem patient)
                   (filter (fun p => String.eqb (path_stem p) "CT") CT_nrrds))
          end
      end
  end.

Definition init (conf : Config) : result t :=
  let root_path := conf_root conf in
  match iterdir root_path with
  | Raise e => Raise e
  | Ok patients =>
      match scan_patients patients [] [] with
      | Raise e => Raise e
      | Ok (paths_CBCT, paths_CT) =>
          if negb (List.length paths_CBCT =? List.length paths_CT)
          then Raise (AssertionError "Number of patients should match for CBCT and CT")
          else
            Ok (mk paths_CBCT paths_CT (List.length paths_CT)
                   (fst (conf_hounsfield_units_range conf))
                   (snd (conf_hounsfield_units_range conf))
                   (conf_patch_size conf)
                   (mk_sampler (conf_patch_size conf) (conf_focal_region_proportion conf))
                   (conf_enable_masking conf) (conf_enable_bounding conf)
                   (conf_cbct_mask_threshold conf) (conf_ct_mask_threshold conf)
                   (conf_pad conf))
      end
  end.

(** Lines 80 to 104: pick the files of the case, load them and, under the
    replace policy, run the Size Guard.  A Python variable that may hold
    [None] is an [option]. *)
Definition choose_and_load (self : t) (index : nat)
  : M (path * path * image * image) :=
  patient_index <- list_index (dict_keys (self_paths_CT self)) index ;;
  paths_CBCT <- dict_lookup (self_paths_CBCT self) patient_index ;;
  paths_CT <- dict_lookup (self_paths_CT self) patient_index ;;
  path_CBCT <- random_choice paths_CBCT ;;
  path_CT <- random_choice paths_CT ;;
  CBCT <- lift (sitk_load path_CBCT) ;;
  CT <- lift (sitk_load path_CT) ;;
  CBCT <- (if negb (self_pad self)
           then size_invalid_check_and_replace CBCT (self_patch_size self)
                  paths_CBCT path_CBCT
           else ret (Some CBCT)) ;;
  CT <- (if negb (self_pad self)
         then size_invalid_check_and_replace CT (self_patch_size self)
                paths_CT path_CT
         else ret (Some CT)) ;;
  match CBCT, CT with
  | Some CBCT, Some CT => ret (path_CBCT, path_CT, CBCT, CT)
  | _, _ => raise (RuntimeError "Suitable replacement volume could not be found!")
  end.

(** Lines 139 to 150: the [try] around [apply_body_mask_and_bound]; on any
    exception the file is logged and the variable keeps its array. *)
Definition mask_and_bound_or_keep (array : ndarray) (self : t)
    (HU_threshold : Z) (file : path) : M ndarray :=
  try_except
    (lift (apply_body_mask_and_bound array (self_apply_mask self)
             (self_apply_bound self) HU_threshold))
    (logger_error "Error applying mask and bound in file : " file ;;
     ret array).

(** Lines 125 to 129: the registered CT is dropped again when it is too
    small under the replace policy. *)
Definition choose_CT (self : t) (CT CT_truncated : image) : M image :=
  if is_volume_smaller_than CT_truncated (self_patch_size self)
     && negb (self_pad self)
  then logger_info "Post-registration truncated CT is smaller than the defined patch size. Passing the whole CT volume." ;;
       ret CT
  else ret CT_truncated.

(** Lines 153 to 155. *)
Definition pad_if_enabled (self : t) (array : ndarray) : ndarray :=
  if self_pad self then pad (self_patch_size self) array else array.

(** Lines 106 to 155: HU shift, FOV truncation, the size checks of the
    replace policy, scope registration, body mask and bound, and padding
    under the pad policy.  The result is the pair of arrays handed to the
    patch sampler.  ([DEBUG] is [False], so lines 159 to 167 do nothing.) *)
Definition prepare_volumes (self : t) (path_CBCT path_CT : path)
    (CBCT CT : image) : M (ndarray * ndarray) :=
  let CBCT := image_sub CBCT 1024 in
  let CBCT := truncate_CBCT_based_on_fov CBCT in
  if (is_volume_smaller_than CBCT (self_patch_size self)
      || is_volume_smaller_than CT (self_patch_size self))
     && negb (self_pad self)
  then raise (ValueError "Volume size not smaller than the defined patch size.")
  else
    let CT_truncated := truncate_CT_to_scope_of_CBCT CT CBCT in
    CT <- choose_CT self CT CT_truncated ;;
    let CBCT := get_npy CBCT in
    let CT := get_npy CT in
    CBCT <- mask_and_bound_or_keep CBCT self (self_cbct_mask_threshold self) path_CBCT ;;
    CT <- mask_and_bound_or_keep CT self (self_ct_mask_threshold self) path_CT ;;
    let CBCT := pad_if_enabled self CBCT in
    let CT := pad_if_enabled self CT in
    ret (torch_tensor CBCT, torch_tensor CT).

(** Lines 173 to 188: patch extraction, clamping, normalisation and the
    channel axis. *)
Definition extract_and_normalize (self : t) (CBCT CT : ndarray) : M sample :=
  '(CBCT, CT) <- get_patch_pair (self_patch_sampler self) CBCT CT ;;
  let CBCT := torch_clamp CBCT (self_hu_min self) (self_hu_max self) in
  let CT := torch_clamp CT (self_hu_min self) (self_hu_max self) in
  let CBCT := min_max_normalize_tensor CBCT (self_hu_min self) (self_hu_max self) in
  let CT := min_max_normalize_tensor CT (self_hu_min self) (self_hu_max self) in
  let CBCT := unsqueeze0 CBCT in
  let CT := unsqueeze0 CT in
  ret (mk_sample CBCT CT).

(** The arrays that reach the patch sampler for item [index]. *)
Definition volumes_at_sampler (self : t) (index : nat) : M (ndarray * ndarray) :=
  '(path_CBCT, path_CT, CBCT, CT) <- choose_and_load self index ;;
  prepare_volumes self path_CBCT path_CT CBCT CT.

(** [__getitem__] *)
Definition getitem (self : t) (index : nat) : M sample :=
  '(CBCT, CT) <- volumes_at_sampler self index ;;
  extract_and_normalize self CBCT CT.

(** [__len__] *)
Definition len (self : t) : nat := self_num_datapoints self.
End Methods.
End CBCTtoCTDataset.

(* ------------------------------------------------------------------ *)
(** ** [CBCTtoCTInferenceDataset]                                       *)
(* ------------------------------------------------------------------ *)

(** The entries of the metadata list, a heterogeneous Python list. *)
Inductive pyobj : Type :=
| PyPath (p : path)
| PySize (size : list nat)
| PyFloats (v : list Q)
| PyDtype (d : string)
| PyBounds (b : bounds).

Module CBCTtoCTInferenceDataset.

Record Config : Type := mk_config {
  conf_root : path;
  conf_hounsfield_units_range : Z * Z;
  conf_enable_masking : bool;
  conf_enable_bounding : bool;
  conf_cbct_mask_threshold : Z
}.

(** The defaults of [CBCTtoCTInferenceDatasetConfig]. *)
Definition default_config (root : path) : Config :=
  mk_config root ((-1024)%Z, 2048%Z) false true (-700)%Z.

Record t : Type := mk {
  self_root_path : path;
  self_paths : list path;
  self_num_datapoints : nat;
  self_hu_min : Z;
  self_hu_max : Z;
  self_apply_mask : bool;
  self_apply_bound : bool;
  self_cbct_mask_threshold : Z
}.

Section Methods.
Context {U : DataUtils}.

Fixpoint scan_patients (patients : list path) (paths : list path)
  : result (list path) :=
  match patients with
  | [] => Ok paths
  | patient :: rest =>
      match make_recursive_dataset_of_files (path_join patient "CBCT") EXTENSIONS with
      | Raise e => Raise e
      | Ok found => scan_patients rest (paths ++ found)
      end
  end.

Definition init (conf : Config) : result t :=
  match iterdir (conf_root conf) with
  | Raise e => Raise e
  | Ok patients =>
      match scan_patients patients [] with
      | Raise e => Raise e
      | Ok paths =>
          Ok (mk (conf_root conf) paths (List.length paths)
                 (fst (conf_hounsfield_units_range conf))
                 (snd (conf_hounsfield_units_range conf))
                 (conf_enable_masking conf) (conf_enable_bounding conf)
                 (conf_cbct_mask_threshold conf))
      end
  end.

(** [__getitem__], lines 225 to 273. *)
Definition getitem (self : t) (index : nat) : M (ndarray * list pyobj) :=
  path <- list_index (self_paths self) index ;;
  print path ;;
  volume <- lift (sitk_load path) ;;
  let volume := image_sub volume 1024 in
  let volume := truncate_CBCT_based_on_fov volume in
  let metadata := [PyPath path;
                   PySize (GetSize volume);
                   PyFloats (GetOrigin volume);
                   PyFloats (GetSpacing volume);
                   PyFloats (GetDirection volume);
                   PyDtype (get_npy_dtype volume)] in
  let volume := get_npy volume in
  '(body_mask, (bz, by_, bx)) <-
     lift (get_body_mask_and_bound volume (self_cbct_mask_threshold self)) ;;
  let volume := if self_apply_mask self
                then np_where body_mask volume (-1024)%Q else volume in
  volume <- (if self_apply_bound self
             then lift (getitem_slices volume [bz; by_; bx])
             else ret volume) ;;
  let metadata := metadata ++ [PyBounds (bz, by_, bx)] in
  let volume := torch_tensor volume in
  let volume := torch_clamp volume (self_hu_min self) (self_hu_max self) in
  let volume := min_max_normalize_tensor volume (self_hu_min self) (self_hu_max self) in
  let volume := unsqueeze0 volume in
  ret (volume, metadata).

(** [__len__] *)
Definition len (self : t) : nat := self_num_datapoints self.

(** The canvas that [save] fills (lines 279 to 287): the tensor is
    squeezed and denormalised, then written into the box region of a
    tensor of the recorded size filled with -1024. *)
Definition fill_canvas (self : t) (tensor : ndarray) (size : list nat)
    (b : bounds) : result ndarray :=
  let tensor := squeeze tensor in
  let tensor := min_max_denormalize_tensor tensor (self_hu_min self) (self_hu_max self) in
  match size with
  | s0 :: s1 :: s2 :: _ =>
      let full_tensor := full [s2; s1; s0] (-1024)%Q in
      setitem_slices full_tensor (bounds_slices b) tensor
  | _ => Raise (IndexError "tuple index out of range")
  end.

(** [save], lines 278 to 300. *)
Definition save (self : t) (tensor : ndarray) (metadata : list pyobj)
    (output_dir : path) : M unit :=
  match metadata with
  | [PyPath datapoint_path; PySize size; PyFloats origin; PyFloats spacing;
     PyFloats direction; PyDtype dtype; PyBounds b] =>
      full_tensor <- lift (fill_canvas self tensor size b) ;;
      let sitk_image :=
        tensor_to_sitk_image full_tensor origin spacing direction dtype in
      save_path <- lift (relative_to datapoint_path (self_root_path self)) ;;
      let save_path := output_dir ++ save_path in
      sitk_write sitk_image save_path
  | _ => raise (ValueError "metadata does not unpack into seven values")
  end.
End Methods.
End CBCTtoCTInferenceDataset.

(* ------------------------------------------------------------------ *)
(** ** [NpyUnaligned3dDataset]                                          *)
(* ------------------------------------------------------------------ *)

(** What a Python call hands back here: [None] or the [{'A', 'B'}] dict. *)
Inductive pyval : Type :=
| PyNone
| PyDict (d : sample).

(** Statements of a function body: a statement either falls through to the
    next one or executes [return], which skips everything after it. *)
Inductive flow (X : Type) : Type :=
| Next (x : X)
| Returned (v : pyval).

Arguments Next {X} x.
Arguments Returned {X} v.

Definition stmt (X : Type) : Type := M (flow X).

Definition seq_stmt {X Y} (c : stmt X) (k : X -> stmt Y) : stmt Y :=
  bind c (fun f => match f with
                   | Next x => k x
                   | Returned v => ret (Returned v)
                   end).

Definition exec {X} (c : M X) : stmt X := bind c (fun x => ret (Next x)).

Definition py_return (v : pyval) : stmt unit := ret (Returned v).

(** Calling a function: the value of its [return], [None] when the body ends
    without one. *)
Definition call (body : stmt unit) : M pyval :=
  bind body (fun f => match f with
                      | Next _ => ret PyNone
                      | Returned v => ret v
                      end).

Declare Scope stmt_scope.
Delimit Scope stmt_scope with stmt.
Notation "x <- c ;; k" := (seq_stmt c (fun x => k))
  (at level 61, c at next level, right associativity) : stmt_scope.
Notation "' pat <- c ;; k" := (seq_stmt c (fun x => match x with pat => k end))
  (at level 61, pat pattern, c at next level, right associativity) : stmt_scope.
Notation "c ;; k" := (seq_stmt c (fun _ => k))
  (at level 61, right associativity) : stmt_scope.

(** [t[i]] on the first axis, and the list that iterating a tensor yields. *)
Definition select0 (t : ndarray) (i : nat) : ndarray :=
  mk_ndarray (tl (shape t)) (fun idx => item t (i :: idx)).

Definition iterate (t : ndarray) : result (list ndarray) :=
  match shape t with
  | [] => Raise (TypeError "iteration over a 0-d tensor")
  | d :: _ => Ok (map (select0 t) (seq 0 d))
  end.

Definition string_of_nat (n : nat) : string :=
  NilEmpty.string_of_uint (Nat.to_uint n).

Module NpyUnaligned3dDataset.

(** The functions of [util] and [data] that this dataset imports and that
    are not among the sources, with [np.load] and [plt.imsave]. *)
Class LegacyUtils : Type := {
  np_load : path -> result ndarray;
  legacy_get_patch_pair :
    StochasticFocalPatchSampler -> ndarray -> ndarray -> M (ndarray * ndarray);
  normalize_from_hu : ndarray -> Q -> Q -> result ndarray;
  plt_imsave : path -> ndarray -> M unit
}.

Record t : Type := mk {
  self_A_paths : list path;
  self_B_paths : list path;
  self_A_size : nat;
  self_B_size : nat;
  self_norm_A : Q * Q;      (* "min", "max" of normalize_A.json *)
  self_norm_B : Q * Q;
  self_patch_sampler : StochasticFocalPatchSampler
}.

Section Methods.
Context {L : LegacyUtils}.

(** [index % n] *)
Definition py_mod (index n : nat) : M nat :=
  match n with
  | O => raise (ZeroDivisionError "integer division or modulo by zero")
  | S _ => ret (index mod n)
  end.

(** [for i, slajs in enumerate(T): plt.imsave('./IGNORE/imgz/<tag>_%d.png' % i, ...)] *)
Fixpoint save_slices (tag : string) (i : nat) (slices : list ndarray) : M unit :=
  match slices with
  | [] => ret tt
  | slajs :: rest =>
      plt_imsave ["."; "IGNORE"; "imgz"; tag ++ "_" ++ string_of_nat i ++ ".png"]%string
                 slajs ;;
      save_slices tag (S i) rest
  end.

Definition dump_slices (tag : string) (T : ndarray) : M unit :=
  slices <- lift (iterate T) ;;
  save_slices tag 0 slices.

(** The body of [__getitem__], lines 33 to 59, statement by statement. *)
Definition getitem_body (self : t) (index : nat) : stmt unit :=
  (index_A <- exec (py_mod index (self_A_size self)) ;;
   index_B <- exec (random_randint 0 (Z.of_nat (self_B_size self) - 1)) ;;
   A_path <- exec (list_index (self_A_paths self) index_A) ;;
   B_path <- exec (list_index (self_B_paths self) (Z.to_nat index_B)) ;;
   A <- exec (lift (np_load A_path)) ;;
   B <- exec (lift (np_load B_path)) ;;
   ' (A, B) <- exec (legacy_get_patch_pair (self_patch_sampler self) A B) ;;
   A <- exec (lift (normalize_from_hu A (fst (self_norm_A self)) (snd (self_norm_A self)))) ;;
   B <- exec (lift (normalize_from_hu B (fst (self_norm_B self)) (snd (self_norm_B self)))) ;;
   exec (dump_slices "A" A) ;;
   exec (dump_slices "B" B) ;;
   py_return PyNone ;;
   let A := unsqueeze0 A in
   let B := unsqueeze0 B in
   py_return (PyDict (mk_sample A B)))%stmt.

(** [__getitem__] *)
Definition getitem (self : t) (index : nat) : M pyval :=
  call (getitem_body self index).

(** [__len__] *)
Definition len (self : t) : nat := Nat.max (self_A_size self) (self_B_size self).

(** The effects of lines 33 to 52 on their own: everything the body does
    before its bare [return]. *)
Definition statements_before_return (self : t) (index : nat) : M unit :=
  index_A <- py_mod index (self_A_size self) ;;
  index_B <- random_randint 0 (Z.of_nat (self_B_size self) - 1) ;;
  A_path <- list_index (self_A_paths self) index_A ;;
  B_path <- list_index (self_B_paths self) (Z.to_nat index_B) ;;
  A <- lift (np_load A_path) ;;
  B <- lift (np_load B_path) ;;
  ' (A, B) <- legacy_get_patch_pair (self_patch_sampler self) A B ;;
  A <- lift (normalize_from_hu A (fst (self_norm_A self)) (snd (self_norm_A self))) ;;
  B <- lift (normalize_from_hu B (fst (self_norm_B self)) (snd (self_norm_B self))) ;;
  dump_slices "A" A ;;
  dump_slices "B" B.
End Methods.
End NpyUnaligned3dDataset.

(* ------------------------------------------------------------------ *)
(** ** Auxiliary notions used to state the properties                   *)
(* ------------------------------------------------------------------ *)

(** The shape [t.squeeze()] leaves can still be assigned to a region of shape
    [shp] exactly when no axis of extent 1 follows an axis of another extent. *)
Fixpoint squeeze_safe (shp : list nat) : bool :=
  match shp with
  | [] => true
  | d :: shp' =>
      if d =? 1 then squeeze_safe shp'
      else forallb (fun d' => negb (d' =? 1)) shp'
  end.

(** Extents of a box inside a volume of shape [dz, dy, dx]. *)
Definition box_extents (dz dy dx : nat) (b : bounds) : list nat :=
  match b with
  | (bz, by_, bx) => [slice_len dz bz; slice_len dy by_; slice_len dx bx]
  end.

(** The inference round trip with the identity in place of the network:
    the item is prepared by [__getitem__] and handed to [save]. *)
Definition crop_then_reconstruct {U : DataUtils}
    (self : CBCTtoCTInferenceDataset.t) (index : nat) (output_dir : path)
  : M unit :=
  ' (tensor, metadata) <- CBCTtoCTInferenceDataset.getitem self index ;;
  CBCTtoCTInferenceDataset.save self tensor metadata output_dir.


(** The volume that [__getitem__] crops: the FOV-truncated array, masked
    when masking is on. *)
Definition masked_volume (apply_mask : bool) (m : mask) (volume : ndarray)
  : ndarray :=
  if apply_mask then np_where m volume (-1024)%Q else volume.

(** The part of a 3-D array inside a box. *)
Definition cropped (volume : ndarray) (dz dy dx : nat) (b : bounds) : ndarray :=
  mk_ndarray (box_extents dz dy dx b)
             (fun idx => item volume (shift_index (bounds_slices b) idx)).

(** Clamp, normalise, add the channel axis (lines 264 to 271). *)
Definition as_network_input (hu_min hu_max : Z) (volume : ndarray) : ndarray :=
  unsqueeze0
    (min_max_normalize_tensor
       (torch_clamp (torch_tensor volume) hu_min hu_max) hu_min hu_max).

(** The seven entries of the metadata list for a volume [T] read from
    [file] with body box [b]. *)
Definition metadata_of (file : path) (T : image) (b : bounds) : list pyobj :=
  [PyPath file; PySize (GetSize T); PyFloats (GetOrigin T);
   PyFloats (GetSpacing T); PyFloats (GetDirection T);
   PyDtype (get_npy_dtype T); PyBounds b].

Definition after_print (w : world) (p : path) : world :=
  mk_world (rand w) (log w) (stdout w ++ [p]) (written w).


(* ------------------------------------------------------------------ *)
(** ** Small concrete datasets used in examples                         *)
(* ------------------------------------------------------------------ *)

Module Fixtures.

(** A 3-D array given by its extents and voxel function. *)
Definition volume (dz dy dx : nat) (f : nat -> nat -> nat -> Q) : ndarray :=
  mk_ndarray [dz; dy; dx]
    (fun idx => match idx with
                | [z; y; x] => f z y x
                | _ => 0%Q
                end).

(** A volume file with unit spacing, origin 0 and identity direction. *)
Definition nrrd (a : ndarray) : image :=
  mk_image a [0; 0; 0]%Q [1; 1; 1]%Q [1; 0; 0; 0; 1; 0; 0; 0; 1]%Q "int16".

(** A dataset root with one patient holding one CBCT and one planning CT. *)
Definition one_patient (cbct ct : image) : fsnode :=
  FsDir [("patient1"%string,
          FsDir [("CBCT"%string, FsDir [("scan.nrrd"%string, FsFile cbct)]);
                 ("CT"%string, FsDir [("CT.nrrd"%string, FsFile ct)])])].

Definition scan_path : path := ["patient1"; "CBCT"; "scan.nrrd"]%string.
Definition ct_path : path := ["patient1"; "CT"; "CT.nrrd"]%string.

(** A Scope Registrar that finds the whole CT inside the CBCT's extent. *)
Definition keep_CT (CT CBCT : image) : image := CT.

Definition fresh_world : world := mk_world [] [] [] [].

(** Raw volumes (grey values, 1024 above HU). *)


(** The first slice holds only the fill value, the second soft tissue. *)
Definition empty_first_slice : ndarray :=
  volume 2 2 2 (fun z y x => match z with
                             | 0 => 0%Q
                             | _ => 2024%Q
                             end).

(** Soft tissue in every voxel. *)
Definition all_tissue : ndarray := volume 2 2 2 (fun _ _ _ => 2024%Q).

(** Valid content everywhere, but only one voxel above the body threshold. *)
Definition small_body : ndarray :=
  volume 2 2 2 (fun z y x => match z, y, x with
                             | 0, 0, 0 => 1024%Q
                             | _, _, _ => 124%Q
                             end).

Definition training_config (patch : list nat) (pad : bool)
  : CBCTtoCTDataset.Config :=
  CBCTtoCTDataset.mk_config [] patch ((-1024)%Z, 2048%Z) (2 # 10)
    true true (-300)%Z (-700)%Z pad.

Definition training_dataset (patch : list nat) (pad : bool) : CBCTtoCTDataset.t :=
  CBCTtoCTDataset.mk [("patient1"%string, [scan_path])]
    [("patient1"%string, [ct_path])] 1 (-1024) 2048 patch
    (mk_sampler patch (2 # 10)) true true (-700) (-300) pad.

(** Helpers whose Body Mask fails on every volume. *)
Definition failing_mask_utils (fs : fsnode) : DataUtils := {|
  sitk_load := fs_load fs;
  iterdir := fs_iterdir fs;
  make_recursive_dataset_of_files := fs_make_recursive_dataset_of_files fs;
  size_invalid_check_and_replace := guard_size_invalid_check_and_replace (fs_load fs);
  truncate_CBCT_based_on_fov := crop_to_valid_fov;
  truncate_CT_to_scope_of_CBCT := keep_CT;
  get_body_mask_and_bound := fun _ _ => Raise (ValueError "degenerate volume");
  apply_body_mask_and_bound := fun _ _ _ _ => Raise (ValueError "degenerate volume");
  pad := constant_pad;
  get_patch_pair := focal_get_patch_pair
|}.

(** A dataset root whose only patient has no CT directory. *)
Definition patient_without_CT (cbct : image) : fsnode :=
  FsDir [("patient1"%string,
          FsDir [("CBCT"%string, FsDir [("scan.nrrd"%string, FsFile cbct)])])].

(** Helpers for the npy dataset: two stored arrays, the focal sampler, a
    min-max normalisation and an [imsave] that records the file. *)
Definition npy_utils : NpyUnaligned3dDataset.LegacyUtils := {|
  NpyUnaligned3dDataset.np_load := fun p =>
    if path_eq_dec p ["A"; "a.npy"]%string then Ok all_tissue
    else if path_eq_dec p ["B"; "b.npy"]%string then Ok small_body
    else Raise (OSError "No such file");
  NpyUnaligned3dDataset.legacy_get_patch_pair := focal_get_patch_pair;
  NpyUnaligned3dDataset.normalize_from_hu := fun t lo hi =>
    Ok (amap (fun x => (2 * ((x - lo) / (hi - lo)) - 1)%Q) t);
  NpyUnaligned3dDataset.plt_imsave := fun p data => write_file p (PngFile data)
|}.

Definition npy_dataset : NpyUnaligned3dDataset.t :=
  NpyUnaligned3dDataset.mk [["A"; "a.npy"]%string] [["B"; "b.npy"]%string] 1 1
    (0, 4095)%Q (0, 4095)%Q (mk_sampler [2; 2; 2] (2 # 10)).

Definition inference_dataset (apply_bound : bool) : CBCTtoCTInferenceDataset.t :=
  CBCTtoCTInferenceDataset.mk [] [scan_path] 1 (-1024) 2048 false apply_bound (-700).
End Fixtures.


(** A file the volume provider can read, and a file whose volume is shorter
    than the patch on some axis. *)
Definition can_load (load : path -> result image) (p : path) : Prop :=
  exists img, load p = Ok img.

Definition loads_undersized_volume (load : path -> result image)
    (patch_size : list nat) (p : path) : Prop :=
  forall img, load p = Ok img -> is_volume_smaller_than img patch_size = true.

(** The world after [logger.error] has recorded a failed mask step. *)
Definition after_mask_error (w : world) (file : path) : world :=
  mk_world (rand w)
           (log w ++ [LogError "Error applying mask and bound in file : " file])
           (stdout w) (written w).


(* ------------------------------------------------------------------ *)
(** ** [CBCTtoCTEvalDataset]                                            *)
(* ------------------------------------------------------------------ *)

(** Order of [pathlib] paths: component by component, strings by code
    point. *)
Fixpoint path_compare (p q : path) : comparison :=
  match p, q with
  | [], [] => Eq
  | [], _ :: _ => Lt
  | _ :: _, [] => Gt
  | a :: p', b :: q' =>
      match String.compare a b with
      | Eq => path_compare p' q'
      | c => c
      end
  end.

Definition path_min (p q : path) : path :=
  match path_compare q p with
  | Lt => q
  | _ => p
  end.

(** [sorted(l)[0]]: the least path, an [IndexError] on the empty list. *)
Definition sorted_first (l : list path) : result path :=
  match l with
  | [] => Raise (IndexError "list index out of range")
  | p :: l' => Ok (fold_left path_min l' p)
  end.

(** [l[0]] *)
Definition first_item {X} (l : list X) : result X :=
  match l with
  | [] => Raise (IndexError "list index out of range")
  | x :: _ => Ok x
  end.

Module CBCTtoCTEvalDataset.

Record Config : Type := mk_config {
  conf_root : path;
  conf_hounsfield_units_range : Z * Z;
  conf_enable_masking : bool;
  conf_enable_bounding : bool;
  conf_cbct_mask_threshold : Z;
  conf_ct_mask_threshold : Z
}.

(** The defaults of [CBCTtoCTEvalDatasetConfig]. *)
Definition default_config (root : path) : Config :=
  mk_config root ((-1024)%Z, 2048%Z) false true (-700)%Z (-300)%Z.

(** The value stored per patient: [{"CT": planning_CT, "CBCT": first_CBCT}]. *)
Record patient_files : Type := mk_files {
  file_CT : path;
  file_CBCT : path
}.

(** [self.paths], a dict keyed by the patient's path. *)
Definition path_dict : Type := list (path * patient_files).

Fixpoint path_dict_set (d : path_dict) (k : path) (v : patient_files) : path_dict :=
  match d with
  | [] => [(k, v)]
  | (k', v') :: d' =>
      if path_eq_dec k' k then (k, v) :: d' else (k', v') :: path_dict_set d' k v
  end.

Fixpoint path_dict_get (d : path_dict) (k : path) : option patient_files :=
  match d with
  | [] => None
  | (k', v) :: d' => if path_eq_dec k' k then Some v else path_dict_get d' k
  end.

Record t : Type := mk {
  self_root_path : path;
  self_paths : path_dict;
  self_num_datapoints : nat;
  self_hu_min : Z;
  self_hu_max : Z;
  self_apply_mask : bool;
  self_apply_bound : bool;
  self_cbct_mask_threshold : Z;
  self_ct_mask_threshold : Z
}.

Section Methods.
Context {U : DataUtils}.

(** The loop of [__init__], lines 323 to 333. *)
Fixpoint scan_patients (patients : list path) (paths : path_dict)
  : result path_dict :=
  match patients with
  | [] => Ok paths
  | patient :: rest =>
      match make_recursive_dataset_of_files (path_join patient "CBCT") EXTENSIONS with
      | Raise e => Raise e
      | Ok found =>
          match first_item found with
          | Raise e => Raise e
          | Ok first_CBCT =>
              match make_recursive_dataset_of_files (path_join patient "CT") EXTENSIONS with
              | Raise e => Raise e
              | Ok CT_nrrds =>
                  match sorted_first
                          (filter (fun p => String.eqb (path_stem p) "CT") CT_nrrds) with
                  | Raise e => Raise e
                  | Ok planning_CT =>
                      scan_patients rest
                        (path_dict_set paths patient (mk_files planning_CT first_CBCT))
                  end
              end
          end
      end
  end.

Definition init (conf : Config) : result t :=
  match iterdir (conf_root conf) with
  | Raise e => Raise e
  | Ok patients =>
      match scan_patients patients [] with
      | Raise e => Raise e
      | Ok paths =>
          Ok (mk (conf_root conf) paths (List.length paths)
                 (fst (conf_hounsfield_units_range conf))
                 (snd (conf_hounsfield_units_range conf))
                 (conf_enable_masking conf) (conf_enable_bounding conf)
                 (conf_cbct_mask_threshold conf) (conf_ct_mask_threshold conf))
      end
  end.

(** Lines 367 to 376 and 379 to 388: mask and bound one array with its own
    body box. *)
Definition mask_and_bound (self : t) (array : ndarray) (HU_threshold : Z)
  : M ndarray :=
  ' (body_mask, (bz, by_, bx)) <- lift (get_body_mask_and_bound array HU_threshold) ;;
  let array := if self_apply_mask self
               then np_where body_mask array (-1024)%Q else array in
  if self_apply_bound self
  then lift (getitem_slices array [bz; by_; bx])
  else ret array.

(** [__getitem__], lines 346 to 407. *)
Definition getitem (self : t) (index : nat) : M sample :=
  patient_index <- list_index (map fst (self_paths self)) index ;;
  patient_dict <- match path_dict_get (self_paths self) patient_index with
                  | Some d => ret d
                  | None => raise (KeyError "patient")
                  end ;;
  let planning_CT := file_CT patient_dict in
  let first_CBCT := file_CBCT patient_dict in
  CT <- lift (sitk_load planning_CT) ;;
  CBCT <- lift (sitk_load first_CBCT) ;;
  let CBCT := image_sub CBCT 1024 in
  let CBCT := truncate_CBCT_based_on_fov CBCT in
  let CBCT := get_npy CBCT in
  let CT := get_npy CT in
  CBCT <- mask_and_bound self CBCT (self_cbct_mask_threshold self) ;;
  CT <- mask_and_bound self CT (self_ct_mask_threshold self) ;;
  let CT := torch_tensor CT in
  let CBCT := torch_tensor CBCT in
  let CT := torch_clamp CT (self_hu_min self) (self_hu_max self) in
  let CBCT := torch_clamp CBCT (self_hu_min self) (self_hu_max self) in
  let CT := min_max_normalize_tensor CT (self_hu_min self) (self_hu_max self) in
  let CBCT := min_max_normalize_tensor CBCT (self_hu_min self) (self_hu_max self) in
  let CT := unsqueeze0 CT in
  let CBCT := unsqueeze0 CBCT in
  ret (mk_sample CBCT CT).

(** [__len__] *)
Definition len (self : t) : nat := self_num_datapoints self.
End Methods.
End CBCTtoCTEvalDataset.

(** A patient entry the evaluation constructor can use: its CBCT listing
    has a first file and its CT listing has a file with the stem [CT]. *)
Definition has_both_volumes {U : DataUtils} (patient : path) : Prop :=
  exists first others CT_nrrds,
    make_recursive_dataset_of_files (path_join patient "CBCT") EXTENSIONS
      = Ok (first :: others)
    /\ make_recursive_dataset_of_files (path_join patient "CT") EXTENSIONS
       = Ok CT_nrrds
    /\ filter (fun p => String.eqb (path_stem p) "CT") CT_nrrds <> [].

(** Lines 33 to 37 of [NpyUnaligned3dDataset.__getitem__]: the two paths an
    item is read from. *)
Definition npy_choose_paths (self : NpyUnaligned3dDataset.t) (index : nat)
  : M (path * path) :=
  index_A <- NpyUnaligned3dDataset.py_mod index (NpyUnaligned3dDataset.self_A_size self) ;;
  index_B <- random_randint 0 (Z.of_nat (NpyUnaligned3dDataset.self_B_size self) - 1) ;;
  A_path <- list_index (NpyUnaligned3dDataset.self_A_paths self) index_A ;;
  B_path <- list_index (NpyUnaligned3dDataset.self_B_paths self) (Z.to_nat index_B) ;;
  ret (A_path, B_path).

(** Lines 39 to 52 of the same function: what is done with the two paths. *)
Definition npy_process_paths {L : NpyUnaligned3dDataset.LegacyUtils}
    (self : NpyUnaligned3dDataset.t) (A_path B_path : path) : M unit :=
  A <- lift (NpyUnaligned3dDataset.np_load A_path) ;;
  B <- lift (NpyUnaligned3dDataset.np_load B_path) ;;
  ' (A, B) <- NpyUnaligned3dDataset.legacy_get_patch_pair
                (NpyUnaligned3dDataset.self_patch_sampler self) A B ;;
  A <- lift (NpyUnaligned3dDataset.normalize_from_hu A
               (fst (NpyUnaligned3dDataset.self_norm_A self))
               (snd (NpyUnaligned3dDataset.self_norm_A self))) ;;
  B <- lift (NpyUnaligned3dDataset.normalize_from_hu B
               (fst (NpyUnaligned3dDataset.self_norm_B self))
               (snd (NpyUnaligned3dDataset.self_norm_B self))) ;;
  NpyUnaligned3dDataset.dump_slices "A" A ;;
  NpyUnaligned3dDataset.dump_slices "B" B.

(* ------------------------------------------------------------------ *)
(** ** [Trainer] and its configuration                                  *)
(* ------------------------------------------------------------------ *)

(** [range(a, b)] *)
Definition py_range (a b : Z) : list Z :=
  map (fun k => (a + Z.of_nat k)%Z) (seq 0 (Z.to_nat (b - a))).

(** [zip(xs, ys)] is [combine xs ys]. *)

Module Trainer.

(** The parts of [train_config.py] the trainer reads. *)
Record LoggingConfig : Type := mk_logging {
  checkpoint_dir : path;
  log_freq : Z;
  checkpoint_freq : Z
}.

Record LoadCheckpointConfig : Type := mk_load_checkpoint {
  count_start_iter : Z;
  reset_optimizers : bool
}.

Record TrainConfig : Type := mk_train_config {
  n_iters : Z;
  n_iters_decay : Z;
  logging : LoggingConfig;
  load_checkpoint : option LoadCheckpointConfig
}.

Section WithData.
(** A batch of the data loader. *)
Variable data : Type.

(** What the trainer asks of its collaborators (logger, tracker, model).
    Their calls are recorded in order; what happens inside them is not part
    of this file. *)
Inductive event : Type :=
| SetupLogging (use_stdout : bool) (filename : path) (log_level : string)
| LoggerInfo (msg : string)
| LoggerInfoSaving (iter_idx : Z)
| StartDataloadingTimer
| StartComputationTimer
| EndDataloadingTimer
| EndComputationTimer
| TrackerSetIterIdx (iter_idx : Z)
| ModelSetInput (d : data)
| ModelOptimizeParameters
| ModelGetLoggableData
| TrackerLogIter
| ModelSaveCheckpoint (iter_idx : Z)
| ModelUpdateLearningRate
| TrackerClose.

Record t : Type := mk {
  self_conf : TrainConfig;
  self_data_loader : list data;
  self_iters : list Z;
  self_iter_idx : Z;
  self_checkpoint_freq : Z;
  self_events : list event
}.

Definition emit (e : event) (self : t) : t :=
  mk (self_conf self) (self_data_loader self) (self_iters self)
     (self_iter_idx self) (self_checkpoint_freq self) (self_events self ++ [e]).

(** [_setup_logging], lines 74 to 87. *)
Definition setup_logging (local_rank : Z) (debug : bool) (events : list event)
    (conf : TrainConfig) : list event :=
  let checkpoint_dir := checkpoint_dir (logging conf) in
  let filename := path_join checkpoint_dir "log.txt" in
  let use_stdout := (local_rank =? 0)%Z || debug in
  let log_level := if negb debug then "INFO"%string else "DEBUG"%string in
  events ++ [SetupLogging use_stdout filename log_level;
             LoggerInfo "Configuration";
             LoggerInfo "Saving checkpoints, logs and config to";
             LoggerInfo "Python version";
             LoggerInfo "PyTorch version";
             LoggerInfo "CUDA - cuDNN"].

(** [__init__], lines 18 to 31; the loader that [build_loader] returns is
    given. *)
Definition init (local_rank : Z) (conf : TrainConfig) (loader : list data) : t :=
  let events := setup_logging local_rank false [] conf in
  let start_iter := match load_checkpoint conf with
                    | None => 1%Z
                    | Some lc => count_start_iter lc
                    end in
  let end_iter := (1 + n_iters conf + n_iters_decay conf)%Z in
  mk conf loader (py_range start_iter end_iter) 0
     (checkpoint_freq (logging conf)) events.

(** [_do_iteration] *)
Definition do_iteration (self : t) (d : data) : t :=
  emit ModelOptimizeParameters (emit (ModelSetInput d) self).

(** [_perform_scheduler_step] *)
Definition perform_scheduler_step (self : t) : t :=
  emit ModelUpdateLearningRate self.

(** [_save_checkpoint], lines 63 to 68; [%] by zero raises. *)
Definition save_checkpoint (is_main_process : bool) (self : t) : result unit * t :=
  if is_main_process then
    if (self_checkpoint_freq self =? 0)%Z
    then (Raise (ZeroDivisionError "integer division or modulo by zero"), self)
    else if (self_iter_idx self mod self_checkpoint_freq self =? 0)%Z
         then (Ok tt,
               emit (ModelSaveCheckpoint (self_iter_idx self))
                    (emit (LoggerInfoSaving (self_iter_idx self)) self))
         else (Ok tt, self)
  else (Ok tt, self).

(** [_set_iter_idx] *)
Definition set_iter_idx (self : t) (iter_idx : Z) : t :=
  emit (TrackerSetIterIdx iter_idx)
       (mk (self_conf self) (self_data_loader self) (self_iters self)
           iter_idx (self_checkpoint_freq self) (self_events self)).

(** The body of the loop of [run], lines 40 to 53. *)
Definition iteration (is_main_process : bool) (self : t) (i : Z) (d : data)
  : result unit * t :=
  let self := emit StartComputationTimer self in
  let self := emit EndDataloadingTimer self in
  let self := set_iter_idx self i in
  let self := do_iteration self d in
  let self := emit EndComputationTimer self in
  let self := emit ModelGetLoggableData self in
  let self := emit TrackerLogIter self in
  match save_checkpoint is_main_process self with
  | (Raise e, self) => (Raise e, self)
  | (Ok _, self) =>
      let self := perform_scheduler_step self in
      (Ok tt, emit StartDataloadingTimer self)
  end.

Fixpoint loop (is_main_process : bool) (pairs : list (Z * data)) (self : t)
  : result unit * t :=
  match pairs with
  | [] => (Ok tt, self)
  | (i, d) :: rest =>
      match iteration is_main_process self i d with
      | (Raise e, self) => (Raise e, self)
      | (Ok _, self) => loop is_main_process rest self
      end
  end.

(** [run], lines 33 to 54. *)
Definition run (is_main_process : bool) (self : t) : result unit * t :=
  let self := if is_main_process
              then emit (LoggerInfo "Training started.")
                        (emit (LoggerInfo "gan_summary") self)
              else self in
  let self := emit StartDataloadingTimer self in
  match loop is_main_process (combine (self_iters self) (self_data_loader self)) self with
  | (Raise e, self) => (Raise e, self)
  | (Ok _, self) => (Ok tt, emit TrackerClose self)
  end.

(** Readings of a trace. *)
Definition saved_checkpoints (events : list event) : list Z :=
  flat_map (fun e => match e with
                     | ModelSaveCheckpoint i => [i]
                     | _ => []
                     end) events.

Definition inputs_set (events : list event) : list data :=
  flat_map (fun e => match e with
                     | ModelSetInput d => [d]
                     | _ => []
                     end) events.

Definition scheduler_steps (events : list event) : nat :=
  List.length (filter (fun e => match e with
                                | ModelUpdateLearningRate => true
                                | _ => false
                                end) events).

Definition closed (events : list event) : bool :=
  existsb (fun e => match e with
                    | TrackerClose => true
                    | _ => false
                    end) events.
End WithData.
End Trainer.

(** The calls of one iteration of [Trainer.run], in order. *)
Definition iteration_events {data} (is_main_process : bool) (freq : Z)
    (i : Z) (d : data) : list (Trainer.event data) :=
  [Trainer.StartComputationTimer data; Trainer.EndDataloadingTimer data;
   Trainer.TrackerSetIterIdx data i; Trainer.ModelSetInput d;
   Trainer.ModelOptimizeParameters data; Trainer.EndComputationTimer data;
   Trainer.ModelGetLoggableData data; Trainer.TrackerLogIter data]
  ++ (if is_main_process && (i mod freq =? 0)%Z
      then [Trainer.LoggerInfoSaving data i; Trainer.ModelSaveCheckpoint data i]
      else [])
  ++ [Trainer.ModelUpdateLearningRate data; Trainer.StartDataloadingTimer data].

(** The calls that open [Trainer.run]. *)
Definition run_prologue {data} (is_main_process : bool) : list (Trainer.event data) :=
  (if is_main_process
   then [Trainer.LoggerInfo data "gan_summary";
         Trainer.LoggerInfo data "Training started."]
   else [])
  ++ [Trainer.StartDataloadingTimer data].

(* ------------------------------------------------------------------ *)
(** ** [BaseTracker]                                                    *)
(* ------------------------------------------------------------------ *)

Module BaseTracker.

(** The fields of the configuration the tracker reads; [conf_wandb] says
    whether [conf.logging.wandb] is set. *)
Record Conf : Type := mk_conf {
  conf_batch_size : Z;
  conf_checkpoint_dir : path;
  conf_wandb : bool;
  conf_tensorboard : bool
}.

(** What the tracker does to the world around it, in order. *)
Inductive effect : Type :=
| NewWandbTracker
| NewTensorboardTracker
| Mkdirs (p : path)
| WriteYaml (p : path) (conf : Conf)
| TensorboardClose.

(** [ticks] counts the readings of the clock so far. *)
Record env : Type := mk_env {
  ticks : nat;
  effects : list effect
}.

Record t : Type := mk {
  mode : string;
  batch_size : Z;
  output_dir : path;
  iter_idx : option Z;
  iter_end_time : option Q;
  iter_start_time : option Q;
  t_data : option Q;
  t_comp : option Q;
  wandb : bool;
  tensorboard : bool
}.

Definition do (e : effect) (w : env) : env :=
  mk_env (ticks w) (effects w ++ [e]).

Definition valid_modes : list string :=
  ["training"; "validation"; "testing"; "inference"]%string.

Section WithClock.
(** [time.time()] gives the next reading of [clock]. *)
Variable clock : nat -> Q.
(** [communication.reduce(x, average=True, all_reduce=False)] gives a number. *)
Variable reduce : Q -> Q.

Definition time_time (w : env) : Q * env :=
  (clock (ticks w), mk_env (S (ticks w)) (effects w)).

(** [_setup_wandb_tensorboard], lines 39 to 46 *)
Definition setup_wandb_tensorboard (local_rank : Z) (conf : Conf) (w : env)
  : (bool * bool) * env :=
  if (local_rank =? 0)%Z then
    let w := if conf_wandb conf then do NewWandbTracker w else w in
    let w := if conf_tensorboard conf then do NewTensorboardTracker w else w in
    ((conf_wandb conf, conf_tensorboard conf), w)
  else ((false, false), w).

(** [_setup_images_dir], lines 35 to 37 *)
Definition setup_images_dir (local_rank : Z) (self : t) (w : env) : env :=
  if (local_rank =? 0)%Z
  then do (Mkdirs (output_dir self ++ [mode self; "images"%string])) w
  else w.

(** [_save_config], lines 29 to 33 *)
Definition save_config (local_rank : Z) (self : t) (conf : Conf) (w : env) : env :=
  if (local_rank =? 0)%Z
  then do (WriteYaml (path_join (output_dir self) (mode self ++ "_config.yaml")) conf) w
  else w.

(** [__init__], lines 14 to 27 *)
Definition init (local_rank : Z) (conf : Conf) (mode : string) (w : env)
  : result t * env :=
  if existsb (String.eqb mode) valid_modes then
    let '((wandb, tensorboard), w) := setup_wandb_tensorboard local_rank conf w in
    let self := mk mode (conf_batch_size conf) (conf_checkpoint_dir conf)
                   None None None None None wandb tensorboard in
    let w := setup_images_dir local_rank self w in
    let w := save_config local_rank self conf w in
    (Ok self, w)
  else (Raise (AssertionError ""), w).

(** [set_iter_idx] *)
Definition set_iter_idx (self : t) (i : Z) : t :=
  mk (mode self) (batch_size self) (output_dir self) (Some i)
     (iter_end_time self) (iter_start_time self) (t_data self) (t_comp self)
     (wandb self) (tensorboard self).

(** [start_computation_timer] *)
Definition start_computation_timer (self : t) (w : env) : t * env :=
  let '(now, w) := time_time w in
  (mk (mode self) (batch_size self) (output_dir self) (iter_idx self)
      (iter_end_time self) (Some now) (t_data self) (t_comp self)
      (wandb self) (tensorboard self), w).

(** [start_dataloading_timer] *)
Definition start_dataloading_timer (self : t) (w : env) : t * env :=
  let '(now, w) := time_time w in
  (mk (mode self) (batch_size self) (output_dir self) (iter_idx self)
      (Some now) (iter_start_time self) (t_data self) (t_comp self)
      (wandb self) (tensorboard self), w).

(** [end_computation_timer], lines 57 to 60: a start time that is still
    [None] and a batch size of zero both raise. *)
Definition end_computation_timer (self : t) (w : env) : result t * env :=
  let '(now, w) := time_time w in
  match iter_start_time self with
  | None => (Raise (TypeError "unsupported operand type(s) for -: 'float' and 'NoneType'"), w)
  | Some start =>
      if (batch_size self =? 0)%Z
      then (Raise (ZeroDivisionError "float division by zero"), w)
      else
        let t_comp := ((now - start) / inject_Z (batch_size self))%Q in
        (Ok (mk (mode self) (batch_size self) (output_dir self) (iter_idx self)
                (iter_end_time self) (iter_start_time self) (t_data self)
                (Some (reduce t_comp)) (wandb self) (tensorboard self)), w)
  end.

(** [end_dataloading_timer], lines 62 to 65 *)
Definition end_dataloading_timer (self : t) (w : env) : result t * env :=
  match iter_start_time self, iter_end_time self with
  | Some start, Some stop =>
      (Ok (mk (mode self) (batch_size self) (output_dir self) (iter_idx self)
              (iter_end_time self) (iter_start_time self)
              (Some (reduce (start - stop)%Q)) (t_comp self)
              (wandb self) (tensorboard self)), w)
  | _, _ =>
      (Raise (TypeError "unsupported operand type(s) for -"), w)
  end.

(** [close], lines 67 to 69 *)
Definition close (local_rank : Z) (self : t) (w : env) : env :=
  if (local_rank =? 0)%Z && tensorboard self then do TensorboardClose w else w.

(** The methods above that [Trainer.run] calls on its tracker; the other
    calls of the trainer go to the logger, to the model and to [log_iter],
    which is not a method of this class. *)
Definition handle {data} (local_rank : Z) (e : Trainer.event data)
    (self : t) (w : env) : result t * env :=
  match e with
  | Trainer.StartDataloadingTimer _ =>
      let '(self, w) := start_dataloading_timer self w in (Ok self, w)
  | Trainer.StartComputationTimer _ =>
      let '(self, w) := start_computation_timer self w in (Ok self, w)
  | Trainer.EndDataloadingTimer _ => end_dataloading_timer self w
  | Trainer.EndComputationTimer _ => end_computation_timer self w
  | Trainer.TrackerSetIterIdx _ i => (Ok (set_iter_idx self i), w)
  | Trainer.TrackerClose _ => (Ok self, close local_rank self w)
  | _ => (Ok self, w)
  end.

Fixpoint handle_all {data} (local_rank : Z) (events : list (Trainer.event data))
    (self : t) (w : env) : result t * env :=
  match events with
  | [] => (Ok self, w)
  | e :: rest =>
      match handle local_rank e self w with
      | (Ok self, w) => handle_all local_rank rest self w
      | (Raise err, w) => (Raise err, w)
      end
  end.
End WithClock.
End BaseTracker.

(* ------------------------------------------------------------------ *)
(** ** Further fixtures                                                 *)
(* ------------------------------------------------------------------ *)

Module MoreFixtures.

(** Two patient directories whose names share the stem [patient]; the first
    also holds a second file in its CT directory. *)
Definition same_stem_patients (a b ct : image) : fsnode :=
  FsDir [("patient.1"%string,
          FsDir [("CBCT"%string, FsDir [("a.nrrd"%string, FsFile a)]);
                 ("CT"%string, FsDir [("CT.nrrd"%string, FsFile ct);
                                      ("mask.nrrd"%string, FsFile ct)])]);
         ("patient.2"%string,
          FsDir [("CBCT"%string, FsDir [("b.nrrd"%string, FsFile b)]);
                 ("CT"%string, FsDir [("CT.nrrd"%string, FsFile ct)])])].

Definition same_stem_dataset : CBCTtoCTDataset.t :=
  CBCTtoCTDataset.mk
    [("patient"%string, [["patient.2"; "CBCT"; "b.nrrd"]%string])]
    [("patient"%string, [["patient.2"; "CT"; "CT.nrrd"]%string])]
    1 (-1024) 2048 [32; 32; 32] (mk_sampler [32; 32; 32] (2 # 10))
    true true (-700) (-300) true.

(** A patient whose CT directory holds no file named [CT]. *)
Definition patient_without_planning_CT (cbct ct : image) : fsnode :=
  FsDir [("patient1"%string,
          FsDir [("CBCT"%string, FsDir [("scan.nrrd"%string, FsFile cbct)]);
                 ("CT"%string, FsDir [("other.nrrd"%string, FsFile ct)])])].

Definition dataset_without_planning_CT : CBCTtoCTDataset.t :=
  CBCTtoCTDataset.mk
    [("patient1"%string, [Fixtures.scan_path])]
    [("patient1"%string, [])]
    1 (-1024) 2048 [32; 32; 32] (mk_sampler [32; 32; 32] (2 # 10))
    true true (-700) (-300) true.

(** A patient with two CBCT scans and, in its CT directory, the planning CT
    beside another file. *)
Definition eval_patient (first second ct : image) : fsnode :=
  FsDir [("patient1"%string,
          FsDir [("CBCT"%string, FsDir [("a.nrrd"%string, FsFile first);
                                        ("b.nrrd"%string, FsFile second)]);
                 ("CT"%string, FsDir [("mask.nrrd"%string, FsFile ct);
                                      ("CT.nrrd"%string, FsFile ct)])])].

(** A CT in HU: air in the first slice, water in the second. *)
Definition ct_half_body : ndarray :=
  Fixtures.volume 2 2 2 (fun z y x => match z with
                                      | 0 => (-1000)%Q
                                      | _ => 0%Q
                                      end).

Definition eval_dataset (apply_bound : bool) : CBCTtoCTEvalDataset.t :=
  CBCTtoCTEvalDataset.mk []
    [(["patient1"%string],
      CBCTtoCTEvalDataset.mk_files ["patient1"; "CT"; "CT.nrrd"]%string
                                   ["patient1"; "CBCT"; "a.nrrd"]%string)]
    1 (-1024) 2048 false apply_bound (-700) (-300).
(** A fresh training of five iterations that saves every second one. *)
Definition train_conf : Trainer.TrainConfig :=
  Trainer.mk_train_config 3 2
    (Trainer.mk_logging ["checkpoints"%string] 50 2) None.

(** The same training with [checkpoint_freq: 0]. *)
Definition train_conf_freq_0 : Trainer.TrainConfig :=
  Trainer.mk_train_config 3 2
    (Trainer.mk_logging ["checkpoints"%string] 50 0) None.

(** A tracker configuration with tensorboard on and a batch size of two. *)
Definition tracker_conf : BaseTracker.Conf :=
  BaseTracker.mk_conf 2 ["checkpoints"%string] false true.

(** A clock that advances by one second per reading. *)
Definition seconds (n : nat) : Q := inject_Z (Z.of_nat n).

(** A tracker as the constructor leaves it. *)
Definition fresh_tracker : BaseTracker.t :=
  BaseTracker.mk "training" 2 ["checkpoints"%string]
    None None None None None false true.

(** A loader of four batches, named by numbers. *)
Definition batches : list nat := [10; 20; 30; 40].
End MoreFixtures.

(* ================================================================== *)
(** * Properties                                                        *)
(* ================================================================== *)

(** ** Normalizer *)

Section NormalizerFacts.
Variables hu_min hu_max : Z.
Hypothesis range_ok : (hu_min < hu_max)%Z.









End NormalizerFacts.



(** ** Arrays: squeezing and slice assignment *)




(** A squeezed tensor whose shape is not squeeze-safe cannot be assigned. *)
Lemma squeeze_unsafe_not_broadcastable (a b c : nat) :
  squeeze_safe [a; b; c] = false ->
  broadcastable (squeeze_shape [1; a; b; c]) [a; b; c] = false.
Proof.
  unfold broadcastable, squeeze_shape. simpl.
  destruct (Nat.eqb_spec a 1) as [->|Ha];
    destruct (Nat.eqb_spec b 1) as [->|Hb];
    destruct (Nat.eqb_spec c 1) as [->|Hc];
    simpl; try discriminate; intros _.
  all: try (destruct a as [|[|a]]; try lia);
    try (destruct b as [|[|b]]; try lia);
    try (destruct c as [|[|c]]; try lia); simpl.
  all: try reflexivity.
  apply Bool.andb_false_r.
Qed.

(** ** Inference dataset: what [__getitem__] returns and what [save] writes *)

Section InferenceItem.
Import CBCTtoCTInferenceDataset.
Context {U : DataUtils}.
Variables (self : t) (index : nat) (file : path) (img : image).
Variables (m : mask) (b : bounds) (dz dy dx : nat).

Let T := truncate_CBCT_based_on_fov (image_sub img 1024).

Hypothesis Hindex : nth_error (self_paths self) index = Some file.
Hypothesis Hload : sitk_load file = Ok img.
Hypothesis Hshape : shape (pixels T) = [dz; dy; dx].
Hypothesis Hbody :
  get_body_mask_and_bound (get_npy T) (self_cbct_mask_threshold self) = Ok (m, b).

Lemma getitem_returns (w : world) :
  getitem self index w =
  (Ok (as_network_input (self_hu_min self) (self_hu_max self)
         (if self_apply_bound self
          then cropped (masked_volume (self_apply_mask self) m (get_npy T)) dz dy dx b
          else masked_volume (self_apply_mask self) m (get_npy T)),
       metadata_of file T b),
   after_print w file).
Proof.
  unfold getitem, bind, list_index, lift, print, ret.
  rewrite Hindex. cbn beta iota. rewrite Hload. cbn beta iota zeta.
  fold T. rewrite Hbody. destruct b as [[bz by_] bx]. cbn beta iota zeta.
  destruct (self_apply_bound self).
  - unfold getitem_slices.
    replace (shape (if self_apply_mask self
                    then np_where m (get_npy T) (-1024)%Q else get_npy T))
      with [dz; dy; dx]
      by (destruct (self_apply_mask self); simpl; unfold get_npy; now rewrite Hshape).
    reflexivity.
  - reflexivity.
Qed.
End InferenceItem.



Section Reconstruction.
Import CBCTtoCTInferenceDataset.
Variables (self : t) (v : ndarray) (b : bounds) (dz dy dx : nat).

Hypothesis Hrange : (self_hu_min self < self_hu_max self)%Z.
Hypothesis Hsafe : squeeze_safe (box_extents dz dy dx b) = true.

End Reconstruction.


(** The inference dataset that the constructor builds over the one-patient
    tree with the default configuration. *)
Example init_inference_fixture (cbct ct : image) :
  CBCTtoCTInferenceDataset.init
    (U := spec_utils (Fixtures.one_patient cbct ct) Fixtures.keep_CT)
    (CBCTtoCTInferenceDataset.default_config [])
  = Ok (Fixtures.inference_dataset true).
Proof. reflexivity. Qed.




(** C4.  The metadata that [__getitem__] returns: the file path, then the
    size, origin, spacing, direction and dtype of the volume after the HU
    shift and the FOV truncation (those of the loaded volume when the
    truncation changes nothing), then the body box. *)
Theorem metadata_of_truncated_volume {U : DataUtils}
    (self : CBCTtoCTInferenceDataset.t) (index : nat) (w : world)
    (file : path) (img : image) (m : mask) (b : bounds) (dz dy dx : nat) :
  let T := truncate_CBCT_based_on_fov (image_sub img 1024) in
  nth_error (CBCTtoCTInferenceDataset.self_paths self) index = Some file ->
  sitk_load file = Ok img ->
  shape (pixels T) = [dz; dy; dx] ->
  get_body_mask_and_bound (get_npy T)
    (CBCTtoCTInferenceDataset.self_cbct_mask_threshold self) = Ok (m, b) ->
  exists tensor,
    CBCTtoCTInferenceDataset.getitem self index w =
    (Ok (tensor,
         [PyPath file; PySize (GetSize T); PyFloats (GetOrigin T);
          PyFloats (GetSpacing T); PyFloats (GetDirection T);
          PyDtype (get_npy_dtype T); PyBounds b]),
     after_print w file).
Proof.
  intros T Hidx Hload Hshape Hbody.
  eexists. rewrite (getitem_returns self index Hidx Hload Hshape Hbody w).
  reflexivity.
Qed.

Lemma metadata_of_truncated_volume_witness :
  exists tensor w',
    CBCTtoCTInferenceDataset.getitem
      (U := spec_utils (Fixtures.one_patient (Fixtures.nrrd Fixtures.empty_first_slice)
                          (Fixtures.nrrd Fixtures.all_tissue)) Fixtures.keep_CT)
      (Fixtures.inference_dataset true) 0 Fixtures.fresh_world =
    (Ok (tensor,
         [PyPath Fixtures.scan_path; PySize [2; 2; 1]; PyFloats [0; 0; 1]%Q;
          PyFloats [1; 1; 1]%Q; PyFloats [1; 0; 0; 0; 1; 0; 0; 0; 1]%Q;
          PyDtype "int16"; PyBounds ((0, 1), (0, 2), (0, 2))]), w').
Proof.
  destruct (@metadata_of_truncated_volume
              (spec_utils (Fixtures.one_patient (Fixtures.nrrd Fixtures.empty_first_slice)
                             (Fixtures.nrrd Fixtures.all_tissue)) Fixtures.keep_CT)
              (Fixtures.inference_dataset true) 0 Fixtures.fresh_world
              Fixtures.scan_path
              (Fixtures.nrrd Fixtures.empty_first_slice)
              (fun idx => negb (Qle_bool
                 (item (get_npy (crop_to_valid_fov
                    (image_sub (Fixtures.nrrd Fixtures.empty_first_slice) 1024))) idx)
                 (inject_Z (-700))))
              ((0, 1), (0, 2), (0, 2)) 1 2 2
              eq_refl eq_refl eq_refl eq_refl)
    as (tensor & H).
  exists tensor. eexists. exact H.
Defined.

(** C4, as stated, fails: the recorded size and origin are not those of the
    volume as loaded.  The CBCT of this dataset is loaded with size
    [2, 2, 2] and origin [0, 0, 0]; its first slice holds only the fill
    value, the FOV truncation drops it, and the metadata records size
    [2, 2, 1] and origin [0, 0, 1]. *)
Lemma metadata_differs_from_loaded_volume :
  let U := spec_utils (Fixtures.one_patient (Fixtures.nrrd Fixtures.empty_first_slice)
                         (Fixtures.nrrd Fixtures.all_tissue)) Fixtures.keep_CT in
  exists loaded tensor metadata,
    sitk_load Fixtures.scan_path = Ok loaded
    /\ fst (CBCTtoCTInferenceDataset.getitem (Fixtures.inference_dataset true) 0
              Fixtures.fresh_world) = Ok (tensor, metadata)
    /\ GetSize loaded = [2; 2; 2]
    /\ nth_error metadata 1 = Some (PySize [2; 2; 1])
    /\ nth_error metadata 1 <> Some (PySize (GetSize loaded))
    /\ GetOrigin loaded = [0; 0; 0]%Q
    /\ nth_error metadata 2 = Some (PyFloats [0; 0; 1]%Q).
Proof.
  intros U. do 3 eexists.
  split; [reflexivity|]. split; [reflexivity|]. split; [reflexivity|].
  split; [reflexivity|]. split; [discriminate|]. split; reflexivity.
Qed.

(** Whatever tensor [save] is given, a canvas it manages to fill has the
    recorded extents, the sentinel outside the box and the (squeezed,
    denormalised, broadcast) tensor inside. *)
Lemma fill_canvas_region (self : CBCTtoCTInferenceDataset.t)
    (tensor canvas : ndarray) (dz dy dx : nat) (b : bounds) :
  CBCTtoCTInferenceDataset.fill_canvas self tensor [dx; dy; dz] b = Ok canvas ->
  shape canvas = [dz; dy; dx]
  /\ (forall idx, in_slices (bounds_slices b) idx = false ->
        item canvas idx = (-1024)%Q)
  /\ (forall idx, in_slices (bounds_slices b) idx = true ->
        item canvas idx =
        broadcast_item
          (min_max_denormalize_tensor (squeeze tensor)
             (CBCTtoCTInferenceDataset.self_hu_min self)
             (CBCTtoCTInferenceDataset.self_hu_max self))
          (box_extents dz dy dx b) (unshift_index (bounds_slices b) idx)).
Proof.
  destruct b as [[bz by_] bx].
  unfold CBCTtoCTInferenceDataset.fill_canvas, setitem_slices.
  change (slice_shape (shape (full [dz; dy; dx] (-1024)%Q))
            (bounds_slices (bz, by_, bx)))
    with (Some (box_extents dz dy dx (bz, by_, bx))).
  cbv beta iota.
  destruct (broadcastable _ _); [|discriminate].
  intros H.
  apply (f_equal (fun r => match r with Ok c => c | Raise _ => canvas end)) in H.
  cbv beta iota in H. subst canvas.
  split; [reflexivity|].
  split; intros idx Hin; cbn [item]; rewrite Hin; reflexivity.
Qed.

(** C9.  The last entry of the metadata is the body box, whether or not
    bounding is enabled; [save] assigns the tensor to exactly that region of
    the canvas (everything outside keeps the sentinel); and the returned
    tensor has the extents of the box when bounding is enabled and the
    extents of the whole volume when it is not, so that its shape matches the
    box exactly when bounding is enabled or the box spans the whole volume. *)
Theorem recorded_box_and_tensor_shape {U : DataUtils}
    (self : CBCTtoCTInferenceDataset.t) (index : nat) (w : world)
    (file : path) (img : image) (m : mask) (b : bounds) (dz dy dx : nat) :
  let T := truncate_CBCT_based_on_fov (image_sub img 1024) in
  let apply_bound := CBCTtoCTInferenceDataset.self_apply_bound self in
  nth_error (CBCTtoCTInferenceDataset.self_paths self) index = Some file ->
  sitk_load file = Ok img ->
  shape (pixels T) = [dz; dy; dx] ->
  get_body_mask_and_bound (get_npy T)
    (CBCTtoCTInferenceDataset.self_cbct_mask_threshold self) = Ok (m, b) ->
  exists tensor metadata,
    CBCTtoCTInferenceDataset.getitem self index w =
      (Ok (tensor, metadata), after_print w file)
    /\ last metadata (PyPath []) = PyBounds b
    /\ shape tensor =
       1 :: (if apply_bound then box_extents dz dy dx b else [dz; dy; dx])
    /\ (shape tensor = 1 :: box_extents dz dy dx b <->
        apply_bound = true \/ box_extents dz dy dx b = [dz; dy; dx])
    /\ forall given canvas,
         CBCTtoCTInferenceDataset.fill_canvas self given (GetSize T) b = Ok canvas ->
         shape canvas = [dz; dy; dx]
         /\ (forall idx, in_slices (bounds_slices b) idx = false ->
               item canvas idx = (-1024)%Q)
         /\ (forall idx, in_slices (bounds_slices b) idx = true ->
               item canvas idx =
               broadcast_item
                 (min_max_denormalize_tensor (squeeze given)
                    (CBCTtoCTInferenceDataset.self_hu_min self)
                    (CBCTtoCTInferenceDataset.self_hu_max self))
                 (box_extents dz dy dx b) (unshift_index (bounds_slices b) idx)).
Proof.
  intros T apply_bound Hidx Hload Hshape Hbody.
  set (tensor := as_network_input (CBCTtoCTInferenceDataset.self_hu_min self)
                   (CBCTtoCTInferenceDataset.self_hu_max self)
                   (if CBCTtoCTInferenceDataset.self_apply_bound self
                    then cropped (masked_volume
                           (CBCTtoCTInferenceDataset.self_apply_mask self) m
                           (get_npy T)) dz dy dx b
                    else masked_volume
                           (CBCTtoCTInferenceDataset.self_apply_mask self) m
                           (get_npy T))).
  assert (Hs : shape tensor
               = 1 :: (if apply_bound then box_extents dz dy dx b else [dz; dy; dx])).
  { unfold tensor, apply_bound, as_network_input, masked_volume, get_npy, unsqueeze0,
      min_max_normalize_tensor, torch_clamp, torch_tensor, amap, cropped, np_where.
    destruct (CBCTtoCTInferenceDataset.self_apply_bound self);
      destruct (CBCTtoCTInferenceDataset.self_apply_mask self);
      cbn [shape]; rewrite ?Hshape; reflexivity. }
  exists tensor, (metadata_of file T b).
  split; [exact (getitem_returns self index Hidx Hload Hshape Hbody w)|].
  split; [reflexivity|].
  split; [exact Hs|]. split.
  - rewrite Hs. destruct apply_bound.
    + split; [intros _; now left | reflexivity].
    + split.
      * intros H. right. now injection H as <-.
      * intros [H|H]; [discriminate | now rewrite H].
  - intros given canvas Hfill. apply fill_canvas_region.
    unfold GetSize in Hfill. rewrite Hshape in Hfill. exact Hfill.
Qed.

Lemma recorded_box_and_tensor_shape_witness :
  exists tensor metadata,
    fst (CBCTtoCTInferenceDataset.getitem
           (U := spec_utils (Fixtures.one_patient (Fixtures.nrrd Fixtures.small_body)
                               (Fixtures.nrrd Fixtures.all_tissue)) Fixtures.keep_CT)
           (Fixtures.inference_dataset false) 0 Fixtures.fresh_world)
      = Ok (tensor, metadata)
    /\ last metadata (PyPath []) = PyBounds ((0, 1), (0, 1), (0, 1))
    /\ shape tensor = [1; 2; 2; 2].
Proof.
  destruct (@recorded_box_and_tensor_shape
              (spec_utils (Fixtures.one_patient (Fixtures.nrrd Fixtures.small_body)
                             (Fixtures.nrrd Fixtures.all_tissue)) Fixtures.keep_CT)
              (Fixtures.inference_dataset false) 0 Fixtures.fresh_world
              Fixtures.scan_path
              (Fixtures.nrrd Fixtures.small_body)
              (fun idx => negb (Qle_bool
                 (item (get_npy (crop_to_valid_fov
                    (image_sub (Fixtures.nrrd Fixtures.small_body) 1024))) idx)
                 (inject_Z (-700))))
              ((0, 1), (0, 1), (0, 1)) 2 2 2
              eq_refl eq_refl eq_refl eq_refl)
    as (tensor & metadata & Hget & Hlast & Hshape & _).
  exists tensor, metadata. rewrite Hget. repeat split; assumption.
Defined.

(** C9, as stated, fails in its last part: the shapes can match with
    bounding disabled.  Here every voxel is body, the recorded box spans the
    whole volume, and the tensor returned with [enable_bounding = false] has
    exactly the extents of the box. *)
Lemma shape_matches_box_without_bounding :
  let U := spec_utils (Fixtures.one_patient (Fixtures.nrrd Fixtures.all_tissue)
                         (Fixtures.nrrd Fixtures.all_tissue)) Fixtures.keep_CT in
  let self := Fixtures.inference_dataset false in
  exists tensor metadata b,
    fst (CBCTtoCTInferenceDataset.getitem self 0 Fixtures.fresh_world)
      = Ok (tensor, metadata)
    /\ CBCTtoCTInferenceDataset.self_apply_bound self = false
    /\ last metadata (PyPath []) = PyBounds b
    /\ b = ((0, 2), (0, 2), (0, 2))
    /\ shape tensor = 1 :: box_extents 2 2 2 b.
Proof.
  intros U self. do 3 eexists.
  split; [reflexivity|]. split; [reflexivity|]. split; [reflexivity|].
  split; reflexivity.
Qed.

(** ** Stochastic Focal Patch Sampler *)

Lemma random_random_total (w : world) :
  exists u w', random_random w = (Ok u, w').
Proof.
  unfold random_random. destruct (rand w); do 2 eexists; reflexivity.
Qed.








(** ** Size Guard under the replace policy *)

Lemma random_choice_In {X} (l : list X) (w : world) :
  l <> [] ->
  exists a w', random_choice l w = (Ok a, w') /\ In a l.
Proof.
  destruct l as [|a l]; [congruence|]. intros _.
  unfold random_choice, bind, ret.
  destruct (random_random_total w) as (u & w' & ->).
  do 2 eexists. split; [reflexivity|].
  destruct (nth_in_or_default
              (Z.to_nat (Qfloor (u * inject_Z (Z.of_nat (List.length (a :: l))))))
              (a :: l) a) as [H|H].
  - exact H.
  - rewrite H. now left.
Qed.

Section ReplaceLoop.
Variable load : path -> result image.
Variable patch_size : list nat.

Let loads := can_load load.
Let loads_undersized := loads_undersized_volume load patch_size.

(** When every candidate can be loaded the search ends without an exception;
    when moreover the volume and every candidate are undersized it ends with
    [None]. *)
Lemma replace_loop_exhausts (fuel : nat) :
  forall (volume : image) (candidates : list path) (w : world),
    Forall loads candidates ->
    exists r w',
      replace_loop load fuel volume patch_size candidates w = (Ok r, w')
      /\ (is_volume_smaller_than volume patch_size = true ->
          Forall loads_undersized candidates -> r = None).
Proof.
  induction fuel as [|fuel IH]; intros volume candidates w Hloads;
    cbn [replace_loop];
    destruct (is_volume_smaller_than volume patch_size) eqn:Hsmall;
    try (do 2 eexists; split; [reflexivity | try discriminate; reflexivity]).
  destruct candidates as [|c cs].
  { do 2 eexists; split; reflexivity. }
  unfold bind.
  destruct (@random_choice_In _ (c :: cs) w ltac:(discriminate))
    as (p & w1 & -> & Hin).
  rewrite Forall_forall in Hloads.
  destruct (Hloads p Hin) as (img & Himg).
  unfold lift. rewrite Himg.
  assert (Hsub : forall q, In q (remove path_eq_dec p (c :: cs)) -> In q (c :: cs)).
  { intros q Hq. now apply in_remove in Hq. }
  destruct (IH img (remove path_eq_dec p (c :: cs)) w1) as (r & w2 & Hrun & Hnone).
  { apply Forall_forall. intros q Hq. apply Hloads, Hsub, Hq. }
  exists r, w2. split; [exact Hrun|].
  intros _ Hunder. rewrite Forall_forall in Hunder.
  apply Hnone.
  - exact (Hunder p Hin img Himg).
  - apply Forall_forall. intros q Hq. apply Hunder, Hsub, Hq.
Qed.

Lemma guard_exhausts (volume : image) (paths : list path) (original : path)
    (w : world) :
  Forall loads paths ->
  exists r w',
    guard_size_invalid_check_and_replace load volume patch_size paths original w
      = (Ok r, w')
    /\ (is_volume_smaller_than volume patch_size = true ->
        Forall loads_undersized paths -> r = None).
Proof.
  intros Hloads. unfold guard_size_invalid_check_and_replace.
  assert (Hsub : forall q, In q (remove path_eq_dec original paths) -> In q paths).
  { intros q Hq. now apply in_remove in Hq. }
  destruct (@replace_loop_exhausts
              (List.length (remove path_eq_dec original paths)) volume
              (remove path_eq_dec original paths) w) as (r & w' & Hrun & Hnone).
  { rewrite Forall_forall in *. intros q Hq. apply Hloads, Hsub, Hq. }
  exists r, w'. split; [exact Hrun|].
  intros Hsmall Hunder. apply Hnone; [exact Hsmall|].
  rewrite Forall_forall in *. intros q Hq. apply Hunder, Hsub, Hq.
Qed.
End ReplaceLoop.

(** C6.  Replace policy ([pad] off): when the files of the case can all be
    loaded and, for CBCT or for CT, the chosen volume and every replacement
    candidate of the case are shorter than the patch on some axis,
    [__getitem__] raises the [RuntimeError] of line 104 instead of returning
    a patch pair. *)
Theorem replace_policy_exhausted_raises (fs : fsnode)
    (registrar : image -> image -> image)
    (self : CBCTtoCTDataset.t) (index : nat) (patient : string)
    (paths_CBCT paths_CT : list path) (w : world) :
  let patch := CBCTtoCTDataset.self_patch_size self in
  CBCTtoCTDataset.self_pad self = false ->
  nth_error (dict_keys (CBCTtoCTDataset.self_paths_CT self)) index = Some patient ->
  dict_get (CBCTtoCTDataset.self_paths_CBCT self) patient = Some paths_CBCT ->
  dict_get (CBCTtoCTDataset.self_paths_CT self) patient = Some paths_CT ->
  paths_CBCT <> [] ->
  paths_CT <> [] ->
  Forall (can_load (fs_load fs)) paths_CBCT ->
  Forall (can_load (fs_load fs)) paths_CT ->
  Forall (loads_undersized_volume (fs_load fs) patch) paths_CBCT
  \/ Forall (loads_undersized_volume (fs_load fs) patch) paths_CT ->
  exists w',
    CBCTtoCTDataset.getitem (U := spec_utils fs registrar) self index w =
    (Raise (RuntimeError "Suitable replacement volume could not be found!"), w').
Proof.
  intros patch Hpad Hidx Hcbct Hct Hne1 Hne2 Hl1 Hl2 Hunder. subst patch.
  unfold CBCTtoCTDataset.getitem, CBCTtoCTDataset.volumes_at_sampler.
  unfold bind at 1. unfold bind at 1.
  unfold CBCTtoCTDataset.choose_and_load, bind, list_index, dict_lookup, lift, ret.
  rewrite Hidx. cbv beta iota. rewrite Hcbct. cbv beta iota.
  rewrite Hct. cbv beta iota.
  destruct (random_choice_In w Hne1) as (path_CBCT & w1 & -> & Hin1).
  destruct (random_choice_In w1 Hne2) as (path_CT & w2 & -> & Hin2).
  pose proof Hl1 as Hl1'. pose proof Hl2 as Hl2'.
  rewrite Forall_forall in Hl1', Hl2'.
  destruct (Hl1' _ Hin1) as (CBCT & HCBCT).
  destruct (Hl2' _ Hin2) as (CT & HCT).
  cbn [sitk_load spec_utils size_invalid_check_and_replace].
  rewrite HCBCT, HCT. rewrite Hpad. cbn [negb].
  destruct (guard_exhausts (CBCTtoCTDataset.self_patch_size self) CBCT
              path_CBCT w2 Hl1) as (r1 & w3 & -> & Hnone1).
  destruct (guard_exhausts (CBCTtoCTDataset.self_patch_size self) CT
              path_CT w3 Hl2) as (r2 & w4 & -> & Hnone2).
  unfold raise.
  destruct Hunder as [Hu|Hu]; pose proof Hu as Hu'; rewrite Forall_forall in Hu'.
  - rewrite (Hnone1 (Hu' _ Hin1 _ HCBCT) Hu). eexists. reflexivity.
  - rewrite (Hnone2 (Hu' _ Hin2 _ HCT) Hu).
    destruct r1; eexists; reflexivity.
Qed.

(** The training dataset that the constructor builds over the one-patient
    tree. *)
Example init_training_fixture (cbct ct : image) (patch : list nat) (pad : bool) :
  CBCTtoCTDataset.init
    (U := spec_utils (Fixtures.one_patient cbct ct) Fixtures.keep_CT)
    (Fixtures.training_config patch pad)
  = Ok (Fixtures.training_dataset patch pad).
Proof. reflexivity. Qed.

Lemma replace_policy_exhausted_raises_witness :
  exists w',
    CBCTtoCTDataset.getitem
      (U := spec_utils (Fixtures.one_patient (Fixtures.nrrd Fixtures.all_tissue)
                          (Fixtures.nrrd Fixtures.all_tissue)) Fixtures.keep_CT)
      (Fixtures.training_dataset [32; 32; 32] false) 0 Fixtures.fresh_world =
    (Raise (RuntimeError "Suitable replacement volume could not be found!"), w').
Proof.
  apply (@replace_policy_exhausted_raises
           (Fixtures.one_patient (Fixtures.nrrd Fixtures.all_tissue)
              (Fixtures.nrrd Fixtures.all_tissue))
           Fixtures.keep_CT (Fixtures.training_dataset [32; 32; 32] false) 0
           "patient1" [Fixtures.scan_path] [Fixtures.ct_path] Fixtures.fresh_world).
  - reflexivity.
  - reflexivity.
  - reflexivity.
  - reflexivity.
  - discriminate.
  - discriminate.
  - constructor; [eexists; reflexivity | constructor].
  - constructor; [eexists; reflexivity | constructor].
  - left. constructor; [|constructor].
    intros img H. vm_compute in H. injection H as <-. reflexivity.
Defined.

(** ** Recoverable masking failure *)

Lemma mask_and_bound_or_keep_failure {U : DataUtils} (self : CBCTtoCTDataset.t)
    (array : ndarray) (HU_threshold : Z) (file : path) (e : exn) (w : world) :
  apply_body_mask_and_bound array (CBCTtoCTDataset.self_apply_mask self)
    (CBCTtoCTDataset.self_apply_bound self) HU_threshold = Raise e ->
  CBCTtoCTDataset.mask_and_bound_or_keep array self HU_threshold file w =
  (Ok array, after_mask_error w file).
Proof.
  intros H. unfold CBCTtoCTDataset.mask_and_bound_or_keep, try_except, lift.
  rewrite H. reflexivity.
Qed.

(** C7.  Let the files of the item be chosen and loaded and the size checks
    pass.  If [apply_body_mask_and_bound] raises for the CBCT array, the
    error is logged with the CBCT file and the item is produced by the rest
    of the pipeline from the unmodified CBCT array; likewise, if it raises for
    the CT array, the error is logged with the CT file and the item is
    produced from the unmodified CT array. *)
Theorem masking_failure_is_recoverable {U : DataUtils}
    (self : CBCTtoCTDataset.t) (index : nat) (w w1 : world)
    (path_CBCT path_CT : path) (CBCT CT : image) :
  let patch := CBCTtoCTDataset.self_patch_size self in
  let CBCT_fov := truncate_CBCT_based_on_fov (image_sub CBCT 1024) in
  let CT_truncated := truncate_CT_to_scope_of_CBCT CT CBCT_fov in
  CBCTtoCTDataset.choose_and_load self index w
    = (Ok (path_CBCT, path_CT, CBCT, CT), w1) ->
  (is_volume_smaller_than CBCT_fov patch || is_volume_smaller_than CT patch)
    && negb (CBCTtoCTDataset.self_pad self) = false ->
  (forall e,
     apply_body_mask_and_bound (get_npy CBCT_fov)
       (CBCTtoCTDataset.self_apply_mask self)
       (CBCTtoCTDataset.self_apply_bound self)
       (CBCTtoCTDataset.self_cbct_mask_threshold self) = Raise e ->
     CBCTtoCTDataset.getitem self index w =
     (CT_chosen <- CBCTtoCTDataset.choose_CT self CT CT_truncated ;;
      logger_error "Error applying mask and bound in file : " path_CBCT ;;
      CT_array <- CBCTtoCTDataset.mask_and_bound_or_keep (get_npy CT_chosen) self
                    (CBCTtoCTDataset.self_ct_mask_threshold self) path_CT ;;
      CBCTtoCTDataset.extract_and_normalize self
        (CBCTtoCTDataset.pad_if_enabled self (get_npy CBCT_fov))
        (CBCTtoCTDataset.pad_if_enabled self CT_array)) w1)
  /\
  (forall e CT_chosen w2 CBCT_array w3,
     CBCTtoCTDataset.choose_CT self CT CT_truncated w1 = (Ok CT_chosen, w2) ->
     CBCTtoCTDataset.mask_and_bound_or_keep (get_npy CBCT_fov) self
       (CBCTtoCTDataset.self_cbct_mask_threshold self) path_CBCT w2
       = (Ok CBCT_array, w3) ->
     apply_body_mask_and_bound (get_npy CT_chosen)
       (CBCTtoCTDataset.self_apply_mask self)
       (CBCTtoCTDataset.self_apply_bound self)
       (CBCTtoCTDataset.self_ct_mask_threshold self) = Raise e ->
     CBCTtoCTDataset.getitem self index w =
     CBCTtoCTDataset.extract_and_normalize self
       (CBCTtoCTDataset.pad_if_enabled self CBCT_array)
       (CBCTtoCTDataset.pad_if_enabled self (get_npy CT_chosen))
       (after_mask_error w3 path_CT)).
Proof.
  intros patch CBCT_fov CT_truncated Hload Hsize.
  assert (Hget : CBCTtoCTDataset.getitem self index w =
                 (vols <- CBCTtoCTDataset.prepare_volumes self path_CBCT path_CT CBCT CT ;;
                  CBCTtoCTDataset.extract_and_normalize self (fst vols) (snd vols)) w1).
  { unfold CBCTtoCTDataset.getitem, CBCTtoCTDataset.volumes_at_sampler.
    unfold bind at 1. unfold bind at 1. rewrite Hload. cbv beta iota.
    unfold bind at 1.
    destruct (CBCTtoCTDataset.prepare_volumes self path_CBCT path_CT CBCT CT w1)
      as [[[c t]|e] w'] eqn:E; rewrite ?E; reflexivity. }
  assert (Hprep : CBCTtoCTDataset.prepare_volumes self path_CBCT path_CT CBCT CT =
                  (CT_chosen <- CBCTtoCTDataset.choose_CT self CT CT_truncated ;;
                   CBCT_array <- CBCTtoCTDataset.mask_and_bound_or_keep
                                   (get_npy CBCT_fov) self
                                   (CBCTtoCTDataset.self_cbct_mask_threshold self)
                                   path_CBCT ;;
                   CT_array <- CBCTtoCTDataset.mask_and_bound_or_keep
                                 (get_npy CT_chosen) self
                                 (CBCTtoCTDataset.self_ct_mask_threshold self)
                                 path_CT ;;
                   ret (torch_tensor (CBCTtoCTDataset.pad_if_enabled self CBCT_array),
                        torch_tensor (CBCTtoCTDataset.pad_if_enabled self CT_array)))).
  { unfold CBCTtoCTDataset.prepare_volumes. fold CBCT_fov. fold patch.
    rewrite Hsize. reflexivity. }
  rewrite Hget, Hprep. clear Hget Hprep. split.
  - intros e He. unfold bind.
    destruct (CBCTtoCTDataset.choose_CT self CT CT_truncated w1)
      as [[CT_chosen|e1] w2]; [|reflexivity].
    rewrite (mask_and_bound_or_keep_failure self _ _ path_CBCT w2 He).
    unfold logger_error, after_mask_error.
    destruct (CBCTtoCTDataset.mask_and_bound_or_keep (get_npy CT_chosen) self
                (CBCTtoCTDataset.self_ct_mask_threshold self) path_CT _)
      as [[CT_array|e2] w3]; reflexivity.
  - intros e CT_chosen w2 CBCT_array w3 Hchoose Hcbct He. unfold bind.
    rewrite Hchoose, Hcbct.
    rewrite (mask_and_bound_or_keep_failure self _ _ path_CT w3 He).
    reflexivity.
Qed.

Lemma masking_failure_is_recoverable_witness :
  exists pair w',
    CBCTtoCTDataset.getitem
      (U := Fixtures.failing_mask_utils
              (Fixtures.one_patient (Fixtures.nrrd Fixtures.all_tissue)
                 (Fixtures.nrrd Fixtures.all_tissue)))
      (Fixtures.training_dataset [2; 2; 2] true) 0 Fixtures.fresh_world
      = (Ok pair, w')
    /\ log w' =
       [LogError "Error applying mask and bound in file : " Fixtures.scan_path;
        LogError "Error applying mask and bound in file : " Fixtures.ct_path]
    /\ shape (A pair) = [1; 2; 2; 2]
    /\ Qeq (item (A pair) [0; 0; 0; 0]) (normalize (-1024) 2048 1000).
Proof.
  destruct (@masking_failure_is_recoverable
              (Fixtures.failing_mask_utils
                 (Fixtures.one_patient (Fixtures.nrrd Fixtures.all_tissue)
                    (Fixtures.nrrd Fixtures.all_tissue)))
              (Fixtures.training_dataset [2; 2; 2] true) 0
              Fixtures.fresh_world Fixtures.fresh_world
              Fixtures.scan_path Fixtures.ct_path
              (Fixtures.nrrd Fixtures.all_tissue) (Fixtures.nrrd Fixtures.all_tissue)
              eq_refl eq_refl) as [HA _].
  rewrite (HA (ValueError "degenerate volume") eq_refl).
  do 2 eexists. split; [reflexivity|]. split; [reflexivity|].
  split; reflexivity.
Defined.

(** ** Sizes of the volumes that reach the sampler *)

Lemma pad_shape_not_smaller (patch shp : list nat) :
  shape_smaller_than (pad_shape patch shp) patch = false.
Proof.
  unfold shape_smaller_than. revert patch.
  induction shp as [|d shp IH]; intros [|p patch]; try reflexivity.
  cbn [pad_shape combine existsb fst snd]. rewrite IH.
  rewrite Bool.orb_false_r. apply Nat.ltb_ge. lia.
Qed.

(** Under the pad policy both arrays handed to the sampler are at least as
    large as the patch, also after the body box has cropped them: padding is
    the last step. *)
Lemma pad_policy_volumes_fit (fs : fsnode) (registrar : image -> image -> image)
    (self : CBCTtoCTDataset.t) (index : nat) (w w' : world) (CBCT CT : ndarray) :
  CBCTtoCTDataset.self_pad self = true ->
  CBCTtoCTDataset.volumes_at_sampler (U := spec_utils fs registrar) self index w
    = (Ok (CBCT, CT), w') ->
  shape_smaller_than (shape CBCT) (CBCTtoCTDataset.self_patch_size self) = false
  /\ shape_smaller_than (shape CT) (CBCTtoCTDataset.self_patch_size self) = false.
Proof.
  intros Hpad. unfold CBCTtoCTDataset.volumes_at_sampler. unfold bind at 1.
  destruct (CBCTtoCTDataset.choose_and_load self index w)
    as [[[[[pc pt] c] t]|e] w1]; [|discriminate].
  unfold CBCTtoCTDataset.prepare_volumes, CBCTtoCTDataset.pad_if_enabled.
  rewrite Hpad, Bool.andb_false_r. unfold bind, ret.
  destruct (CBCTtoCTDataset.choose_CT _ _ _ _) as [[ct|e] w2]; [|discriminate].
  destruct (CBCTtoCTDataset.mask_and_bound_or_keep _ _ _ _ _) as [[c1|e] w3];
    [|discriminate].
  destruct (CBCTtoCTDataset.mask_and_bound_or_keep _ _ _ _ _) as [[t1|e] w4];
    [|discriminate].
  intros H. injection H as <- <- _.
  split; apply pad_shape_not_smaller.
Qed.

(** C1 fails under the replace policy.  The CBCT of this dataset is 2 x 2 x 2
    and passes every size check against the patch [2, 2, 2]; a single voxel
    lies above the body threshold, so bounding crops the array to
    1 x 1 x 1, and with [pad] off nothing enlarges or rejects it: whatever the
    Scope Registrar does to the CT, the CBCT array that reaches the sampler is
    smaller than the patch, and the item fails inside the sampler. *)
Theorem replace_policy_bounded_volume_undersized
    (registrar : image -> image -> image) :
  let U := spec_utils (Fixtures.one_patient (Fixtures.nrrd Fixtures.small_body)
                         (Fixtures.nrrd Fixtures.all_tissue)) registrar in
  let self := Fixtures.training_dataset [2; 2; 2] false in
  (exists CBCT CT w',
     CBCTtoCTDataset.volumes_at_sampler self 0 Fixtures.fresh_world
       = (Ok (CBCT, CT), w')
     /\ shape CBCT = [1; 1; 1]
     /\ shape_smaller_than (shape CBCT) (CBCTtoCTDataset.self_patch_size self) = true)
  /\ exists w',
       CBCTtoCTDataset.getitem self 0 Fixtures.fresh_world
         = (Raise (ValueError "volume smaller than the patch size"), w').
Proof.
  intros U self.
  assert (Hload : CBCTtoCTDataset.choose_and_load self 0 Fixtures.fresh_world =
                  (Ok (Fixtures.scan_path, Fixtures.ct_path,
                       Fixtures.nrrd Fixtures.small_body,
                       Fixtures.nrrd Fixtures.all_tissue), Fixtures.fresh_world))
    by reflexivity.
  assert (Hvol : exists CBCT CT w',
             CBCTtoCTDataset.volumes_at_sampler self 0 Fixtures.fresh_world
               = (Ok (CBCT, CT), w')
             /\ shape CBCT = [1; 1; 1]).
  { unfold CBCTtoCTDataset.volumes_at_sampler. unfold bind at 1.
    rewrite Hload. cbv beta iota.
    unfold CBCTtoCTDataset.prepare_volumes.
    change (truncate_CBCT_based_on_fov
              (image_sub (Fixtures.nrrd Fixtures.small_body) 1024))
      with (crop_to_valid_fov (image_sub (Fixtures.nrrd Fixtures.small_body) 1024)).
    set (CBCT_fov := crop_to_valid_fov
                       (image_sub (Fixtures.nrrd Fixtures.small_body) 1024)).
    replace ((is_volume_smaller_than CBCT_fov (CBCTtoCTDataset.self_patch_size self)
              || is_volume_smaller_than (Fixtures.nrrd Fixtures.all_tissue)
                   (CBCTtoCTDataset.self_patch_size self))
             && negb (CBCTtoCTDataset.self_pad self)) with false by reflexivity.
    unfold bind at 1.
    destruct (CBCTtoCTDataset.choose_CT self (Fixtures.nrrd Fixtures.all_tissue)
                (truncate_CT_to_scope_of_CBCT (Fixtures.nrrd Fixtures.all_tissue)
                   CBCT_fov) Fixtures.fresh_world) as [[CT_chosen|e] w2] eqn:Hc.
    2:{ unfold CBCTtoCTDataset.choose_CT in Hc.
        destruct (_ && _) in Hc; discriminate Hc. }
    unfold bind at 1.
    assert (Hm : forall w, CBCTtoCTDataset.mask_and_bound_or_keep (get_npy CBCT_fov) self
                   (CBCTtoCTDataset.self_cbct_mask_threshold self)
                   Fixtures.scan_path w
                 = (Ok (cropped (masked_volume true
                          (fun idx => negb (Qle_bool (item (get_npy CBCT_fov) idx)
                                              (inject_Z (-700))))
                          (get_npy CBCT_fov)) 2 2 2 ((0, 1), (0, 1), (0, 1))), w))
      by reflexivity.
    rewrite Hm. unfold bind at 1.
    destruct (CBCTtoCTDataset.mask_and_bound_or_keep (get_npy CT_chosen) self
                (CBCTtoCTDataset.self_ct_mask_threshold self) Fixtures.ct_path w2)
      as [[CT_array|e] w3] eqn:Ht.
    2:{ unfold CBCTtoCTDataset.mask_and_bound_or_keep, try_except, lift in Ht.
        destruct (apply_body_mask_and_bound _ _ _ _) in Ht; discriminate Ht. }
    do 3 eexists. split; reflexivity. }
  destruct Hvol as (CBCT & CT & w' & Hrun & Hshape).
  split.
  - exists CBCT, CT, w'. split; [exact Hrun|]. split; [exact Hshape|].
    rewrite Hshape. reflexivity.
  - unfold CBCTtoCTDataset.getitem. unfold bind at 1. rewrite Hrun.
    cbv beta iota. unfold CBCTtoCTDataset.extract_and_normalize. unfold bind at 1.
    change (get_patch_pair (CBCTtoCTDataset.self_patch_sampler self) CBCT CT w')
      with (focal_get_patch_pair (CBCTtoCTDataset.self_patch_sampler self) CBCT CT w').
    unfold focal_get_patch_pair. rewrite Hshape.
    eexists. reflexivity.
Qed.

(** ** Construction of the training dataset *)

Lemma dict_set_keys {V W} (a : dict V) (b : dict W) (k : string) (v : V) (v' : W) :
  dict_keys a = dict_keys b ->
  dict_keys (dict_set a k v) = dict_keys (dict_set b k v').
Proof.
  unfold dict_keys. revert b.
  induction a as [|[ka va] a IH]; intros [|[kb vb] b] H; try discriminate;
    [reflexivity|].
  cbn in H. injection H as <- H. cbn [dict_set].
  destruct (string_dec ka k); cbn [map fst]; f_equal; auto.
Qed.

(** Both dictionaries receive the same keys in the same order ... *)
Lemma scan_patients_same_keys {U : DataUtils} (patients : list path) :
  forall a b a' b',
    dict_keys a = dict_keys b ->
    CBCTtoCTDataset.scan_patients patients a b = Ok (a', b') ->
    dict_keys a' = dict_keys b'.
Proof.
  induction patients as [|p ps IH]; intros a b a' b' Hk; cbn [CBCTtoCTDataset.scan_patients].
  - intros H. injection H as <- <-. exact Hk.
  - destruct (make_recursive_dataset_of_files (path_join p "CBCT") EXTENSIONS);
      [|discriminate].
    destruct (make_recursive_dataset_of_files (path_join p "CT") EXTENSIONS);
      [|discriminate].
    apply IH. now apply dict_set_keys.
Qed.

(** ... so the count assertion of lines 60 and 61 can never fail: once the
    scan has gone through, the constructor returns a dataset. *)
Lemma init_after_scan {U : DataUtils} (conf : CBCTtoCTDataset.Config)
    (patients : list path) (a b : dict (list path)) :
  iterdir (CBCTtoCTDataset.conf_root conf) = Ok patients ->
  CBCTtoCTDataset.scan_patients patients [] [] = Ok (a, b) ->
  exists self, CBCTtoCTDataset.init conf = Ok self.
Proof.
  intros Hdir Hscan. unfold CBCTtoCTDataset.init. rewrite Hdir, Hscan.
  pose proof (scan_patients_same_keys patients [] [] eq_refl Hscan) as Hk.
  apply (f_equal (@List.length _)) in Hk. unfold dict_keys in Hk.
  rewrite !length_map in Hk. rewrite Hk, Nat.eqb_refl. cbn [negb].
  eexists. reflexivity.
Qed.

Lemma scan_patients_raises {U : DataUtils} (patients : list path) (patient : path) :
  In patient patients ->
  (exists e, make_recursive_dataset_of_files (path_join patient "CBCT") EXTENSIONS
             = Raise e)
  \/ (exists e, make_recursive_dataset_of_files (path_join patient "CT") EXTENSIONS
                = Raise e) ->
  forall a b, exists e, CBCTtoCTDataset.scan_patients patients a b = Raise e.
Proof.
  intros Hin Hraise.
  induction patients as [|p ps IH]; [contradiction|].
  intros a b. cbn [CBCTtoCTDataset.scan_patients].
  destruct (make_recursive_dataset_of_files (path_join p "CBCT") EXTENSIONS)
    as [cbct|e1] eqn:E1; [|eexists; reflexivity].
  destruct (make_recursive_dataset_of_files (path_join p "CT") EXTENSIONS)
    as [ct|e2] eqn:E2; [|eexists; reflexivity].
  destruct Hin as [->|Hin].
  - destruct Hraise as [[e He]|[e He]]; congruence.
  - apply IH. exact Hin.
Qed.

(** C8.  When a patient directory under the root lacks its CBCT or its CT
    directory, the constructor raises and no dataset is built.  (The
    exception comes from the directory scan; the count assertion is never
    the one that fires.) *)
Theorem missing_modality_directory_raises (fs : fsnode)
    (registrar : image -> image -> image) (conf : CBCTtoCTDataset.Config)
    (patients : list path) (patient : path) :
  fs_iterdir fs (CBCTtoCTDataset.conf_root conf) = Ok patients ->
  In patient patients ->
  fs_lookup fs (path_join patient "CBCT") = None
  \/ fs_lookup fs (path_join patient "CT") = None ->
  exists e,
    CBCTtoCTDataset.init (U := spec_utils fs registrar) conf = Raise e.
Proof.
  intros Hdir Hin Hmissing.
  unfold CBCTtoCTDataset.init.
  change (iterdir (CBCTtoCTDataset.conf_root conf))
    with (fs_iterdir fs (CBCTtoCTDataset.conf_root conf)).
  rewrite Hdir.
  destruct (@scan_patients_raises (spec_utils fs registrar) patients patient Hin)
    with (a := @nil (string * list path)) (b := @nil (string * list path))
    as (e & ->).
  - cbn [make_recursive_dataset_of_files spec_utils].
    unfold fs_make_recursive_dataset_of_files.
    destruct Hmissing as [H|H]; rewrite H; [left|right]; eexists; reflexivity.
  - eexists. reflexivity.
Qed.

Lemma missing_modality_directory_raises_witness :
  CBCTtoCTDataset.init
    (U := spec_utils (Fixtures.patient_without_CT (Fixtures.nrrd Fixtures.all_tissue))
            Fixtures.keep_CT)
    (Fixtures.training_config [32; 32; 32] true)
  = Raise (AssertionError "not a valid directory").
Proof.
  destruct (@missing_modality_directory_raises
              (Fixtures.patient_without_CT (Fixtures.nrrd Fixtures.all_tissue))
              Fixtures.keep_CT (Fixtures.training_config [32; 32; 32] true)
              [["patient1"%string]] ["patient1"%string]
              eq_refl (or_introl eq_refl) (or_intror eq_refl)) as (e & He).
  rewrite He. vm_compute in He. injection He as <-. reflexivity.
Defined.

(** ** The npy dataset *)

(** C10.  For every index [__getitem__] does what lines 33 to 52 do and then
    hands back [None]: an exception of those lines passes through, otherwise
    the value is [None]; the [{'A', 'B'}] dictionary built after the bare
    [return] is never the result. *)
Theorem npy_getitem_returns_None {L : NpyUnaligned3dDataset.LegacyUtils}
    (self : NpyUnaligned3dDataset.t) (index : nat) (w : world) :
  NpyUnaligned3dDataset.getitem self index w =
    (_ <- NpyUnaligned3dDataset.statements_before_return self index ;; ret PyNone) w
  /\ (fst (NpyUnaligned3dDataset.getitem self index w) = Ok PyNone
      \/ exists e, fst (NpyUnaligned3dDataset.getitem self index w) = Raise e)
  /\ forall d, fst (NpyUnaligned3dDataset.getitem self index w) <> Ok (PyDict d).
Proof.
  assert (Heq : NpyUnaligned3dDataset.getitem self index w =
                (_ <- NpyUnaligned3dDataset.statements_before_return self index ;;
                 ret PyNone) w).
  { unfold NpyUnaligned3dDataset.getitem, NpyUnaligned3dDataset.getitem_body,
      NpyUnaligned3dDataset.statements_before_return,
      call, seq_stmt, exec, py_return, bind, ret.
    destruct (NpyUnaligned3dDataset.py_mod index _ w) as [[index_A|e] w1];
      [|reflexivity].
    destruct (random_randint 0 _ w1) as [[index_B|e] w2]; [|reflexivity].
    destruct (list_index (NpyUnaligned3dDataset.self_A_paths self) index_A w2)
      as [[A_path|e] w3]; [|reflexivity].
    destruct (list_index (NpyUnaligned3dDataset.self_B_paths self) _ w3)
      as [[B_path|e] w4]; [|reflexivity].
    destruct (lift (NpyUnaligned3dDataset.np_load A_path) w4) as [[A0|e] w5];
      [|reflexivity].
    destruct (lift (NpyUnaligned3dDataset.np_load B_path) w5) as [[B0|e] w6];
      [|reflexivity].
    destruct (NpyUnaligned3dDataset.legacy_get_patch_pair _ A0 B0 w6)
      as [[[A1 B1]|e] w7]; [|reflexivity].
    destruct (lift (NpyUnaligned3dDataset.normalize_from_hu A1 _ _) w7)
      as [[A2|e] w8]; [|reflexivity].
    destruct (lift (NpyUnaligned3dDataset.normalize_from_hu B1 _ _) w8)
      as [[B2|e] w9]; [|reflexivity].
    destruct (NpyUnaligned3dDataset.dump_slices "A" A2 w9) as [[[]|e] w10];
      [|reflexivity].
    destruct (NpyUnaligned3dDataset.dump_slices "B" B2 w10) as [[[]|e] w11];
      reflexivity. }
  split; [exact Heq|].
  rewrite Heq. unfold bind, ret.
  destruct (NpyUnaligned3dDataset.statements_before_return self index w)
    as [[[]|e] w']; cbn [fst].
  - split; [now left | discriminate].
  - split; [right; now exists e | discriminate].
Qed.

(** An item of a small npy dataset: the call returns [None] and has written
    the two slices of each patch. *)
Example npy_getitem_runs :
  exists w',
    NpyUnaligned3dDataset.getitem (L := Fixtures.npy_utils) Fixtures.npy_dataset 0
      Fixtures.fresh_world = (Ok PyNone, w')
    /\ map fst (written w') =
       [["."; "IGNORE"; "imgz"; "A_0.png"]; ["."; "IGNORE"; "imgz"; "A_1.png"];
        ["."; "IGNORE"; "imgz"; "B_0.png"]; ["."; "IGNORE"; "imgz"; "B_1.png"]]%string.
Proof.
  eexists. split; reflexivity.
Qed.

(** ** A box with a unit axis behind a longer one

    [squeeze()] removes the unit axis of the tensor as well, and the
    assignment into the box region is then rejected: the reconstruction
    property above does not extend to such boxes. *)
Example save_rejects_unit_axis :
  CBCTtoCTInferenceDataset.fill_canvas (Fixtures.inference_dataset true)
    (as_network_input (-1024) 2048 (full [2; 1; 2] 0%Q))
    [2; 2; 2] ((0, 2), (0, 1), (0, 2))
  = Raise (RuntimeError "shape mismatch: value tensor cannot be broadcast to indexing result").
Proof. reflexivity. Qed.

(* ================================================================== *)
(** * Further properties of the code                                    *)
(* ================================================================== *)

(** ** Dictionaries *)

Lemma dict_set_In_keys {V} (d : dict V) (k k' : string) (v : V) :
  In k (dict_keys (dict_set d k' v)) <-> k = k' \/ In k (dict_keys d).
Proof.
  unfold dict_keys. induction d as [|[k0 v0] d IH]; cbn [dict_set map fst In].
  - intuition congruence.
  - destruct (string_dec k0 k') as [->|Hne]; cbn [map fst In].
    + intuition congruence.
    + rewrite IH. intuition congruence.
Qed.

Lemma dict_set_NoDup {V} (d : dict V) (k : string) (v : V) :
  NoDup (dict_keys d) -> NoDup (dict_keys (dict_set d k v)).
Proof.
  induction d as [|[k0 v0] d IH]; intros Hnd.
  - cbn. constructor; [intros [] | constructor].
  - cbn [dict_set]. unfold dict_keys in *. cbn [map fst] in Hnd.
    inversion Hnd as [|? ? Hnotin Hnd']; subst.
    destruct (string_dec k0 k) as [->|Hne]; cbn [map fst].
    + constructor; assumption.
    + constructor; [|now apply IH].
      intros Hin. apply (dict_set_In_keys d k0 k v) in Hin.
      destruct Hin as [->|Hin]; [congruence | contradiction].
Qed.

Lemma dict_set_length {V} (d : dict V) (k : string) (v : V) :
  List.length (dict_set d k v) <= S (List.length d).
Proof.
  induction d as [|[k0 v0] d IH]; cbn [dict_set List.length]; [lia|].
  destruct (string_dec k0 k); cbn [List.length]; lia.
Qed.

Lemma dict_get_set_same {V} (d : dict V) (k : string) (v : V) :
  dict_get (dict_set d k v) k = Some v.
Proof.
  induction d as [|[k0 v0] d IH]; cbn [dict_set dict_get].
  - destruct (string_dec k k); congruence.
  - destruct (string_dec k0 k) as [->|Hne]; cbn [dict_get].
    + destruct (string_dec k k); congruence.
    + destruct (string_dec k0 k); [congruence | exact IH].
Qed.

Lemma dict_get_set_other {V} (d : dict V) (k k' : string) (v : V) :
  k <> k' -> dict_get (dict_set d k' v) k = dict_get d k.
Proof.
  intros Hne. induction d as [|[k0 v0] d IH]; cbn [dict_set dict_get].
  - destruct (string_dec k' k); congruence.
  - destruct (string_dec k0 k') as [->|Hne']; cbn [dict_get].
    + destruct (string_dec k' k); congruence.
    + destruct (string_dec k0 k); [reflexivity | exact IH].
Qed.

(** ** The constructor of the training dataset *)

Section TrainingConstructor.
Context {U : DataUtils}.

Let listing_CBCT (p : path) := make_recursive_dataset_of_files (path_join p "CBCT") EXTENSIONS.
Let listing_CT (p : path) := make_recursive_dataset_of_files (path_join p "CT") EXTENSIONS.
Let planning (l : list path) := filter (fun q => String.eqb (path_stem q) "CT") l.

Lemma scan_patients_cons (p : path) (ps : list path) (a b a' b' : dict (list path)) :
  CBCTtoCTDataset.scan_patients (p :: ps) a b = Ok (a', b') ->
  exists c t,
    listing_CBCT p = Ok c /\ listing_CT p = Ok t
    /\ CBCTtoCTDataset.scan_patients ps (dict_set a (path_stem p) c)
         (dict_set b (path_stem p) (planning t)) = Ok (a', b').
Proof.
  cbn [CBCTtoCTDataset.scan_patients]. unfold listing_CBCT, listing_CT.
  destruct (make_recursive_dataset_of_files (path_join p "CBCT") EXTENSIONS)
    as [c|e]; [|discriminate].
  destruct (make_recursive_dataset_of_files (path_join p "CT") EXTENSIONS)
    as [t|e]; [|discriminate].
  intros H. exists c, t. auto.
Qed.

Lemma scan_patients_succeeds (ps : list path) :
  (forall p, In p ps -> exists c t, listing_CBCT p = Ok c /\ listing_CT p = Ok t) ->
  forall a b, exists a' b', CBCTtoCTDataset.scan_patients ps a b = Ok (a', b').
Proof.
  induction ps as [|p ps IH]; intros Hok a b; cbn [CBCTtoCTDataset.scan_patients].
  - do 2 eexists. reflexivity.
  - destruct (Hok p (or_introl eq_refl)) as (c & t & Hc & Ht).
    unfold listing_CBCT, listing_CT in Hc, Ht. rewrite Hc, Ht.
    apply IH. intros q Hq. apply Hok. now right.
Qed.

Lemma scan_patients_keys (ps : list path) :
  forall a b a' b',
    CBCTtoCTDataset.scan_patients ps a b = Ok (a', b') ->
    (forall k, In k (dict_keys a') <->
               In k (dict_keys a) \/ exists p, In p ps /\ path_stem p = k)
    /\ (NoDup (dict_keys a) -> NoDup (dict_keys a'))
    /\ List.length a' <= List.length a + List.length ps.
Proof.
  induction ps as [|p ps IH]; intros a b a' b' H.
  - cbn in H. injection H as <- <-. split; [|split].
    + intros k. split; [now left|]. intros [Hk|(p & [] & _)]. exact Hk.
    + auto.
    + cbn. lia.
  - apply scan_patients_cons in H. destruct H as (c & t & _ & _ & H).
    destruct (IH _ _ _ _ H) as (Hkeys & Hnd & Hlen). split; [|split].
    + intros k. rewrite Hkeys, dict_set_In_keys. split.
      * intros [[->|Hk]|(q & Hq & Hs)].
        -- right. exists p. split; [now left | reflexivity].
        -- now left.
        -- right. exists q. split; [now right | exact Hs].
      * intros [Hk|(q & [->|Hq] & Hs)].
        -- left. now right.
        -- left. left. now symmetry.
        -- right. exists q. auto.
    + intros Ha. apply Hnd. now apply dict_set_NoDup.
    + pose proof (dict_set_length a (path_stem p) c). cbn [List.length]. lia.
Qed.

Lemma scan_patients_keeps (ps : list path) (k : string) :
  (forall q, In q ps -> path_stem q <> k) ->
  forall a b a' b',
    CBCTtoCTDataset.scan_patients ps a b = Ok (a', b') ->
    dict_get a' k = dict_get a k /\ dict_get b' k = dict_get b k.
Proof.
  induction ps as [|p ps IH]; intros Hk a b a' b' H.
  - cbn in H. injection H as <- <-. auto.
  - apply scan_patients_cons in H. destruct H as (c & t & _ & _ & H).
    destruct (IH (fun q Hq => Hk q (or_intror Hq)) _ _ _ _ H) as [Ha Hb].
    rewrite Ha, Hb.
    assert (k <> path_stem p) by (intros ->; now apply (Hk p (or_introl eq_refl))).
    split; now apply dict_get_set_other.
Qed.

Lemma scan_patients_last (l1 l2 : list path) (p : path) (c t : list path) :
  listing_CBCT p = Ok c ->
  listing_CT p = Ok t ->
  (forall q, In q l2 -> path_stem q <> path_stem p) ->
  forall a b a' b',
    CBCTtoCTDataset.scan_patients (l1 ++ p :: l2) a b = Ok (a', b') ->
    dict_get a' (path_stem p) = Some c
    /\ dict_get b' (path_stem p) = Some (planning t).
Proof.
  intros Hc Ht Hl2. induction l1 as [|q l1 IH]; intros a b a' b' H.
  - cbn [app] in H. apply scan_patients_cons in H.
    destruct H as (c' & t' & Hc' & Ht' & H).
    rewrite Hc in Hc'. rewrite Ht in Ht'. injection Hc' as <-. injection Ht' as <-.
    destruct (scan_patients_keeps l2 Hl2 _ _ H) as [Ha Hb].
    rewrite Ha, Hb. split; apply dict_get_set_same.
  - cbn [app] in H. apply scan_patients_cons in H.
    destruct H as (c' & t' & _ & _ & H). exact (IH _ _ _ _ H).
Qed.

Lemma scan_patients_planning_only (ps : list path) :
  forall a b a' b',
    (forall k l, dict_get b k = Some l -> Forall (fun q => path_stem q = "CT"%string) l) ->
    CBCTtoCTDataset.scan_patients ps a b = Ok (a', b') ->
    forall k l, dict_get b' k = Some l -> Forall (fun q => path_stem q = "CT"%string) l.
Proof.
  induction ps as [|p ps IH]; intros a b a' b' Hb H.
  - cbn in H. injection H as <- <-. exact Hb.
  - apply scan_patients_cons in H. destruct H as (c & t & _ & _ & H).
    refine (IH _ _ _ _ _ H). intros k l Hget.
    destruct (string_dec k (path_stem p)) as [->|Hne].
    + rewrite dict_get_set_same in Hget. injection Hget as <-.
      apply Forall_forall. intros q Hq. apply filter_In in Hq.
      destruct Hq as [_ Hq]. now apply String.eqb_eq in Hq.
    + rewrite dict_get_set_other in Hget by exact Hne. exact (Hb k l Hget).
Qed.

Lemma init_inversion (conf : CBCTtoCTDataset.Config) (self : CBCTtoCTDataset.t) :
  CBCTtoCTDataset.init conf = Ok self ->
  exists patients,
    iterdir (CBCTtoCTDataset.conf_root conf) = Ok patients
    /\ CBCTtoCTDataset.scan_patients patients [] []
       = Ok (CBCTtoCTDataset.self_paths_CBCT self, CBCTtoCTDataset.self_paths_CT self)
    /\ CBCTtoCTDataset.self_num_datapoints self
       = List.length (CBCTtoCTDataset.self_paths_CT self).
Proof.
  unfold CBCTtoCTDataset.init.
  destruct (iterdir (CBCTtoCTDataset.conf_root conf)) as [patients|e] eqn:Hdir;
    [|discriminate].
  destruct (CBCTtoCTDataset.scan_patients patients [] []) as [[a b]|e] eqn:Hscan;
    [|discriminate].
  destruct (negb _); [discriminate|].
  intros H. injection H as <-. exists patients.
  split; [reflexivity|]. split; [exact Hscan | reflexivity].
Qed.
End TrainingConstructor.

(** X1.  Whenever the root can be listed and both modality listings of every
    patient entry succeed, the constructor returns a dataset: the count
    assertion of lines 60 and 61 cannot fail, because both dictionaries are
    filled with the same keys in the same loop. *)
Theorem constructor_count_assertion_cannot_fail {U : DataUtils}
    (conf : CBCTtoCTDataset.Config) (patients : list path) :
  iterdir (CBCTtoCTDataset.conf_root conf) = Ok patients ->
  (forall p, In p patients ->
     exists c t,
       make_recursive_dataset_of_files (path_join p "CBCT") EXTENSIONS = Ok c
       /\ make_recursive_dataset_of_files (path_join p "CT") EXTENSIONS = Ok t) ->
  exists self,
    CBCTtoCTDataset.init conf = Ok self
    /\ dict_keys (CBCTtoCTDataset.self_paths_CBCT self)
       = dict_keys (CBCTtoCTDataset.self_paths_CT self)
    /\ CBCTtoCTDataset.len self
       = List.length (dict_keys (CBCTtoCTDataset.self_paths_CBCT self)).
Proof.
  intros Hdir Hok.
  destruct (scan_patients_succeeds patients Hok [] []) as (a & b & Hscan).
  destruct (init_after_scan conf Hdir Hscan) as (self & Hinit).
  exists self. split; [exact Hinit|].
  destruct (init_inversion conf Hinit) as (ps & Hdir' & Hscan' & Hn).
  pose proof (scan_patients_same_keys ps [] [] eq_refl Hscan') as Hk.
  split; [exact Hk|].
  unfold CBCTtoCTDataset.len. rewrite Hn, Hk. unfold dict_keys.
  now rewrite length_map.
Qed.

Lemma constructor_count_assertion_cannot_fail_witness :
  exists self,
    CBCTtoCTDataset.init
      (U := spec_utils (MoreFixtures.same_stem_patients
                          (Fixtures.nrrd Fixtures.all_tissue)
                          (Fixtures.nrrd Fixtures.all_tissue)
                          (Fixtures.nrrd Fixtures.all_tissue)) Fixtures.keep_CT)
      (Fixtures.training_config [32; 32; 32] true) = Ok self
    /\ dict_keys (CBCTtoCTDataset.self_paths_CBCT self)
       = dict_keys (CBCTtoCTDataset.self_paths_CT self)
    /\ CBCTtoCTDataset.len self
       = List.length (dict_keys (CBCTtoCTDataset.self_paths_CBCT self)).
Proof.
  apply (@constructor_count_assertion_cannot_fail
           (spec_utils (MoreFixtures.same_stem_patients
                          (Fixtures.nrrd Fixtures.all_tissue)
                          (Fixtures.nrrd Fixtures.all_tissue)
                          (Fixtures.nrrd Fixtures.all_tissue)) Fixtures.keep_CT)
           (Fixtures.training_config [32; 32; 32] true)
           [["patient.1"%string]; ["patient.2"%string]] eq_refl).
  intros p [<-|[<-|[]]]; do 2 eexists; split; reflexivity.
Defined.

(** X2.  A dataset built by the constructor has one datapoint per distinct
    stem of the patient entries: its keys are without duplicates, they are
    exactly the stems of the entries of the root, and their number, which is
    [len], is at most the number of entries. *)
Theorem constructor_one_datapoint_per_stem {U : DataUtils}
    (conf : CBCTtoCTDataset.Config) (self : CBCTtoCTDataset.t)
    (patients : list path) :
  CBCTtoCTDataset.init conf = Ok self ->
  iterdir (CBCTtoCTDataset.conf_root conf) = Ok patients ->
  let keys := dict_keys (CBCTtoCTDataset.self_paths_CT self) in
  NoDup keys
  /\ (forall k, In k keys <-> exists p, In p patients /\ path_stem p = k)
  /\ CBCTtoCTDataset.len self = List.length keys
  /\ CBCTtoCTDataset.len self <= List.length patients.
Proof.
  intros Hinit Hdir keys.
  destruct (init_inversion conf Hinit) as (ps & Hdir' & Hscan & Hn).
  rewrite Hdir in Hdir'. injection Hdir' as <-.
  pose proof (scan_patients_same_keys patients [] [] eq_refl Hscan) as Hk.
  destruct (scan_patients_keys patients _ _ Hscan) as (Hkeys & Hnd & Hlen).
  fold keys in Hk.
  assert (Hlk : List.length keys = List.length (CBCTtoCTDataset.self_paths_CT self))
    by (unfold keys, dict_keys; apply length_map).
  split; [|split; [|split]].
  - rewrite <- Hk. apply Hnd. constructor.
  - intros k. rewrite <- Hk, Hkeys. cbn [dict_keys map In]. tauto.
  - unfold CBCTtoCTDataset.len. now rewrite Hn, Hlk.
  - unfold CBCTtoCTDataset.len. rewrite Hn, <- Hlk, <- Hk.
    unfold dict_keys. rewrite length_map. cbn [List.length] in Hlen. lia.
Qed.

Lemma constructor_one_datapoint_per_stem_witness :
  CBCTtoCTDataset.len MoreFixtures.same_stem_dataset = 1
  /\ NoDup (dict_keys (CBCTtoCTDataset.self_paths_CT MoreFixtures.same_stem_dataset))
  /\ CBCTtoCTDataset.len MoreFixtures.same_stem_dataset
     <= List.length [["patient.1"%string]; ["patient.2"%string]].
Proof.
  destruct (@constructor_one_datapoint_per_stem
              (spec_utils (MoreFixtures.same_stem_patients
                             (Fixtures.nrrd Fixtures.all_tissue)
                             (Fixtures.nrrd Fixtures.all_tissue)
                             (Fixtures.nrrd Fixtures.all_tissue)) Fixtures.keep_CT)
              (Fixtures.training_config [32; 32; 32] true)
              MoreFixtures.same_stem_dataset
              [["patient.1"%string]; ["patient.2"%string]] eq_refl eq_refl)
    as (Hnd & _ & Hlen & Hle).
  split; [exact Hlen|]. split; [exact Hnd | exact Hle].
Defined.

(** X3.  When several patient entries have the same stem, the datapoint of
    that stem holds the files of the last of them: the CBCT listing of that
    entry, and of its CT listing the files whose stem is [CT]. *)
Theorem constructor_last_entry_of_a_stem_wins {U : DataUtils}
    (conf : CBCTtoCTDataset.Config) (self : CBCTtoCTDataset.t)
    (before after : list path) (patient : path) (cbct ct : list path) :
  CBCTtoCTDataset.init conf = Ok self ->
  iterdir (CBCTtoCTDataset.conf_root conf) = Ok (before ++ patient :: after) ->
  (forall q, In q after -> path_stem q <> path_stem patient) ->
  make_recursive_dataset_of_files (path_join patient "CBCT") EXTENSIONS = Ok cbct ->
  make_recursive_dataset_of_files (path_join patient "CT") EXTENSIONS = Ok ct ->
  dict_get (CBCTtoCTDataset.self_paths_CBCT self) (path_stem patient) = Some cbct
  /\ dict_get (CBCTtoCTDataset.self_paths_CT self) (path_stem patient)
     = Some (filter (fun q => String.eqb (path_stem q) "CT") ct).
Proof.
  intros Hinit Hdir Hafter Hc Ht.
  destruct (init_inversion conf Hinit) as (ps & Hdir' & Hscan & _).
  rewrite Hdir in Hdir'. injection Hdir' as <-.
  exact (scan_patients_last before after patient Hc Ht Hafter _ _ Hscan).
Qed.

Lemma constructor_last_entry_of_a_stem_wins_witness :
  dict_get (CBCTtoCTDataset.self_paths_CBCT MoreFixtures.same_stem_dataset) "patient"
    = Some [["patient.2"; "CBCT"; "b.nrrd"]%string]
  /\ dict_get (CBCTtoCTDataset.self_paths_CT MoreFixtures.same_stem_dataset) "patient"
     = Some [["patient.2"; "CT"; "CT.nrrd"]%string].
Proof.
  apply (@constructor_last_entry_of_a_stem_wins
           (spec_utils (MoreFixtures.same_stem_patients
                          (Fixtures.nrrd Fixtures.all_tissue)
                          (Fixtures.nrrd Fixtures.all_tissue)
                          (Fixtures.nrrd Fixtures.all_tissue)) Fixtures.keep_CT)
           (Fixtures.training_config [32; 32; 32] true)
           MoreFixtures.same_stem_dataset
           [["patient.1"%string]] [] ["patient.2"%string]
           [["patient.2"; "CBCT"; "b.nrrd"]%string]
           [["patient.2"; "CT"; "CT.nrrd"]%string]
           eq_refl eq_refl (fun q (H : In q []) => match H with end)
           eq_refl eq_refl).
Defined.

(** X4.  Every path stored in [paths_CT] of a dataset built by the
    constructor has the stem [CT]: other files of a CT directory are never
    served as the CT volume. *)
Theorem constructor_keeps_only_planning_CT {U : DataUtils}
    (conf : CBCTtoCTDataset.Config) (self : CBCTtoCTDataset.t)
    (k : string) (files : list path) :
  CBCTtoCTDataset.init conf = Ok self ->
  dict_get (CBCTtoCTDataset.self_paths_CT self) k = Some files ->
  Forall (fun q => path_stem q = "CT"%string) files.
Proof.
  intros Hinit Hget.
  destruct (init_inversion conf Hinit) as (ps & _ & Hscan & _).
  eapply scan_patients_planning_only; [|exact Hscan|exact Hget].
  intros k' l' H. discriminate H.
Qed.

Lemma constructor_keeps_only_planning_CT_witness :
  Forall (fun q => path_stem q = "CT"%string) [Fixtures.ct_path].
Proof.
  apply (@constructor_keeps_only_planning_CT
           (spec_utils (Fixtures.one_patient (Fixtures.nrrd Fixtures.all_tissue)
                          (Fixtures.nrrd Fixtures.all_tissue)) Fixtures.keep_CT)
           (Fixtures.training_config [32; 32; 32] true)
           (Fixtures.training_dataset [32; 32; 32] true)
           "patient1" [Fixtures.ct_path] eq_refl eq_refl).
Defined.

(** ** Items of the training dataset *)

(** X5.  A datapoint whose CBCT list or CT list is empty makes
    [__getitem__] raise the [IndexError] of [random.choice] (lines 86 and
    87), before any volume is loaded.  The constructor does build such
    datapoints, for instance from a CT directory without a file named [CT]. *)
Theorem getitem_of_empty_listing_raises {U : DataUtils}
    (self : CBCTtoCTDataset.t) (index : nat) (patient : string)
    (paths_CBCT paths_CT : list path) (w : world) :
  nth_error (dict_keys (CBCTtoCTDataset.self_paths_CT self)) index = Some patient ->
  dict_get (CBCTtoCTDataset.self_paths_CBCT self) patient = Some paths_CBCT ->
  dict_get (CBCTtoCTDataset.self_paths_CT self) patient = Some paths_CT ->
  paths_CBCT = [] \/ paths_CT = [] ->
  exists w',
    CBCTtoCTDataset.getitem self index w =
    (Raise (IndexError "Cannot choose from an empty sequence"), w').
Proof.
  intros Hidx Hc Ht Hempty.
  unfold CBCTtoCTDataset.getitem, CBCTtoCTDataset.volumes_at_sampler.
  unfold bind at 1. unfold bind at 1.
  unfold CBCTtoCTDataset.choose_and_load, bind, list_index, dict_lookup, ret.
  rewrite Hidx. cbv beta iota. rewrite Hc. cbv beta iota. rewrite Ht. cbv beta iota.
  destruct paths_CBCT as [|c cs].
  - eexists. reflexivity.
  - destruct Hempty as [H|H]; [discriminate|]. subst paths_CT.
    destruct (@random_choice_In _ (c :: cs) w ltac:(discriminate))
      as (p & w1 & -> & _).
    eexists. reflexivity.
Qed.

Lemma getitem_of_empty_listing_raises_witness :
  CBCTtoCTDataset.init
    (U := spec_utils (MoreFixtures.patient_without_planning_CT
                        (Fixtures.nrrd Fixtures.all_tissue)
                        (Fixtures.nrrd Fixtures.all_tissue)) Fixtures.keep_CT)
    (Fixtures.training_config [32; 32; 32] true)
  = Ok MoreFixtures.dataset_without_planning_CT
  /\ exists w',
       CBCTtoCTDataset.getitem
         (U := spec_utils (MoreFixtures.patient_without_planning_CT
                             (Fixtures.nrrd Fixtures.all_tissue)
                             (Fixtures.nrrd Fixtures.all_tissue)) Fixtures.keep_CT)
         MoreFixtures.dataset_without_planning_CT 0 Fixtures.fresh_world =
       (Raise (IndexError "Cannot choose from an empty sequence"), w').
Proof.
  split; [reflexivity|].
  apply (@getitem_of_empty_listing_raises
           (spec_utils (MoreFixtures.patient_without_planning_CT
                          (Fixtures.nrrd Fixtures.all_tissue)
                          (Fixtures.nrrd Fixtures.all_tissue)) Fixtures.keep_CT)
           MoreFixtures.dataset_without_planning_CT 0 "patient1"
           [Fixtures.scan_path] [] Fixtures.fresh_world
           eq_refl eq_refl eq_refl (or_intror eq_refl)).
Defined.

(** ** The inference dataset: constructor and [save] *)

Lemma inference_scan_appends {U : DataUtils} (patients : list path)
    (listing : path -> list path) :
  (forall p, In p patients ->
     make_recursive_dataset_of_files (path_join p "CBCT") EXTENSIONS = Ok (listing p)) ->
  forall acc,
    CBCTtoCTInferenceDataset.scan_patients patients acc
    = Ok (acc ++ flat_map listing patients).
Proof.
  induction patients as [|p ps IH]; intros Hok acc;
    cbn [CBCTtoCTInferenceDataset.scan_patients flat_map].
  - now rewrite app_nil_r.
  - rewrite (Hok p (or_introl eq_refl)).
    rewrite IH by (intros q Hq; apply Hok; now right).
    now rewrite app_assoc.
Qed.

(** X6.  The inference constructor collects the CBCT files of all patient
    entries, in the order of the entries, and [len] is their number; no CT
    directory is looked at. *)
Theorem inference_constructor_collects_CBCT_files {U : DataUtils}
    (conf : CBCTtoCTInferenceDataset.Config) (patients : list path)
    (listing : path -> list path) :
  iterdir (CBCTtoCTInferenceDataset.conf_root conf) = Ok patients ->
  (forall p, In p patients ->
     make_recursive_dataset_of_files (path_join p "CBCT") EXTENSIONS = Ok (listing p)) ->
  exists self,
    CBCTtoCTInferenceDataset.init conf = Ok self
    /\ CBCTtoCTInferenceDataset.self_paths self = flat_map listing patients
    /\ CBCTtoCTInferenceDataset.len self = List.length (flat_map listing patients)
    /\ CBCTtoCTInferenceDataset.self_root_path self
       = CBCTtoCTInferenceDataset.conf_root conf.
Proof.
  intros Hdir Hok. unfold CBCTtoCTInferenceDataset.init. rewrite Hdir.
  rewrite (inference_scan_appends patients listing Hok []). cbn [app].
  eexists. split; [reflexivity|]. repeat split; reflexivity.
Qed.

Lemma inference_constructor_collects_CBCT_files_witness :
  exists self,
    CBCTtoCTInferenceDataset.init
      (U := spec_utils (Fixtures.patient_without_CT (Fixtures.nrrd Fixtures.all_tissue))
              Fixtures.keep_CT)
      (CBCTtoCTInferenceDataset.default_config []) = Ok self
    /\ CBCTtoCTInferenceDataset.self_paths self = [Fixtures.scan_path]
    /\ CBCTtoCTInferenceDataset.len self = 1.
Proof.
  destruct (@inference_constructor_collects_CBCT_files
              (spec_utils (Fixtures.patient_without_CT (Fixtures.nrrd Fixtures.all_tissue))
                 Fixtures.keep_CT)
              (CBCTtoCTInferenceDataset.default_config [])
              [["patient1"%string]] (fun _ => [Fixtures.scan_path]) eq_refl)
    as (self & Hinit & Hpaths & Hlen & _).
  - intros p [<-|[]]. reflexivity.
  - exists self. repeat split; assumption.
Defined.

Lemma not_broadcastable_when_smaller (dz dy dx ez ey ex : nat) :
  2 <= dz -> 2 <= dy -> 2 <= dx ->
  [ez; ey; ex] <> [dz; dy; dx] ->
  broadcastable (squeeze_shape [1; dz; dy; dx]) [ez; ey; ex] = false.
Proof.
  intros Hz Hy Hx Hne. unfold squeeze_shape. cbn [filter Nat.eqb negb].
  assert (Hd : forall d, 2 <= d -> (d =? 1) = false)
    by (intros d Hd; apply Nat.eqb_neq; lia).
  rewrite (Hd dz Hz), (Hd dy Hy), (Hd dx Hx). cbn [negb].
  unfold broadcastable.
  assert (Hdrop : drop_leading_ones [dz; dy; dx] = [dz; dy; dx]).
  { destruct dz as [|[|dz]]; try lia. reflexivity. }
  rewrite Hdrop. cbn [List.length Nat.leb Nat.sub skipn expandable andb].
  rewrite (Hd dz Hz), (Hd dy Hy), (Hd dx Hx), !Bool.orb_false_r.
  destruct (Nat.eqb_spec dz ez) as [->|]; [|reflexivity].
  destruct (Nat.eqb_spec dy ey) as [->|]; [|reflexivity].
  destruct (Nat.eqb_spec dx ex) as [->|]; [|reflexivity].
  congruence.
Qed.

(** X7.  With bounding disabled, an item whose body box does not span the
    whole volume cannot be written back: [__getitem__] returns the
    full-size tensor together with the box, and [save] raises on the
    assignment of line 287 because the tensor does not fit the box region
    (volume extents of at least 2).  Nothing is written. *)
Theorem unbounded_item_is_rejected_by_save {U : DataUtils}
    (self : CBCTtoCTInferenceDataset.t) (index : nat) (out : path) (w : world)
    (file : path) (img : image) (m : mask) (b : bounds) (dz dy dx : nat) :
  let T := truncate_CBCT_based_on_fov (image_sub img 1024) in
  nth_error (CBCTtoCTInferenceDataset.self_paths self) index = Some file ->
  sitk_load file = Ok img ->
  shape (pixels T) = [dz; dy; dx] ->
  get_body_mask_and_bound (get_npy T)
    (CBCTtoCTInferenceDataset.self_cbct_mask_threshold self) = Ok (m, b) ->
  CBCTtoCTInferenceDataset.self_apply_bound self = false ->
  2 <= dz -> 2 <= dy -> 2 <= dx ->
  box_extents dz dy dx b <> [dz; dy; dx] ->
  exists msg,
    crop_then_reconstruct self index out w
    = (Raise (RuntimeError msg), after_print w file).
Proof.
  intros T Hidx Hload Hshape Hbody Hbound Hz Hy Hx Hne.
  eexists.
  unfold crop_then_reconstruct, bind.
  rewrite (getitem_returns self index Hidx Hload Hshape Hbody w).
  rewrite Hbound. cbv beta iota. subst T.
  unfold CBCTtoCTInferenceDataset.save, metadata_of, bind, lift.
  cbv beta iota.
  unfold CBCTtoCTInferenceDataset.fill_canvas, GetSize. rewrite Hshape.
  cbn [rev app]. unfold setitem_slices.
  destruct b as [[bz by_] bx].
  change (slice_shape (shape (full [dz; dy; dx] (-1024)%Q))
            (bounds_slices (bz, by_, bx)))
    with (Some [slice_len dz bz; slice_len dy by_; slice_len dx bx]).
  cbv beta iota.
  replace (shape (min_max_denormalize_tensor
                    (squeeze (as_network_input
                       (CBCTtoCTInferenceDataset.self_hu_min self)
                       (CBCTtoCTInferenceDataset.self_hu_max self)
                       (masked_volume (CBCTtoCTInferenceDataset.self_apply_mask self)
                          m (get_npy (truncate_CBCT_based_on_fov (image_sub img 1024))))))
                    (CBCTtoCTInferenceDataset.self_hu_min self)
                    (CBCTtoCTInferenceDataset.self_hu_max self)))
    with (squeeze_shape [1; dz; dy; dx]).
  - rewrite (not_broadcastable_when_smaller Hz Hy Hx Hne). reflexivity.
  - unfold min_max_denormalize_tensor, squeeze, as_network_input, unsqueeze0,
      min_max_normalize_tensor, torch_clamp, torch_tensor, amap, masked_volume,
      get_npy, np_where.
    destruct (CBCTtoCTInferenceDataset.self_apply_mask self); cbn [shape];
      now rewrite Hshape.
Qed.

Lemma unbounded_item_is_rejected_by_save_witness :
  exists msg,
    crop_then_reconstruct
      (U := spec_utils (Fixtures.one_patient (Fixtures.nrrd Fixtures.small_body)
                          (Fixtures.nrrd Fixtures.all_tissue)) Fixtures.keep_CT)
      (Fixtures.inference_dataset false) 0 ["out"%string] Fixtures.fresh_world
    = (Raise (RuntimeError msg),
       after_print Fixtures.fresh_world Fixtures.scan_path).
Proof.
  apply (@unbounded_item_is_rejected_by_save
           (spec_utils (Fixtures.one_patient (Fixtures.nrrd Fixtures.small_body)
                          (Fixtures.nrrd Fixtures.all_tissue)) Fixtures.keep_CT)
           (Fixtures.inference_dataset false) 0 ["out"%string] Fixtures.fresh_world
           Fixtures.scan_path (Fixtures.nrrd Fixtures.small_body)
           (fun idx => negb (Qle_bool
              (item (get_npy (crop_to_valid_fov
                 (image_sub (Fixtures.nrrd Fixtures.small_body) 1024))) idx)
              (inject_Z (-700))))
           ((0, 1), (0, 1), (0, 1)) 2 2 2
           eq_refl eq_refl eq_refl eq_refl eq_refl).
  - lia.
  - lia.
  - lia.
  - discriminate.
Defined.


(** ** The evaluation dataset *)

Section EvalConstructor.
Context {U : DataUtils}.

Lemma eval_scan_passes (before rest : list path) :
  (forall q, In q before -> has_both_volumes q) ->
  forall acc, exists acc',
    CBCTtoCTEvalDataset.scan_patients (before ++ rest) acc
    = CBCTtoCTEvalDataset.scan_patients rest acc'.
Proof.
  induction before as [|q before IH]; intros Hok acc.
  - exists acc. reflexivity.
  - destruct (Hok q (or_introl eq_refl)) as (c & cs & cts & Hc & Ht & Hne).
    cbn [app CBCTtoCTEvalDataset.scan_patients]. rewrite Hc, Ht. cbn [first_item].
    destruct (filter (fun p => String.eqb (path_stem p) "CT") cts) as [|x xs];
      [congruence|]. cbn [sorted_first].
    apply IH. intros r Hr. apply Hok. now right.
Qed.
End EvalConstructor.

(** X9.  The evaluation constructor fails on the first patient entry that
    lacks a volume: when the entries before it are usable and its CBCT
    listing is empty, or its CT listing holds no file with the stem [CT],
    construction raises the [IndexError] of the subscript [[0]] (lines 326
    and 328).  (The training constructor accepts such an entry.) *)
Theorem eval_constructor_rejects_patient_without_volume {U : DataUtils}
    (conf : CBCTtoCTEvalDataset.Config) (before after : list path)
    (patient : path) :
  iterdir (CBCTtoCTEvalDataset.conf_root conf) = Ok (before ++ patient :: after) ->
  (forall q, In q before -> has_both_volumes q) ->
  make_recursive_dataset_of_files (path_join patient "CBCT") EXTENSIONS = Ok []
  \/ (exists first others CT_nrrds,
        make_recursive_dataset_of_files (path_join patient "CBCT") EXTENSIONS
          = Ok (first :: others)
        /\ make_recursive_dataset_of_files (path_join patient "CT") EXTENSIONS
           = Ok CT_nrrds
        /\ filter (fun p => String.eqb (path_stem p) "CT") CT_nrrds = []) ->
  CBCTtoCTEvalDataset.init conf = Raise (IndexError "list index out of range").
Proof.
  intros Hdir Hbefore Hmissing.
  unfold CBCTtoCTEvalDataset.init. rewrite Hdir.
  destruct (eval_scan_passes before (patient :: after) Hbefore []) as (acc & ->).
  cbn [CBCTtoCTEvalDataset.scan_patients].
  destruct Hmissing as [Hc|(c & cs & cts & Hc & Ht & Hnone)].
  - rewrite Hc. reflexivity.
  - rewrite Hc, Ht. cbn [first_item]. rewrite Hnone. reflexivity.
Qed.

Lemma eval_constructor_rejects_patient_without_volume_witness :
  CBCTtoCTEvalDataset.init
    (U := spec_utils (MoreFixtures.patient_without_planning_CT
                        (Fixtures.nrrd Fixtures.all_tissue)
                        (Fixtures.nrrd Fixtures.all_tissue)) Fixtures.keep_CT)
    (CBCTtoCTEvalDataset.default_config [])
  = Raise (IndexError "list index out of range").
Proof.
  apply (@eval_constructor_rejects_patient_without_volume
           (spec_utils (MoreFixtures.patient_without_planning_CT
                          (Fixtures.nrrd Fixtures.all_tissue)
                          (Fixtures.nrrd Fixtures.all_tissue)) Fixtures.keep_CT)
           (CBCTtoCTEvalDataset.default_config []) [] [] ["patient1"%string]
           eq_refl (fun q (H : In q []) => match H with end)).
  right. exists Fixtures.scan_path, [], [["patient1"; "CT"; "other.nrrd"]%string].
  repeat split; reflexivity.
Defined.

Lemma eval_mask_and_bound_returns {U : DataUtils} (self : CBCTtoCTEvalDataset.t)
    (array : ndarray) (HU_threshold : Z) (m : mask) (b : bounds)
    (dz dy dx : nat) (w : world) :
  shape array = [dz; dy; dx] ->
  get_body_mask_and_bound array HU_threshold = Ok (m, b) ->
  CBCTtoCTEvalDataset.mask_and_bound self array HU_threshold w =
  (Ok (if CBCTtoCTEvalDataset.self_apply_bound self
       then cropped (masked_volume (CBCTtoCTEvalDataset.self_apply_mask self) m array)
              dz dy dx b
       else masked_volume (CBCTtoCTEvalDataset.self_apply_mask self) m array), w).
Proof.
  intros Hshape Hbody.
  unfold CBCTtoCTEvalDataset.mask_and_bound, bind, lift, ret. rewrite Hbody.
  destruct b as [[bz by_] bx]. cbv beta iota.
  destruct (CBCTtoCTEvalDataset.self_apply_bound self); [|reflexivity].
  unfold getitem_slices.
  replace (shape (if CBCTtoCTEvalDataset.self_apply_mask self
                  then np_where m array (-1024)%Q else array))
    with [dz; dy; dx]
    by (destruct (CBCTtoCTEvalDataset.self_apply_mask self); cbn [shape np_where];
        now rewrite Hshape).
  reflexivity.
Qed.

(** X10.  An evaluation item uses no randomness and leaves the world as it
    was.  [A] is the HU-shifted, FOV-truncated CBCT and [B] the CT as loaded,
    each masked and cropped with its own body box; with bounding on, the two
    tensors therefore have the extents of two independent boxes. *)
Theorem eval_item_is_cropped_per_volume {U : DataUtils}
    (self : CBCTtoCTEvalDataset.t) (index : nat) (w : world)
    (patient : path) (files : CBCTtoCTEvalDataset.patient_files)
    (CT_img CBCT_img : image) (m_CBCT m_CT : mask) (b_CBCT b_CT : bounds)
    (dz dy dx ez ey ex : nat) :
  let CBCT := get_npy (truncate_CBCT_based_on_fov (image_sub CBCT_img 1024)) in
  let CT := get_npy CT_img in
  let apply_mask := CBCTtoCTEvalDataset.self_apply_mask self in
  let apply_bound := CBCTtoCTEvalDataset.self_apply_bound self in
  let hu_min := CBCTtoCTEvalDataset.self_hu_min self in
  let hu_max := CBCTtoCTEvalDataset.self_hu_max self in
  nth_error (map fst (CBCTtoCTEvalDataset.self_paths self)) index = Some patient ->
  CBCTtoCTEvalDataset.path_dict_get (CBCTtoCTEvalDataset.self_paths self) patient
    = Some files ->
  sitk_load (CBCTtoCTEvalDataset.file_CT files) = Ok CT_img ->
  sitk_load (CBCTtoCTEvalDataset.file_CBCT files) = Ok CBCT_img ->
  shape CBCT = [dz; dy; dx] ->
  shape CT = [ez; ey; ex] ->
  get_body_mask_and_bound CBCT (CBCTtoCTEvalDataset.self_cbct_mask_threshold self)
    = Ok (m_CBCT, b_CBCT) ->
  get_body_mask_and_bound CT (CBCTtoCTEvalDataset.self_ct_mask_threshold self)
    = Ok (m_CT, b_CT) ->
  exists pair,
    CBCTtoCTEvalDataset.getitem self index w = (Ok pair, w)
    /\ A pair = as_network_input hu_min hu_max
                  (if apply_bound
                   then cropped (masked_volume apply_mask m_CBCT CBCT) dz dy dx b_CBCT
                   else masked_volume apply_mask m_CBCT CBCT)
    /\ B pair = as_network_input hu_min hu_max
                  (if apply_bound
                   then cropped (masked_volume apply_mask m_CT CT) ez ey ex b_CT
                   else masked_volume apply_mask m_CT CT)
    /\ shape (A pair)
       = 1 :: (if apply_bound then box_extents dz dy dx b_CBCT else [dz; dy; dx])
    /\ shape (B pair)
       = 1 :: (if apply_bound then box_extents ez ey ex b_CT else [ez; ey; ex]).
Proof.
  intros CBCT CT apply_mask apply_bound hu_min hu_max
         Hidx Hget HCT HCBCT HsC HsT HbC HbT.
  eexists. split.
  - unfold CBCTtoCTEvalDataset.getitem, bind at 1, list_index.
    rewrite Hidx. unfold ret at 1. cbv beta iota.
    unfold bind at 1. rewrite Hget. unfold ret at 1. cbv beta iota zeta.
    unfold bind at 1, lift at 1. rewrite HCT. cbv beta iota.
    unfold bind at 1, lift at 1. rewrite HCBCT. cbv beta iota.
    unfold bind at 1. fold CBCT.
    rewrite (eval_mask_and_bound_returns self CBCT _ w HsC HbC).
    unfold bind at 1. fold CT.
    rewrite (eval_mask_and_bound_returns self CT _ w HsT HbT).
    reflexivity.
  - cbn [A B]. split; [reflexivity|]. split; [reflexivity|].
    unfold as_network_input, unsqueeze0, min_max_normalize_tensor, torch_clamp,
      torch_tensor, amap, masked_volume, cropped, np_where.
    unfold apply_bound, apply_mask.
    destruct (CBCTtoCTEvalDataset.self_apply_bound self);
      destruct (CBCTtoCTEvalDataset.self_apply_mask self); cbn [shape];
      rewrite ?HsC, ?HsT; split; reflexivity.
Qed.

(** The evaluation dataset built over a patient with two scans and two files
    in the CT directory: the first scan and the file named [CT]. *)
Example init_eval_fixture (first second ct : image) :
  CBCTtoCTEvalDataset.init
    (U := spec_utils (MoreFixtures.eval_patient first second ct) Fixtures.keep_CT)
    (CBCTtoCTEvalDataset.default_config [])
  = Ok (MoreFixtures.eval_dataset true).
Proof. reflexivity. Qed.

Lemma eval_item_is_cropped_per_volume_witness :
  exists pair,
    CBCTtoCTEvalDataset.getitem
      (U := spec_utils (MoreFixtures.eval_patient
                          (Fixtures.nrrd Fixtures.small_body)
                          (Fixtures.nrrd Fixtures.all_tissue)
                          (Fixtures.nrrd MoreFixtures.ct_half_body)) Fixtures.keep_CT)
      (MoreFixtures.eval_dataset true) 0 Fixtures.fresh_world
      = (Ok pair, Fixtures.fresh_world)
    /\ shape (A pair) = [1; 1; 1; 1]
    /\ shape (B pair) = [1; 1; 2; 2].
Proof.
  destruct (@eval_item_is_cropped_per_volume
              (spec_utils (MoreFixtures.eval_patient
                             (Fixtures.nrrd Fixtures.small_body)
                             (Fixtures.nrrd Fixtures.all_tissue)
                             (Fixtures.nrrd MoreFixtures.ct_half_body)) Fixtures.keep_CT)
              (MoreFixtures.eval_dataset true) 0 Fixtures.fresh_world
              ["patient1"%string]
              (CBCTtoCTEvalDataset.mk_files ["patient1"; "CT"; "CT.nrrd"]%string
                                            ["patient1"; "CBCT"; "a.nrrd"]%string)
              (Fixtures.nrrd MoreFixtures.ct_half_body)
              (Fixtures.nrrd Fixtures.small_body)
              (fun idx => negb (Qle_bool
                 (item (get_npy (crop_to_valid_fov
                    (image_sub (Fixtures.nrrd Fixtures.small_body) 1024))) idx)
                 (inject_Z (-700))))
              (fun idx => negb (Qle_bool
                 (item (get_npy (Fixtures.nrrd MoreFixtures.ct_half_body)) idx)
                 (inject_Z (-300))))
              ((0, 1), (0, 1), (0, 1)) ((1, 2), (0, 2), (0, 2))
              2 2 2 2 2 2
              eq_refl eq_refl eq_refl eq_refl eq_refl eq_refl eq_refl eq_refl)
    as (pair & Hget & _ & _ & HA & HB).
  exists pair. split; [exact Hget|]. split; [exact HA | exact HB].
Defined.

(** ** The npy dataset: which files an item reads *)

Lemma frac_range (u : Q) : (0 <= frac u < 1)%Q.
Proof.
  unfold frac. pose proof (Qfloor_le u). pose proof (Qlt_floor u).
  rewrite inject_Z_plus in H0. change (inject_Z 1) with 1%Q in H0. lra.
Qed.

Lemma random_random_range (w : world) :
  exists u w', random_random w = (Ok u, w') /\ (0 <= u < 1)%Q.
Proof.
  unfold random_random. destruct (rand w) as [|u rest].
  - do 2 eexists. split; [reflexivity | lra].
  - do 2 eexists. split; [reflexivity | apply frac_range].
Qed.

(** [random.randint(0, n - 1)] stays within [0 .. n - 1]. *)
Lemma random_randint_range (n : nat) (w : world) :
  0 < n ->
  exists i w',
    random_randint 0 (Z.of_nat n - 1) w = (Ok i, w') /\ (0 <= i < Z.of_nat n)%Z.
Proof.
  intros Hn. unfold random_randint.
  destruct (Z.ltb_spec (Z.of_nat n - 1) 0) as [Hlt|_]; [lia|].
  unfold bind, ret.
  destruct (random_random_range w) as (u & w' & -> & Hu).
  do 2 eexists. split; [reflexivity|].
  replace (Z.of_nat n - 1 - 0 + 1)%Z with (Z.of_nat n) by lia.
  assert (Hn' : (0 < inject_Z (Z.of_nat n))%Q).
  { change 0%Q with (inject_Z 0). rewrite <- Zlt_Qlt. lia. }
  split.
  - cbn [Z.add]. rewrite <- (Qfloor_Z 0). apply Qfloor_resp_le.
    change (inject_Z 0) with 0%Q. apply Qmult_le_0_compat; lra.
  - cbn [Z.add]. rewrite Zlt_Qlt.
    apply Qle_lt_trans with (u * inject_Z (Z.of_nat n))%Q; [apply Qfloor_le|].
    setoid_replace (inject_Z (Z.of_nat n)) with (1 * inject_Z (Z.of_nat n))%Q at 2 by ring.
    apply Qmult_lt_compat_r; lra.
Qed.

(** X11.  When the two sizes are the lengths of the two path lists, as the
    constructor sets them (lines 17 to 20), and neither list is empty, the
    path lookups of lines 33 to 37 succeed for every index and every state of
    the generator: the A index wraps around modulo [A_size], the B index is
    drawn within range. *)
Theorem npy_paths_are_always_found (self : NpyUnaligned3dDataset.t)
    (index : nat) (w : world) :
  NpyUnaligned3dDataset.self_A_size self
    = List.length (NpyUnaligned3dDataset.self_A_paths self) ->
  NpyUnaligned3dDataset.self_B_size self
    = List.length (NpyUnaligned3dDataset.self_B_paths self) ->
  0 < NpyUnaligned3dDataset.self_A_size self ->
  0 < NpyUnaligned3dDataset.self_B_size self ->
  exists A_path B_path w',
    npy_choose_paths self index w = (Ok (A_path, B_path), w')
    /\ nth_error (NpyUnaligned3dDataset.self_A_paths self)
         (index mod NpyUnaligned3dDataset.self_A_size self) = Some A_path
    /\ In B_path (NpyUnaligned3dDataset.self_B_paths self).
Proof.
  intros HA HB HposA HposB.
  unfold npy_choose_paths, bind at 1, NpyUnaligned3dDataset.py_mod.
  destruct (NpyUnaligned3dDataset.self_A_size self) as [|n] eqn:En; [lia|].
  unfold ret at 1. cbv beta iota. unfold bind at 1.
  destruct (random_randint_range w HposB) as (i & w' & -> & Hi).
  cbv beta iota.
  assert (HiA : index mod S n < List.length (NpyUnaligned3dDataset.self_A_paths self)).
  { rewrite <- HA. apply Nat.mod_upper_bound. lia. }
  assert (HiB : Z.to_nat i < List.length (NpyUnaligned3dDataset.self_B_paths self))
    by (rewrite <- HB; lia).
  destruct (nth_error (NpyUnaligned3dDataset.self_A_paths self) (index mod S n))
    as [pa|] eqn:Ea; [|apply nth_error_None in Ea; lia].
  destruct (nth_error (NpyUnaligned3dDataset.self_B_paths self) (Z.to_nat i))
    as [pb|] eqn:Eb; [|apply nth_error_None in Eb; lia].
  exists pa, pb, w'. unfold bind, list_index, ret. rewrite Ea, Eb.
  split; [reflexivity|]. split; [reflexivity|].
  exact (nth_error_In _ _ Eb).
Qed.

Lemma npy_paths_are_always_found_witness :
  exists A_path B_path w',
    npy_choose_paths Fixtures.npy_dataset 7
      (mk_world [(9 # 10)%Q] [] [] []) = (Ok (A_path, B_path), w')
    /\ nth_error (NpyUnaligned3dDataset.self_A_paths Fixtures.npy_dataset) (7 mod 1)
       = Some A_path
    /\ In B_path (NpyUnaligned3dDataset.self_B_paths Fixtures.npy_dataset).
Proof.
  apply (@npy_paths_are_always_found Fixtures.npy_dataset 7
           (mk_world [(9 # 10)%Q] [] [] []) eq_refl eq_refl);
    cbn; lia.
Defined.

(** X12.  An empty A directory makes every item raise [ZeroDivisionError]
    at line 33; with a non-empty A and an empty B directory every item raises
    the [ValueError] of [random.randint(0, -1)] at line 34.  In both cases
    nothing has been read, drawn or written. *)
Theorem npy_getitem_of_empty_directory {L : NpyUnaligned3dDataset.LegacyUtils}
    (self : NpyUnaligned3dDataset.t) (index : nat) (w : world) :
  (NpyUnaligned3dDataset.self_A_size self = 0 ->
   NpyUnaligned3dDataset.getitem self index w =
   (Raise (ZeroDivisionError "integer division or modulo by zero"), w))
  /\ (0 < NpyUnaligned3dDataset.self_A_size self ->
      NpyUnaligned3dDataset.self_B_size self = 0 ->
      exists msg,
        NpyUnaligned3dDataset.getitem self index w = (Raise (ValueError msg), w)).
Proof.
  unfold NpyUnaligned3dDataset.getitem, NpyUnaligned3dDataset.getitem_body,
    call, seq_stmt, exec, bind, NpyUnaligned3dDataset.py_mod.
  split.
  - intros ->. reflexivity.
  - intros HA ->. destruct (NpyUnaligned3dDataset.self_A_size self); [lia|].
    eexists. reflexivity.
Qed.

Lemma npy_statements_split {L : NpyUnaligned3dDataset.LegacyUtils}
    (self : NpyUnaligned3dDataset.t) (index : nat) (w : world) :
  NpyUnaligned3dDataset.statements_before_return self index w =
  (paths <- npy_choose_paths self index ;;
   npy_process_paths self (fst paths) (snd paths)) w.
Proof.
  unfold NpyUnaligned3dDataset.statements_before_return, npy_choose_paths,
    npy_process_paths, bind, ret.
  destruct (NpyUnaligned3dDataset.py_mod index _ w) as [[index_A|e] w1];
    [|reflexivity].
  destruct (random_randint 0 _ w1) as [[index_B|e] w2]; [|reflexivity].
  destruct (list_index (NpyUnaligned3dDataset.self_A_paths self) index_A w2)
    as [[A_path|e] w3]; [|reflexivity].
  destruct (list_index (NpyUnaligned3dDataset.self_B_paths self) _ w3)
    as [[B_path|e] w4]; reflexivity.
Qed.

(** ** The trainer *)

Lemma py_range_In (a b i : Z) : In i (py_range a b) <-> (a <= i < b)%Z.
Proof.
  unfold py_range. rewrite in_map_iff. split.
  - intros (k & <- & Hk). apply in_seq in Hk. lia.
  - intros Hi. exists (Z.to_nat (i - a)). split; [lia|].
    apply in_seq. lia.
Qed.

Lemma py_range_length (a b : Z) : List.length (py_range a b) = Z.to_nat (b - a).
Proof. unfold py_range. now rewrite length_map, length_seq. Qed.

(** X13.  The trainer iterates over the indices from [start_iter] to
    [n_iters + n_iters_decay], where [start_iter] is 1 for a fresh run and
    [count_start_iter] when a checkpoint is loaded; a start past the end
    leaves no iteration. *)
Theorem trainer_iteration_indices (data : Type) (local_rank : Z)
    (conf : Trainer.TrainConfig) (loader : list data) :
  let start_iter := match Trainer.load_checkpoint conf with
                    | None => 1%Z
                    | Some lc => Trainer.count_start_iter lc
                    end in
  let last_iter := (Trainer.n_iters conf + Trainer.n_iters_decay conf)%Z in
  let self := Trainer.init local_rank conf loader in
  (forall i, In i (Trainer.self_iters self) <-> (start_iter <= i <= last_iter)%Z)
  /\ List.length (Trainer.self_iters self) = Z.to_nat (last_iter + 1 - start_iter)
  /\ Trainer.self_iter_idx self = 0%Z
  /\ Trainer.saved_checkpoints (Trainer.self_events self) = [].
Proof.
  intros start_iter last_iter self. split; [|split; [|split]].
  - intros i. unfold self, Trainer.init. cbn [Trainer.self_iters].
    fold start_iter. rewrite py_range_In. unfold last_iter. lia.
  - unfold self, Trainer.init. cbn [Trainer.self_iters]. fold start_iter.
    rewrite py_range_length. f_equal. unfold last_iter. lia.
  - reflexivity.
  - reflexivity.
Qed.

Lemma last_cons_default (A : Type) (x d : A) (l : list A) :
  last (x :: l) d = last l x.
Proof.
  revert x d. induction l as [|y l IH]; intros x d; [reflexivity|].
  change (last (x :: y :: l) d) with (last (y :: l) d).
  now rewrite !IH.
Qed.

Ltac trainer_fields :=
  cbn [Trainer.self_events Trainer.self_iter_idx Trainer.self_checkpoint_freq
       Trainer.self_iters Trainer.self_data_loader Trainer.self_conf
       Trainer.emit Trainer.set_iter_idx Trainer.do_iteration
       Trainer.perform_scheduler_step].

Section TrainerRun.
Variable data : Type.
Variable is_main_process : bool.

Lemma iteration_runs (self : Trainer.t data) (i : Z) (d : data) :
  Trainer.self_checkpoint_freq self <> 0%Z \/ is_main_process = false ->
  exists self',
    Trainer.iteration is_main_process self i d = (Ok tt, self')
    /\ Trainer.self_events self'
       = Trainer.self_events self
         ++ iteration_events is_main_process (Trainer.self_checkpoint_freq self) i d
    /\ Trainer.self_iter_idx self' = i
    /\ Trainer.self_checkpoint_freq self' = Trainer.self_checkpoint_freq self.
Proof.
  intros Hfreq. unfold Trainer.iteration, Trainer.save_checkpoint, iteration_events.
  destruct is_main_process.
  - destruct Hfreq as [Hfreq|Hfreq]; [|discriminate].
    trainer_fields.
    destruct (Z.eqb_spec (Trainer.self_checkpoint_freq self) 0) as [H0|_];
      [contradiction|].
    cbn [andb].
    destruct (i mod Trainer.self_checkpoint_freq self =? 0)%Z;
      eexists; (split; [reflexivity|]); trainer_fields;
      rewrite <- ?app_assoc; repeat split; reflexivity.
  - eexists. split; [reflexivity|]. trainer_fields. cbn [andb].
    rewrite <- ?app_assoc. repeat split; reflexivity.
Qed.

Lemma loop_runs (pairs : list (Z * data)) :
  forall self : Trainer.t data,
    Trainer.self_checkpoint_freq self <> 0%Z \/ is_main_process = false ->
    exists self',
      Trainer.loop is_main_process pairs self = (Ok tt, self')
      /\ Trainer.self_events self'
         = Trainer.self_events self
           ++ flat_map (fun p => iteration_events is_main_process
                                   (Trainer.self_checkpoint_freq self) (fst p) (snd p))
                       pairs
      /\ Trainer.self_iter_idx self' = last (map fst pairs) (Trainer.self_iter_idx self)
      /\ Trainer.self_checkpoint_freq self' = Trainer.self_checkpoint_freq self.
Proof.
  induction pairs as [|[i d] rest IH]; intros self Hfreq.
  - exists self. cbn. rewrite app_nil_r. repeat split; reflexivity.
  - cbn [Trainer.loop].
    destruct (iteration_runs self i d Hfreq) as (s1 & -> & He1 & Hi1 & Hf1).
    destruct (IH s1) as (s2 & -> & He2 & Hi2 & Hf2).
    { rewrite Hf1. exact Hfreq. }
    exists s2. split; [reflexivity|].
    rewrite He2, He1, Hi2, Hi1, Hf2, Hf1. cbn [flat_map fst snd map].
    rewrite <- app_assoc. repeat split; try reflexivity.
    symmetry. apply last_cons_default.
Qed.

Lemma run_trace (self : Trainer.t data) :
  Trainer.self_checkpoint_freq self <> 0%Z \/ is_main_process = false ->
  let pairs := combine (Trainer.self_iters self) (Trainer.self_data_loader self) in
  exists self',
    Trainer.run is_main_process self = (Ok tt, self')
    /\ Trainer.self_events self'
       = Trainer.self_events self
         ++ run_prologue is_main_process
         ++ flat_map (fun p => iteration_events is_main_process
                                 (Trainer.self_checkpoint_freq self) (fst p) (snd p))
                     pairs
         ++ [Trainer.TrackerClose data]
    /\ Trainer.self_iter_idx self' = last (map fst pairs) (Trainer.self_iter_idx self).
Proof.
  intros Hfreq pairs. unfold Trainer.run.
  set (s0 := Trainer.emit (Trainer.StartDataloadingTimer data)
               (if is_main_process
                then Trainer.emit (Trainer.LoggerInfo data "Training started.")
                       (Trainer.emit (Trainer.LoggerInfo data "gan_summary") self)
                else self)).
  assert (H0 : Trainer.self_events s0
               = Trainer.self_events self ++ run_prologue is_main_process
               /\ Trainer.self_iter_idx s0 = Trainer.self_iter_idx self
               /\ Trainer.self_checkpoint_freq s0 = Trainer.self_checkpoint_freq self
               /\ Trainer.self_iters s0 = Trainer.self_iters self
               /\ Trainer.self_data_loader s0 = Trainer.self_data_loader self).
  { unfold s0, run_prologue. destruct is_main_process;
      cbn [Trainer.emit Trainer.self_events Trainer.self_iter_idx
           Trainer.self_checkpoint_freq Trainer.self_iters Trainer.self_data_loader];
      rewrite <- ?app_assoc; repeat split; reflexivity. }
  destruct H0 as (He0 & Hi0 & Hf0 & Hit0 & Hl0).
  rewrite Hit0, Hl0. fold pairs.
  destruct (loop_runs pairs s0) as (s1 & -> & He1 & Hi1 & Hf1).
  { rewrite Hf0. exact Hfreq. }
  eexists. split; [reflexivity|].
  cbn [Trainer.emit Trainer.self_events Trainer.self_iter_idx].
  rewrite He1, He0, Hi1, Hi0, Hf0. rewrite <- !app_assoc. split; reflexivity.
Qed.
End TrainerRun.

Section TrainerTrace.
Variable data : Type.
Variable is_main_process : bool.
Variable freq : Z.

Let calls (pairs : list (Z * data)) : list (Trainer.event data) :=
  flat_map (fun p => iteration_events is_main_process freq (fst p) (snd p)) pairs.

Lemma saved_checkpoints_app (a b : list (Trainer.event data)) :
  Trainer.saved_checkpoints (a ++ b)
  = Trainer.saved_checkpoints a ++ Trainer.saved_checkpoints b.
Proof. apply flat_map_app. Qed.

Lemma inputs_set_app (a b : list (Trainer.event data)) :
  Trainer.inputs_set (a ++ b) = Trainer.inputs_set a ++ Trainer.inputs_set b.
Proof. apply flat_map_app. Qed.

Lemma scheduler_steps_app (a b : list (Trainer.event data)) :
  Trainer.scheduler_steps (a ++ b)
  = Trainer.scheduler_steps a + Trainer.scheduler_steps b.
Proof. unfold Trainer.scheduler_steps. now rewrite filter_app, length_app. Qed.

Lemma closed_app (a b : list (Trainer.event data)) :
  Trainer.closed (a ++ b) = Trainer.closed a || Trainer.closed b.
Proof. apply existsb_app. Qed.

Lemma saved_checkpoints_calls (pairs : list (Z * data)) :
  Trainer.saved_checkpoints (calls pairs)
  = filter (fun i => is_main_process && (i mod freq =? 0)%Z) (map fst pairs).
Proof.
  induction pairs as [|[i d] rest IH]; [reflexivity|].
  unfold calls in *. cbn [flat_map map filter fst snd].
  rewrite saved_checkpoints_app, IH. unfold iteration_events.
  destruct (is_main_process && (i mod freq =? 0)%Z); reflexivity.
Qed.

Lemma inputs_set_calls (pairs : list (Z * data)) :
  Trainer.inputs_set (calls pairs) = map snd pairs.
Proof.
  induction pairs as [|[i d] rest IH]; [reflexivity|].
  unfold calls in *. cbn [flat_map map fst snd].
  rewrite inputs_set_app, IH. unfold iteration_events.
  destruct (is_main_process && (i mod freq =? 0)%Z); reflexivity.
Qed.

Lemma scheduler_steps_calls (pairs : list (Z * data)) :
  Trainer.scheduler_steps (calls pairs) = List.length pairs.
Proof.
  induction pairs as [|[i d] rest IH]; [reflexivity|].
  unfold calls in *. cbn [flat_map fst snd List.length].
  rewrite scheduler_steps_app, IH. unfold iteration_events.
  destruct (is_main_process && (i mod freq =? 0)%Z); reflexivity.
Qed.

Lemma closed_calls (pairs : list (Z * data)) :
  Trainer.closed (calls pairs) = false.
Proof.
  induction pairs as [|[i d] rest IH]; [reflexivity|].
  unfold calls in *. cbn [flat_map fst snd].
  rewrite closed_app, IH. unfold iteration_events.
  destruct (is_main_process && (i mod freq =? 0)%Z); reflexivity.
Qed.
End TrainerTrace.

Lemma map_snd_combine (A B : Type) (l : list A) (l' : list B) :
  map snd (combine l l') = firstn (List.length l) l'.
Proof.
  revert l'. induction l as [|a l IH]; intros [|b l']; cbn; try reflexivity.
  now rewrite IH.
Qed.

Lemma map_fst_combine (A B : Type) (l : list A) (l' : list B) :
  map fst (combine l l') = firstn (List.length l') l.
Proof.
  revert l'. induction l as [|a l IH]; intros [|b l']; cbn; try reflexivity.
  now rewrite IH.
Qed.

Lemma firstn_of_seq (k start len : nat) :
  firstn k (seq start len) = seq start (Nat.min k len).
Proof.
  revert start len. induction k as [|k IH]; intros start [|len]; cbn;
    try reflexivity.
  now rewrite IH.
Qed.

Lemma firstn_py_range_In (k : nat) (a b i : Z) :
  In i (firstn k (py_range a b)) <-> (a <= i < b /\ i < a + Z.of_nat k)%Z.
Proof.
  unfold py_range. rewrite firstn_map, firstn_of_seq, in_map_iff. split.
  - intros (j & <- & Hj). apply in_seq in Hj. lia.
  - intros Hi. exists (Z.to_nat (i - a)). split; [lia|]. apply in_seq. lia.
Qed.

(** X14.  When the checkpoint frequency is not zero, or the process is not
    the main one, [run] ends normally (as long as the model and the tracker
    do): it feeds the model the first [len(iters)] batches of the loader,
    each once and in the loader's order, makes one scheduler step per batch,
    leaves [iter_idx] at the last index it used and closes the tracker as its
    last call. *)
Theorem run_feeds_each_batch_once (data : Type) (is_main_process : bool)
    (self : Trainer.t data) :
  Trainer.self_checkpoint_freq self <> 0%Z \/ is_main_process = false ->
  exists self',
    Trainer.run is_main_process self = (Ok tt, self')
    /\ Trainer.inputs_set (Trainer.self_events self')
       = Trainer.inputs_set (Trainer.self_events self)
         ++ firstn (List.length (Trainer.self_iters self))
                   (Trainer.self_data_loader self)
    /\ Trainer.scheduler_steps (Trainer.self_events self')
       = Trainer.scheduler_steps (Trainer.self_events self)
         + Nat.min (List.length (Trainer.self_iters self))
                   (List.length (Trainer.self_data_loader self))
    /\ Trainer.self_iter_idx self'
       = last (firstn (List.length (Trainer.self_data_loader self))
                      (Trainer.self_iters self))
              (Trainer.self_iter_idx self)
    /\ last (Trainer.self_events self') (Trainer.TrackerLogIter data)
       = Trainer.TrackerClose data.
Proof.
  intros Hfreq.
  destruct (run_trace self Hfreq) as (self' & Hrun & Hev & Hidx).
  exists self'. split; [exact Hrun|]. rewrite Hev, Hidx.
  split; [|split; [|split]].
  - rewrite !inputs_set_app, inputs_set_calls, map_snd_combine.
    unfold run_prologue. destruct is_main_process; cbn; now rewrite app_nil_r.
  - rewrite !scheduler_steps_app, scheduler_steps_calls, length_combine.
    unfold run_prologue. destruct is_main_process; cbn; lia.
  - now rewrite map_fst_combine.
  - rewrite !app_assoc. apply last_last.
Qed.

Lemma run_feeds_each_batch_once_witness :
  exists self',
    Trainer.run true (Trainer.init 0 MoreFixtures.train_conf MoreFixtures.batches)
    = (Ok tt, self')
    /\ Trainer.inputs_set (Trainer.self_events self') = [10; 20; 30; 40]
    /\ Trainer.scheduler_steps (Trainer.self_events self') = 4
    /\ Trainer.self_iter_idx self' = 4%Z
    /\ last (Trainer.self_events self') (Trainer.TrackerLogIter nat)
       = Trainer.TrackerClose nat.
Proof.
  apply (@run_feeds_each_batch_once nat true
           (Trainer.init 0 MoreFixtures.train_conf MoreFixtures.batches)).
  left. cbn. lia.
Defined.

(** X15.  A training started by the constructor saves a checkpoint exactly
    at the iterations it reaches whose index is a multiple of
    [checkpoint_freq], and only on the main process: the indices run from
    the start index to [n_iters + n_iters_decay] and stop when the loader
    is exhausted. *)
Theorem run_saves_checkpoints_at_multiples (data : Type) (is_main_process : bool)
    (local_rank : Z) (conf : Trainer.TrainConfig) (loader : list data) :
  let freq := Trainer.checkpoint_freq (Trainer.logging conf) in
  let start_iter := match Trainer.load_checkpoint conf with
                    | None => 1%Z
                    | Some lc => Trainer.count_start_iter lc
                    end in
  let last_iter := (Trainer.n_iters conf + Trainer.n_iters_decay conf)%Z in
  freq <> 0%Z \/ is_main_process = false ->
  exists self',
    Trainer.run is_main_process (Trainer.init local_rank conf loader) = (Ok tt, self')
    /\ forall i,
         In i (Trainer.saved_checkpoints (Trainer.self_events self'))
         <-> is_main_process = true
             /\ (start_iter <= i <= last_iter)%Z
             /\ (i < start_iter + Z.of_nat (List.length loader))%Z
             /\ (i mod freq = 0)%Z.
Proof.
  intros freq start_iter last_iter Hfreq.
  destruct (run_trace (Trainer.init local_rank conf loader) Hfreq)
    as (self' & Hrun & Hev & _).
  exists self'. split; [exact Hrun|]. intros i. rewrite Hev.
  rewrite !saved_checkpoints_app, saved_checkpoints_calls, map_fst_combine.
  replace (Trainer.saved_checkpoints
             (Trainer.self_events (Trainer.init local_rank conf loader)))
    with (@nil Z) by reflexivity.
  replace (Trainer.saved_checkpoints (run_prologue (data:=data) is_main_process))
    with (@nil Z) by (destruct is_main_process; reflexivity).
  cbn [app Trainer.saved_checkpoints flat_map]. rewrite app_nil_r.
  rewrite filter_In. unfold Trainer.init.
  cbn [Trainer.self_iters Trainer.self_data_loader Trainer.self_checkpoint_freq].
  fold start_iter freq. rewrite firstn_py_range_In, andb_true_iff, Z.eqb_eq.
  unfold last_iter. intuition lia.
Qed.

Lemma run_saves_checkpoints_at_multiples_witness :
  exists self',
    Trainer.run true (Trainer.init 0 MoreFixtures.train_conf MoreFixtures.batches)
    = (Ok tt, self')
    /\ forall i,
         In i (Trainer.saved_checkpoints (Trainer.self_events self'))
         <-> true = true
             /\ (1 <= i <= 3 + 2)%Z
             /\ (i < 1 + Z.of_nat 4)%Z
             /\ (i mod 2 = 0)%Z.
Proof.
  apply (@run_saves_checkpoints_at_multiples nat true 0
           MoreFixtures.train_conf MoreFixtures.batches).
  left. cbn. lia.
Defined.

(** X16.  With [checkpoint_freq] zero the main process raises
    [ZeroDivisionError] in its first iteration: the model has been given the
    first batch and optimized once, but no checkpoint is saved, no scheduler
    step is made and the tracker is not closed. *)
Theorem run_with_zero_checkpoint_freq_raises (data : Type) (self : Trainer.t data) :
  Trainer.self_checkpoint_freq self = 0%Z ->
  Trainer.self_iters self <> [] ->
  Trainer.self_data_loader self <> [] ->
  exists msg self',
    Trainer.run true self = (Raise (ZeroDivisionError msg), self')
    /\ Trainer.inputs_set (Trainer.self_events self')
       = Trainer.inputs_set (Trainer.self_events self)
         ++ firstn 1 (Trainer.self_data_loader self)
    /\ Trainer.saved_checkpoints (Trainer.self_events self')
       = Trainer.saved_checkpoints (Trainer.self_events self)
    /\ Trainer.scheduler_steps (Trainer.self_events self')
       = Trainer.scheduler_steps (Trainer.self_events self)
    /\ Trainer.closed (Trainer.self_events self')
       = Trainer.closed (Trainer.self_events self).
Proof.
  intros Hfreq Hiters Hloader.
  destruct (Trainer.self_iters self) as [|i iters] eqn:Ei; [contradiction|].
  destruct (Trainer.self_data_loader self) as [|d loader] eqn:El; [contradiction|].
  unfold Trainer.run. trainer_fields. rewrite Ei, El.
  cbn [combine Trainer.loop]. unfold Trainer.iteration, Trainer.save_checkpoint.
  trainer_fields. rewrite Hfreq. cbn [Z.eqb].
  eexists. eexists. split; [reflexivity|]. trainer_fields.
  rewrite <- !app_assoc.
  rewrite inputs_set_app, saved_checkpoints_app, scheduler_steps_app, closed_app.
  cbn. rewrite app_nil_r, Nat.add_0_r, orb_false_r. repeat split; reflexivity.
Qed.

Lemma run_with_zero_checkpoint_freq_raises_witness :
  exists msg self',
    Trainer.run true
      (Trainer.init 0 MoreFixtures.train_conf_freq_0 MoreFixtures.batches)
    = (Raise (ZeroDivisionError msg), self')
    /\ Trainer.inputs_set (Trainer.self_events self') = [10]
    /\ Trainer.saved_checkpoints (Trainer.self_events self') = []
    /\ Trainer.scheduler_steps (Trainer.self_events self') = 0
    /\ Trainer.closed (Trainer.self_events self') = false.
Proof.
  apply (@run_with_zero_checkpoint_freq_raises nat
           (Trainer.init 0 MoreFixtures.train_conf_freq_0 MoreFixtures.batches)).
  - reflexivity.
  - cbn. discriminate.
  - cbn. discriminate.
Defined.

(** ** The tracker *)

Section TrackerCalls.
Variable data : Type.
Variable clock : nat -> Q.
Variable reduce : Q -> Q.
Variable local_rank : Z.

Let handle_all := @BaseTracker.handle_all clock reduce data local_rank.

Lemma handle_all_app (a b : list (Trainer.event data)) (tr : BaseTracker.t)
    (w : BaseTracker.env) :
  handle_all (a ++ b) tr w
  = match handle_all a tr w with
    | (Ok tr', w') => handle_all b tr' w'
    | (Raise err, w') => (Raise err, w')
    end.
Proof.
  revert tr w. induction a as [|e a IH]; intros tr w; [reflexivity|].
  unfold handle_all in *. cbn [app BaseTracker.handle_all].
  destruct (BaseTracker.handle clock reduce local_rank e tr w) as [[tr1|err] w1];
    [apply IH|reflexivity].
Qed.

Lemma handle_iteration (is_main_process : bool) (freq i : Z) (d : data)
    (tr : BaseTracker.t) (w : BaseTracker.env) :
  BaseTracker.batch_size tr <> 0%Z ->
  BaseTracker.iter_end_time tr <> None ->
  exists tr' w',
    handle_all (iteration_events is_main_process freq i d) tr w = (Ok tr', w')
    /\ BaseTracker.batch_size tr' = BaseTracker.batch_size tr
    /\ BaseTracker.iter_end_time tr' <> None
    /\ BaseTracker.iter_idx tr' = Some i
    /\ BaseTracker.t_data tr' <> None
    /\ BaseTracker.t_comp tr' <> None.
Proof.
  intros Hbatch Hend.
  destruct tr as [mode batch dir idx [stop|] start tdata tcomp wandb tb];
    [|contradiction].
  cbn [BaseTracker.batch_size] in Hbatch.
  unfold handle_all, iteration_events.
  destruct (is_main_process && (i mod freq =? 0)%Z);
    cbn -[Qminus Qdiv inject_Z Z.eqb];
    (destruct (Z.eqb_spec batch 0) as [H0|_]; [contradiction|]);
    eexists; eexists; (split; [reflexivity|]);
    cbn -[Qminus Qdiv inject_Z]; repeat split; discriminate.
Qed.

Lemma handle_iterations (is_main_process : bool) (freq : Z)
    (pairs : list (Z * data)) :
  forall (tr : BaseTracker.t) (w : BaseTracker.env),
    BaseTracker.batch_size tr <> 0%Z ->
    BaseTracker.iter_end_time tr <> None ->
    exists tr' w',
      handle_all
        (flat_map (fun p => iteration_events is_main_process freq (fst p) (snd p))
                  pairs) tr w = (Ok tr', w')
      /\ (pairs <> [] ->
          BaseTracker.iter_idx tr'
          = Some (last (map fst pairs) 0%Z)
          /\ BaseTracker.t_data tr' <> None
          /\ BaseTracker.t_comp tr' <> None)
      /\ (pairs = [] -> tr' = tr).
Proof.
  induction pairs as [|[i d] rest IH]; intros tr w Hbatch Hend.
  - exists tr, w. split; [reflexivity|]. split; [intros Hne; now contradiction Hne|reflexivity].
  - cbn [flat_map fst snd]. rewrite handle_all_app.
    destruct (@handle_iteration is_main_process freq i d tr w Hbatch Hend)
      as (tr1 & w1 & -> & Hb1 & He1 & Hi1 & Hd1 & Hc1).
    destruct (IH tr1 w1) as (tr2 & w2 & -> & Hne & Hnil);
      [now rewrite Hb1|exact He1|].
    exists tr2, w2. split; [reflexivity|]. split; [|discriminate].
    intros _. destruct rest as [|p rest'].
    + rewrite (Hnil eq_refl). repeat split; assumption.
    + assert (Hp : p :: rest' <> []) by discriminate.
      destruct (Hne Hp) as (Hi2 & Hd2 & Hc2).
      repeat split; assumption.
Qed.

Lemma handle_run (is_main_process : bool) (freq : Z) (pairs : list (Z * data))
    (tr : BaseTracker.t) (w : BaseTracker.env) :
  BaseTracker.batch_size tr <> 0%Z ->
  exists tr' w',
    handle_all
      (run_prologue is_main_process
       ++ flat_map (fun p => iteration_events is_main_process freq (fst p) (snd p))
                   pairs
       ++ [Trainer.TrackerClose data]) tr w = (Ok tr', w')
    /\ (pairs <> [] ->
        BaseTracker.iter_idx tr' = Some (last (map fst pairs) 0%Z)
        /\ BaseTracker.t_data tr' <> None
        /\ BaseTracker.t_comp tr' <> None).
Proof.
  intros Hbatch. rewrite handle_all_app.
  assert (H0 : exists tr0 w0,
             handle_all (run_prologue is_main_process) tr w = (Ok tr0, w0)
             /\ BaseTracker.batch_size tr0 = BaseTracker.batch_size tr
             /\ BaseTracker.iter_end_time tr0 <> None).
  { unfold handle_all, run_prologue.
    destruct is_main_process; cbn; eexists; eexists;
      (split; [reflexivity|]); cbn; (split; [reflexivity|discriminate]). }
  destruct H0 as (tr0 & w0 & -> & Hb0 & He0).
  rewrite handle_all_app.
  destruct (@handle_iterations is_main_process freq pairs tr0 w0)
    as (tr1 & w1 & -> & Hne & _); [now rewrite Hb0|exact He0|].
  unfold handle_all. cbn [BaseTracker.handle_all BaseTracker.handle].
  eexists. eexists. split; [reflexivity|]. exact Hne.
Qed.
End TrackerCalls.

(** X17.  The timers of the tracker are called by [run] in an order in
    which they have what they read: with a batch size other than zero the
    calls that a completed [run] makes to [BaseTracker] raise nothing,
    whatever state the tracker started in, and after at least one iteration
    the tracker holds the trainer's iteration index and a data loading and a
    computation time. *)
Theorem run_calls_timers_in_order (data : Type) (clock : nat -> Q)
    (reduce : Q -> Q) (local_rank : Z) (is_main_process : bool)
    (self : Trainer.t data) (tr : BaseTracker.t) (w : BaseTracker.env) :
  Trainer.self_checkpoint_freq self <> 0%Z \/ is_main_process = false ->
  BaseTracker.batch_size tr <> 0%Z ->
  exists self' tr' w',
    Trainer.run is_main_process self = (Ok tt, self')
    /\ BaseTracker.handle_all clock reduce local_rank
         (skipn (List.length (Trainer.self_events self)) (Trainer.self_events self'))
         tr w = (Ok tr', w')
    /\ (Trainer.self_iters self <> [] -> Trainer.self_data_loader self <> [] ->
        BaseTracker.iter_idx tr' = Some (Trainer.self_iter_idx self')
        /\ BaseTracker.t_data tr' <> None
        /\ BaseTracker.t_comp tr' <> None).
Proof.
  intros Hfreq Hbatch.
  destruct (run_trace self Hfreq) as (self' & Hrun & Hev & Hidx).
  destruct (@handle_run data clock reduce local_rank is_main_process
              (Trainer.self_checkpoint_freq self)
              (combine (Trainer.self_iters self) (Trainer.self_data_loader self))
              tr w Hbatch) as (tr' & w' & Hhandle & Hne).
  exists self', tr', w'. split; [exact Hrun|]. split.
  - rewrite Hev, skipn_app, skipn_all, Nat.sub_diag. exact Hhandle.
  - intros Hiters Hloader.
    destruct (Trainer.self_iters self) as [|i iters]; [contradiction|].
    destruct (Trainer.self_data_loader self) as [|d loader]; [contradiction|].
    destruct Hne as (Hi & Hd & Hc); [discriminate|].
    repeat split; try assumption.
    rewrite Hi, Hidx. f_equal.
    cbn [combine map fst]. now rewrite !last_cons_default.
Qed.

Lemma run_calls_timers_in_order_witness :
  exists self' tr' w',
    Trainer.run true (Trainer.init 0 MoreFixtures.train_conf MoreFixtures.batches)
    = (Ok tt, self')
    /\ BaseTracker.handle_all MoreFixtures.seconds (fun x => x) 0
         (skipn (List.length
                   (Trainer.self_events
                      (Trainer.init 0 MoreFixtures.train_conf MoreFixtures.batches)))
                (Trainer.self_events self'))
         MoreFixtures.fresh_tracker (BaseTracker.mk_env 0 []) = (Ok tr', w')
    /\ (Trainer.self_iters
          (Trainer.init 0 MoreFixtures.train_conf MoreFixtures.batches) <> [] ->
        Trainer.self_data_loader
          (Trainer.init 0 MoreFixtures.train_conf MoreFixtures.batches) <> [] ->
        BaseTracker.iter_idx tr' = Some (Trainer.self_iter_idx self')
        /\ BaseTracker.t_data tr' <> None
        /\ BaseTracker.t_comp tr' <> None).
Proof.
  apply (@run_calls_timers_in_order nat MoreFixtures.seconds (fun x => x) 0 true
           (Trainer.init 0 MoreFixtures.train_conf MoreFixtures.batches)
           MoreFixtures.fresh_tracker (BaseTracker.mk_env 0 [])).
  - left. cbn. lia.
  - cbn. lia.
Defined.

(** X18.  A tracker made with one of the four modes touches the world only
    on local rank 0: there it makes the wandb and tensorboard trackers the
    configuration asks for, then the images directory of its mode, then
    writes the configuration to [<mode>_config.yaml] in the checkpoint
    directory, and [close] closes tensorboard when it was asked for; on every
    other rank the constructor and [close] do nothing. *)
Theorem tracker_acts_only_on_rank_0 (local_rank : Z) (conf : BaseTracker.Conf)
    (mode : string) (w : BaseTracker.env) :
  In mode BaseTracker.valid_modes ->
  exists self w',
    BaseTracker.init local_rank conf mode w = (Ok self, w')
    /\ BaseTracker.ticks w' = BaseTracker.ticks w
    /\ (local_rank <> 0%Z ->
        BaseTracker.effects w' = BaseTracker.effects w
        /\ forall w2, BaseTracker.close local_rank self w2 = w2)
    /\ (local_rank = 0%Z ->
        BaseTracker.effects w'
        = BaseTracker.effects w
          ++ (if BaseTracker.conf_wandb conf
              then [BaseTracker.NewWandbTracker] else [])
          ++ (if BaseTracker.conf_tensorboard conf
              then [BaseTracker.NewTensorboardTracker] else [])
          ++ [BaseTracker.Mkdirs
                (BaseTracker.conf_checkpoint_dir conf ++ [mode; "images"%string]);
              BaseTracker.WriteYaml
                (BaseTracker.conf_checkpoint_dir conf
                 ++ [(mode ++ "_config.yaml")%string]) conf]
        /\ forall w2,
             BaseTracker.effects (BaseTracker.close local_rank self w2)
             = BaseTracker.effects w2
               ++ (if BaseTracker.conf_tensorboard conf
                   then [BaseTracker.TensorboardClose] else [])).
Proof.
  intros Hmode.
  assert (Hvalid : existsb (String.eqb mode) BaseTracker.valid_modes = true).
  { apply existsb_exists. exists mode. split; [exact Hmode|apply String.eqb_refl]. }
  unfold BaseTracker.init. rewrite Hvalid.
  unfold BaseTracker.setup_wandb_tensorboard, BaseTracker.setup_images_dir,
    BaseTracker.save_config, BaseTracker.close.
  destruct (Z.eqb_spec local_rank 0) as [H0|H0].
  - eexists. eexists. split; [reflexivity|].
    split; [|split]; [| intros Hn; contradiction |].
    + destruct (BaseTracker.conf_wandb conf), (BaseTracker.conf_tensorboard conf);
        reflexivity.
    + intros _. split.
      * destruct (BaseTracker.conf_wandb conf), (BaseTracker.conf_tensorboard conf);
          cbn; rewrite <- ?app_assoc; reflexivity.
      * intros w2. cbn. destruct (BaseTracker.conf_tensorboard conf); cbn;
          [reflexivity|now rewrite app_nil_r].
  - eexists. eexists. split; [reflexivity|].
    split; [reflexivity|]. split; [|intros Hn; contradiction].
    intros _. split; [reflexivity|]. intros w2. reflexivity.
Qed.

Lemma tracker_acts_only_on_rank_0_witness :
  exists self w',
    BaseTracker.init 0 MoreFixtures.tracker_conf "training" (BaseTracker.mk_env 0 [])
    = (Ok self, w')
    /\ BaseTracker.ticks w' = 0
    /\ (0%Z <> 0%Z ->
        BaseTracker.effects w' = []
        /\ forall w2, BaseTracker.close 0 self w2 = w2)
    /\ (0%Z = 0%Z ->
        BaseTracker.effects w'
        = [BaseTracker.NewTensorboardTracker;
           BaseTracker.Mkdirs ["checkpoints"; "training"; "images"]%string;
           BaseTracker.WriteYaml ["checkpoints"; "training_config.yaml"]%string
             MoreFixtures.tracker_conf]
        /\ forall w2,
             BaseTracker.effects (BaseTracker.close 0 self w2)
             = BaseTracker.effects w2 ++ [BaseTracker.TensorboardClose]).
Proof.
  apply (@tracker_acts_only_on_rank_0 0 MoreFixtures.tracker_conf "training"
           (BaseTracker.mk_env 0 [])).
  cbn. left. reflexivity.
Defined.
